(** * Eagle Eye: record assembly, number normalisation, export and merge

    A shallow embedding of the scraping core of the Eagle Eye project
    ([eagle_eye_utils.py], [eagle_eye_videos.py], [eagle_eye_streams.py],
    [eagle_eye_shorts.py], [eagle_eye_main.py]) and the properties of its
    specification.

    Conventions of the embedding.
    - A Python [str] is a Rocq [string], one character per code point; the
      alphabet is the code points below 256.
    - A Python exception is a value of [exn]; a computation that may raise
      has type [result A].
    - A Python [float] is a binary64 number of [SpecFloat].
    - The standard input is the list of the lines it still holds; [input]
      takes the first one, and raises [EOFError] when there is none.
    - A file is kept as what it holds: a text as its characters, a file
      written by pandas or [json] as the table or the records it
      serialises, not as the characters of the serialisation. Folders are
      not kept: a write takes the folder of its path to exist, as it does
      for a channel name without a separator.
    - A scraper is followed from the page on: what it is given is the
      outcome of loading and querying the page in a browser that has
      started. A browser that does not start, after which the [finally]
      clause reads a driver that was never bound, is outside the
      embedding. *)

From Stdlib Require Import ZArith List String Ascii Bool Lia.
From Stdlib Require Import Floats.SpecFloat.
From Stdlib Require Import DecimalString.
Import ListNotations.

Local Open Scope string_scope.
Local Open Scope Z_scope.

(** ** Exceptions *)

Inductive exn : Type :=
  | IndexError
  | ValueError
  | OverflowError
  | UnboundLocalError
  | LibraryError (name : string).

Inductive result (A : Type) : Type :=
  | Ok (a : A)
  | Raise (e : exn).

Arguments Ok {A} a.
Arguments Raise {A} e.

Definition bind {A B : Type} (r : result A) (k : A -> result B) : result B :=
  match r with
  | Ok a => k a
  | Raise e => Raise e
  end.

Notation "x <- r ;; k" := (bind r (fun x => k))
  (at level 61, r at next level, right associativity).

Definition raises {A : Type} (r : result A) : bool :=
  match r with
  | Ok _ => false
  | Raise _ => true
  end.

(** ** Python built-ins on strings and lists *)

Module Py.

Definition chars (s : string) : list ascii := list_ascii_of_string s.
Definition str (l : list ascii) : string := string_of_list_ascii l.

Definition code (c : ascii) : nat := nat_of_ascii c.

(** [s[-1]] *)
Definition last_char (s : string) : result ascii :=
  match rev (chars s) with
  | [] => Raise IndexError
  | c :: _ => Ok c
  end.

(** [s[:-1]] *)
Definition drop_last (s : string) : string :=
  str (removelast (chars s)).

(** [l[i]] for a non-negative index *)
Definition index {A : Type} (l : list A) (i : nat) : result A :=
  match nth_error l i with
  | Some a => Ok a
  | None => Raise IndexError
  end.

(** [l[0::2]] and [l[1::2]] *)
Fixpoint evens {A : Type} (l : list A) : list A :=
  match l with
  | [] => []
  | a :: l' =>
      a :: match l' with
           | [] => []
           | _ :: l'' => evens l''
           end
  end.

Definition odds {A : Type} (l : list A) : list A :=
  match l with
  | [] => []
  | _ :: l' => evens l'
  end.

(** [s.split(c)] for a one-character separator: never empty. *)
Fixpoint split_chars (c : ascii) (l : list ascii) : list (list ascii) :=
  match l with
  | [] => [[]]
  | a :: l' =>
      if Ascii.eqb a c then [] :: split_chars c l'
      else match split_chars c l' with
           | [] => [[a]]
           | w :: ws => (a :: w) :: ws
           end
  end.

Definition split (c : ascii) (s : string) : list string :=
  map str (split_chars c (chars s)).

(** [s.split(c)[0]] and [s.split(c)[-1]] *)
Definition split_first (c : ascii) (s : string) : string :=
  hd "" (split c s).

Definition split_last (c : ascii) (s : string) : string :=
  last (split c s) "".

(** [sep.join(l)] *)
Fixpoint join (sep : string) (l : list string) : string :=
  match l with
  | [] => ""
  | [s] => s
  | s :: l' => s ++ sep ++ join sep l'
  end.

(** [str.isspace] on one code point below 256 *)
Definition isspace (c : ascii) : bool :=
  let n := code c in
  ((9 <=? n) && (n <=? 13) || (28 <=? n) && (n <=? 32)
   || (n =? 133) || (n =? 160))%nat.

Fixpoint lstrip_chars (l : list ascii) : list ascii :=
  match l with
  | [] => []
  | a :: l' => if isspace a then lstrip_chars l' else l
  end.

Definition strip_chars (l : list ascii) : list ascii :=
  rev (lstrip_chars (rev (lstrip_chars l))).

(** [s.strip()] *)
Definition strip (s : string) : string := str (strip_chars (chars s)).

(** [s.endswith(t)] *)
Definition endswith (s t : string) : bool :=
  let ls := String.length s in
  let lt := String.length t in
  (lt <=? ls)%nat && String.eqb (substring (ls - lt) lt s) t.

(** [s.startswith(t)] *)
Definition startswith (s t : string) : bool := prefix t s.

Definition tab : ascii := ascii_of_nat 9.
Definition newline : ascii := ascii_of_nat 10.

End Py.

Definition TAB : string := String Py.tab "".
Definition NL : string := String Py.newline "".

(** ** Python floats: [float(str)], [float * int], [int(float)] *)

Module PyFloat.

Definition prec : Z := 53.
Definition emax : Z := 1024.

Definition is_digit (c : ascii) : bool :=
  let n := Py.code c in ((48 <=? n) && (n <=? 57))%nat.

Definition digit_val (c : ascii) : Z := Z.of_nat (Py.code c) - 48.

(** PEP 515: an underscore is dropped when it stands between two digits,
    and the string is rejected otherwise. [prev] is the character just
    read. *)
Fixpoint drop_underscores (prev : option ascii) (l : list ascii)
  : option (list ascii) :=
  match l with
  | [] =>
      match prev with
      | Some "_"%char => None
      | _ => Some []
      end
  | "_"%char :: l' =>
      match prev with
      | Some p =>
          if is_digit p then drop_underscores (Some "_"%char) l' else None
      | None => None
      end
  | c :: l' =>
      let after_underscore :=
        match prev with
        | Some "_"%char => true
        | _ => false
        end in
      if after_underscore && negb (is_digit c) then None
      else option_map (cons c) (drop_underscores (Some c) l')
  end.

Fixpoint span_digits (l : list ascii) : list ascii * list ascii :=
  match l with
  | [] => ([], [])
  | c :: l' =>
      if is_digit c then
        let '(d, r) := span_digits l' in (c :: d, r)
      else ([], l)
  end.

Definition digits_val (d : list ascii) : Z :=
  fold_left (fun acc c => 10 * acc + digit_val c) d 0.

Definition take_sign (l : list ascii) : bool * list ascii :=
  match l with
  | "-"%char :: l' => (true, l')
  | "+"%char :: l' => (false, l')
  | _ => (false, l)
  end.

(** The exponent part [e[+-]digits]; without a digit nothing is consumed. *)
Definition take_exponent (l : list ascii) : Z * list ascii :=
  match l with
  | c :: l' =>
      if Ascii.eqb c "e" || Ascii.eqb c "E" then
        let '(neg, l'') := take_sign l' in
        match span_digits l'' with
        | ([], _) => (0, l)
        | (d, r) => (if neg then - digits_val d else digits_val d, r)
        end
      else (0, l)
  | [] => (0, l)
  end.

(** The value [m * 10^e] rounded to the nearest binary64 number, ties to
    even. *)
Definition of_decimal (neg : bool) (m e : Z) : spec_float :=
  match m with
  | Zpos p =>
      if 0 <=? e then
        binary_round prec emax neg (p * Z.to_pos (10 ^ e)) 0
      else
        SFdiv prec emax (S754_finite neg p 0)
              (S754_finite false (Z.to_pos (10 ^ (- e))) 0)
  | _ => S754_zero neg
  end.

(** An unsigned decimal literal: digits, optional point, digits, with at
    least one digit, then an optional exponent. Returns the mantissa, the
    decimal exponent and what is left of the input. *)
Definition take_decimal (l : list ascii) : option (Z * Z * list ascii) :=
  let '(ip, r1) := span_digits l in
  let '(fp, r2) :=
    match r1 with
    | "."%char :: r => span_digits r
    | _ => ([], r1)
    end in
  match (ip ++ fp)%list with
  | [] => None
  | ds =>
      let '(ex, r3) := take_exponent r2 in
      Some (digits_val ds, ex - Z.of_nat (List.length fp), r3)
  end.

Definition lower (c : ascii) : ascii :=
  let n := Py.code c in
  if ((65 <=? n) && (n <=? 90))%nat then ascii_of_nat (n + 32) else c.

(** [inf], [infinity] and [nan], in any case, after the sign. *)
Definition inf_or_nan (neg : bool) (l : list ascii) : option spec_float :=
  let w := Py.str (map lower l) in
  if String.eqb w "inf" || String.eqb w "infinity" then
    Some (S754_infinity neg)
  else if String.eqb w "nan" then Some S754_nan
  else None.

(** The blanks [float] skips at both ends: the ASCII ones, and the other
    white space below 256. The separators 28 to 31 are not among them. *)
Definition isspace (c : ascii) : bool :=
  let n := Py.code c in
  ((9 <=? n) && (n <=? 13) || (n =? 32) || (n =? 133) || (n =? 160))%nat.

Fixpoint lstrip (l : list ascii) : list ascii :=
  match l with
  | [] => []
  | a :: l' => if isspace a then lstrip l' else l
  end.

(** [float(s)]: [None] stands for [ValueError]. *)
Definition parse (s : string) : option spec_float :=
  match drop_underscores None (Py.chars s) with
  | None => None
  | Some l =>
      let body := rev (lstrip (rev (lstrip l))) in
      let '(neg, r) := take_sign body in
      match take_decimal r with
      | Some (m, e, []) => Some (of_decimal neg m e)
      | Some (_, _, _ :: _) => None
      | None => inf_or_nan neg r
      end
  end.

Definition float (s : string) : result spec_float :=
  match parse s with
  | Some x => Ok x
  | None => Raise ValueError
  end.

(** [float(n)] for a Python int [n] *)
Definition of_int (n : Z) : spec_float :=
  binary_normalize prec emax n 0 false.

Definition mul (x y : spec_float) : spec_float := SFmul prec emax x y.

(** [int(x)]: truncation toward zero. *)
Definition int (x : spec_float) : result Z :=
  match x with
  | S754_nan => Raise ValueError
  | S754_infinity _ => Raise OverflowError
  | S754_zero _ => Ok 0
  | S754_finite s m e =>
      let mag := if 0 <=? e then Zpos m * 2 ^ e else Zpos m / 2 ^ (- e) in
      Ok (if s then - mag else mag)
  end.

End PyFloat.

(** ** [f"{n:,}"] *)

Module PyFormat.

Definition decimal (n : Z) : list ascii :=
  Py.chars (NilZero.string_of_uint (N.to_uint (Z.abs_N n))).

(** Commas between groups of three digits; the digits come least
    significant first and [k] counts those already placed in the
    current group. *)
Fixpoint group3 (k : nat) (rev_digits acc : list ascii) : list ascii :=
  match rev_digits with
  | [] => acc
  | d :: ds =>
      match k with
      | 3%nat => group3 1 ds (d :: ","%char :: acc)
      | _ => group3 (S k) ds (d :: acc)
      end
  end.

Definition commas (n : Z) : string :=
  let body := group3 0 (rev (decimal n)) [] in
  Py.str (if n <? 0 then "-"%char :: body else body).

End PyFormat.

(** ** [repr] of a [str] and of a list of [str], as an f-string renders a
    list *)

Module PyRepr.

Definition hex_digit (n : nat) : ascii :=
  if (n <? 10)%nat then ascii_of_nat (48 + n) else ascii_of_nat (87 + n).

Definition hex_escape (c : ascii) : list ascii :=
  let n := Py.code c in
  ["\"%char; "x"%char; hex_digit (n / 16); hex_digit (n mod 16)].

Definition printable (c : ascii) : bool :=
  let n := Py.code c in
  ((32 <=? n) && (n <? 127) || (161 <=? n) && negb (n =? 173))%nat.

Definition escape (quote c : ascii) : list ascii :=
  if Ascii.eqb c quote || Ascii.eqb c "\" then ["\"%char; c]
  else if Ascii.eqb c Py.tab then ["\"%char; "t"%char]
  else if Ascii.eqb c Py.newline then ["\"%char; "n"%char]
  else if Ascii.eqb c (ascii_of_nat 13) then ["\"%char; "r"%char]
  else if printable c then [c]
  else hex_escape c.

Definition mem (c : ascii) (l : list ascii) : bool :=
  existsb (Ascii.eqb c) l.

Definition dquote : ascii := ascii_of_nat 34.

Definition repr_str (s : string) : string :=
  let l := Py.chars s in
  let quote :=
    if mem "'"%char l && negb (mem dquote l) then dquote
    else "'"%char in
  Py.str ((quote :: flat_map (escape quote) l) ++ [quote])%list.

Definition repr_list (l : list string) : string :=
  "[" ++ Py.join ", " (map repr_str l) ++ "]".

End PyRepr.

(** ** pandas: the part of the data-frame interface the program calls *)

Module Pandas.

Inductive cell : Type :=
  | CStr (s : string)
  | CInt (n : Z)
  | CFloat (x : spec_float)
  | CBool (b : bool)
  | CNone.

Record DataFrame : Type := {
  columns : list string;
  rows : list (list cell)
}.

Fixpoint pad (w : nat) (r : list cell) : list cell :=
  match w with
  | O => r
  | S w' =>
      match r with
      | [] => CNone :: pad w' []
      | c :: r' => c :: pad w' r'
      end
  end.

Definition width (data : list (list string)) : nat :=
  fold_right Nat.max O (map (@List.length string) data).

(** [pd.DataFrame(data, columns=cols)] for a list of lists of [str]:
    short rows are filled with [None], and a width other than the number
    of columns is a [ValueError]. *)
Definition from_rows (data : list (list string)) (cols : list string)
  : result DataFrame :=
  match data with
  | [] => Ok {| columns := cols; rows := [] |}
  | _ =>
      if (width data =? List.length cols)%nat then
        Ok {| columns := cols;
              rows := map (fun r => pad (width data) (map CStr r)) data |}
      else Raise ValueError
  end.

Fixpoint unique (l : list string) : bool :=
  match l with
  | [] => true
  | a :: l' => negb (existsb (String.eqb a) l') && unique l'
  end.

(** [json.loads(df.to_json(orient='records'))]: one object per row, keys
    in column order; the columns must be unique. *)
Definition to_records (df : DataFrame)
  : result (list (list (string * cell))) :=
  if unique (columns df) then Ok (map (combine (columns df)) (rows df))
  else Raise ValueError.

Fixpoint assoc (k : string) (l : list (string * cell)) : option cell :=
  match l with
  | [] => None
  | (k', v) :: l' => if String.eqb k k' then Some v else assoc k l'
  end.

Definition reindex (cols : list string) (df : DataFrame)
  : list (list cell) :=
  map (fun r =>
         map (fun c =>
                match assoc c (combine (columns df) r) with
                | Some v => v
                | None => CNone
                end) cols)
      (rows df).

Fixpoint union_columns (seen : list string) (dfs : list DataFrame)
  : list string :=
  match dfs with
  | [] => seen
  | df :: dfs' =>
      union_columns
        (seen ++ filter (fun c => negb (existsb (String.eqb c) seen))
                        (columns df))%list
        dfs'
  end.

Definition same_columns (dfs : list DataFrame) : bool :=
  match dfs with
  | [] => true
  | df :: dfs' =>
      forallb (fun d => if list_eq_dec string_dec (columns d) (columns df)
                        then true else false) dfs'
  end.

(** [pd.concat(dfs, ignore_index=True)]: frames with one header are
    stacked; otherwise the headers are united in order of appearance and
    the missing cells filled, which needs unique headers. The cells are
    stacked as they are: pandas gives a column of the result one type,
    and keeps every value only when no column mixes integers with floats
    or with missing cells. *)
Definition concat (dfs : list DataFrame) : result DataFrame :=
  match dfs with
  | [] => Raise ValueError
  | df :: _ =>
      if same_columns dfs then
        Ok {| columns := columns df; rows := flat_map rows dfs |}
      else if forallb (fun d => unique (columns d)) dfs then
        let cols := union_columns [] dfs in
        Ok {| columns := cols; rows := flat_map (reindex cols) dfs |}
      else Raise (LibraryError "InvalidIndexError")
  end.

(** What [df.to_excel] makes of the frame before it opens the file: a
    frame of more than 2^20 rows or 2^14 columns is a [ValueError]. *)
Definition too_large (df : DataFrame) : bool :=
  (2 ^ 20 <? Z.of_nat (List.length (rows df)))
  || (2 ^ 14 <? Z.of_nat (List.length (columns df))).

(** The characters a worksheet refuses in a text: the control characters
    other than tab, line feed and carriage return. *)
Definition illegal_character (c : ascii) : bool :=
  let n := Py.code c in
  ((n <=? 8) || (11 <=? n) && (n <=? 12) || (14 <=? n) && (n <=? 31))%nat.

(** A text is cut at 32767 characters, then checked. *)
Definition sheet_chars (s : string) : list ascii :=
  firstn (Z.to_nat 32767) (Py.chars s).

Definition refused (s : string) : bool :=
  existsb illegal_character (sheet_chars s).

Definition refused_cell (c : cell) : bool :=
  match c with
  | CStr s => refused s
  | _ => false
  end.

Definition sheet_cell (c : cell) : cell :=
  match c with
  | CStr s => CStr (Py.str (sheet_chars s))
  | _ => c
  end.

(** The table a worksheet holds once the frame is written to it. *)
Definition sheet (df : DataFrame) : DataFrame :=
  {| columns := map (fun s => Py.str (sheet_chars s)) (columns df);
     rows := map (map sheet_cell) (rows df) |}.

End Pandas.

(** ** Files *)

Module Os.

Import Pandas.

(** What a file holds. A file written by pandas or [json] is kept as the
    table it serialises, not as its text: a reader of the text finds
    the rows of the table, field for field, as long as no cell holds a
    carriage return, which is written without quotes. [Unfinished] is a
    file that was opened for writing by a call that raised before it had
    written all of it. *)
Inductive content : Type :=
  | Text (s : string)
  | Delimited (sep : string) (df : DataFrame)
  | Excel (df : DataFrame)
  | Json (records : list (list (string * cell)))
  | Unfinished.

(** Path to content, in directory order. A path is the string the
    program passes to the system: two spellings of one place are two
    keys. Folders are not kept; their creation is outside the model. *)
Definition store : Type := list (string * content).

Fixpoint lookup (p : string) (s : store) : option content :=
  match s with
  | [] => None
  | (q, c) :: s' => if String.eqb q p then Some c else lookup p s'
  end.

(** Opening for writing truncates: the old content is replaced. *)
Fixpoint write (p : string) (c : content) (s : store) : store :=
  match s with
  | [] => [(p, c)]
  | (q, d) :: s' =>
      if String.eqb q p then (p, c) :: s' else (q, d) :: write p c s'
  end.

Definition SEP : string := "/".

Definition dir_prefix (a : string) : string :=
  if String.eqb a "" || Py.endswith a SEP then a else a ++ SEP.

(** [os.path.join(a, b)] *)
Definition path_join (a b : string) : string :=
  if Py.startswith b SEP then b else dir_prefix a ++ b.

Definition has_sep (n : string) : bool :=
  existsb (Ascii.eqb "/"%char) (Py.chars n).

(** The name under which [p] is listed in [folder], if it is a file
    directly inside. *)
Definition entry_name (folder p : string) : option string :=
  let d := dir_prefix folder in
  if prefix d p then
    let n := substring (String.length d)
                       (String.length p - String.length d) p in
    if String.eqb n "" || has_sep n then None else Some n
  else None.

(** [os.listdir(folder)], files only. *)
Fixpoint listdir (folder : string) (s : store) : list string :=
  match s with
  | [] => []
  | (p, _) :: s' =>
      match entry_name folder p with
      | Some n => n :: listdir folder s'
      | None => listdir folder s'
      end
  end.

End Os.

(** ** The process: files and console *)

Inductive message : Type :=
  | NoSummaryFilesFound
  | SummaryFilesMerged
  | ChannelHas (input_value : string) (total : nat)
  | ErrorWhileScraping (input_value : string) (e : exn).

Record world : Type := {
  files : Os.store;
  stdout : list message
}.

Definition io (A : Type) : Type := world -> world * result A.

Definition ret {A : Type} (a : A) : io A := fun w => (w, Ok a).

Definition lift {A : Type} (r : result A) : io A := fun w => (w, r).

Definition io_bind {A B : Type} (m : io A) (k : A -> io B) : io B :=
  fun w =>
    match m w with
    | (w', Ok a) => k a w'
    | (w', Raise e) => (w', Raise e)
    end.

Notation "x <~ m ;; k" := (io_bind m (fun x => k))
  (at level 61, m at next level, right associativity).
Notation "m ;;; k" := (io_bind m (fun _ => k))
  (at level 61, right associativity).

Definition print (m : message) : io unit :=
  fun w => ({| files := files w; stdout := stdout w ++ [m] |}, Ok tt).

(** Opening [p] for writing and writing [c], in a folder that exists. The
    scrapers make the folder of a channel before they write; it is the
    folder of their files when the channel name holds no separator. *)
Definition write_file (p : string) (c : Os.content) : io unit :=
  fun w => ({| files := Os.write p c (files w); stdout := stdout w |}, Ok tt).

Definition read_file (p : string) : io (option Os.content) :=
  fun w => (w, Ok (Os.lookup p (files w))).

Fixpoint io_map {A B : Type} (f : A -> io B) (l : list A) : io (list B) :=
  match l with
  | [] => ret []
  | a :: l' => b <~ f a ;; bs <~ io_map f l' ;; ret (b :: bs)
  end.

(** [df.to_excel(p, index=False)] on a frame of any content. A frame too
    large is refused before the file is opened. A text with a character
    the worksheet refuses raises when its cell is reached: the file was
    opened by then, and is closed with the cells written so far. The
    scrapers write frames made of the texts of a parsed page, taken to
    hold no such character, and write the workbook directly. *)
Definition to_excel (p : string) (df : Pandas.DataFrame) : io unit :=
  if Pandas.too_large df then lift (Raise ValueError)
  else if existsb Pandas.refused (Pandas.columns df)
          || existsb (existsb Pandas.refused_cell) (Pandas.rows df) then
    write_file p Os.Unfinished ;;;
    lift (Raise (LibraryError "IllegalCharacterError"))
  else write_file p (Os.Excel (Pandas.sheet df)).

(** ** [eagle_eye_utils.py] *)

Module eagle_eye_utils.

Import Pandas Os.

Definition suffix_multiplier : list (ascii * Z) :=
  [("K"%char, 1000); ("M"%char, 1000000);
   ("k"%char, 1000); ("m"%char, 1000000)].

Fixpoint dict_get (d : list (ascii * Z)) (k : ascii) : option Z :=
  match d with
  | [] => None
  | (k', v) :: d' => if Ascii.eqb k k' then Some v else dict_get d' k
  end.

(** The body of the [try] block of [format_number]. *)
Definition format_number_try (number : string) : result string :=
  suffix <- Py.last_char number ;;
  let multiplier :=
    match dict_get suffix_multiplier suffix with
    | Some v => v
    | None => 1
    end in
  num <- (match dict_get suffix_multiplier suffix with
          | Some _ => PyFloat.float (Py.drop_last number)
          | None => PyFloat.float number
          end) ;;
  let num := PyFloat.mul num (PyFloat.of_int multiplier) in
  num <- PyFloat.int num ;;
  Ok (PyFormat.commas num).

(** [format_number]: only [ValueError] is handled. *)
Definition format_number (number : string) : result string :=
  match format_number_try number with
  | Raise ValueError => Ok number
  | r => r
  end.

Section Merge.

(** [pd.read_csv] applied, with a separator, to what a path holds. *)
Variable read_csv : string -> option content -> result DataFrame.

Definition summary_files (folder_path : string) (s : store)
  : list string :=
  filter (fun file => Py.endswith file "_summary.csv")
         (listdir folder_path s).

Definition merge_summary_files (folder_path : string) : io unit :=
  fun w =>
    match summary_files folder_path (files w) with
    | [] => print NoSummaryFilesFound w
    | fs =>
        (dfs <~ io_map (fun file =>
                          c <~ read_file (path_join folder_path file) ;;
                          lift (read_csv "," c)) fs ;;
         merged_df <~ lift (concat dfs) ;;
         write_file (path_join folder_path "summary_all_channels.csv")
                    (Delimited "," merged_df) ;;;
         write_file (path_join folder_path "summary_all_channels.txt")
                    (Delimited TAB merged_df) ;;;
         to_excel (path_join folder_path "summary_all_channels.xlsx")
                  merged_df ;;;
         records <~ lift (to_records merged_df) ;;
         write_file (path_join folder_path "summary_all_channels.json")
                    (Json records) ;;;
         print SummaryFilesMerged) w
    end.

End Merge.

End eagle_eye_utils.

(** ** What the scrapers read *)

(** The clock: [datetime.datetime.now()], with fields in the ranges of
    [datetime] and a year of four digits. *)
Record datetime : Type := {
  year : nat; month : nat; day : nat;
  hour : nat; minute : nat; second : nat
}.

Definition digit (n : nat) : ascii := ascii_of_nat (48 + n mod 10).

Definition pad2 (n : nat) : string :=
  String (digit (n / 10)) (String (digit n) "").

Definition pad4 (n : nat) : string :=
  String (digit (n / 1000)) (String (digit (n / 100)) (pad2 n)).

(** [strftime("%Y%m%d_%H%M%S")] *)
Definition strftime (d : datetime) : string :=
  pad4 (year d) ++ pad2 (month d) ++ pad2 (day d) ++ "_"
  ++ pad2 (hour d) ++ pad2 (minute d) ++ pad2 (second d).

(** The results of the queries on the parsed page. Each sequence lists, in
    document order, the text or the [href] that the loop reads from the
    elements found. [uploads] and [counts] come from one query, as do
    [video_ids] and [video_links]; the loops read them as separate lists.
    [subscribers] is the count as the scraper keeps it: the videos scraper
    has passed it through [format_number]. *)
Record page : Type := {
  cname : string;
  channel_ids : string;
  subscribers : string;
  description : string;
  keywords : list string;
  joined : string;
  location : string;
  global_views : string;
  titles : list string;
  uploads : list string;
  counts : list string;
  video_ids : list string;
  video_links : list string;
  terms : list string
}.

(** [i >= max_videos] when a maximum is given *)
Definition reached (max_videos : option Z) (i : nat) : bool :=
  match max_videos with
  | Some m => m <=? Z.of_nat i
  | None => false
  end.

(** The header line and one tab-joined line per record. *)
Definition txt_lines (header : string) (data : list (list string)) : string :=
  header ++ String.concat "" (map (fun info => Py.join TAB info ++ NL) data).

(** A local variable that is read: unbound when never assigned. *)
Definition local {A : Type} (v : option A) : result A :=
  match v with
  | Some a => Ok a
  | None => Raise UnboundLocalError
  end.

(** ** [eagle_eye_videos.py] *)

Module eagle_eye_videos.

Import Pandas Os.

Record locals : Type := {
  video_data : list (list string);
  channel_id : option string;
  subscriber : option string;
  keyword : option (list string)
}.

Definition start : locals :=
  {| video_data := []; channel_id := None; subscriber := None;
     keyword := None |}.

(** The statements of the loop body that read the page at index [i], up to
    the f-string. *)
Definition video_info (pg : page) (i : nat) : result string :=
  title <- Py.index (titles pg) i ;;
  published <- Py.index (Py.odds (uploads pg)) i ;;
  counter <- Py.index (Py.evens (counts pg)) i ;;
  let counter_view := Py.split_first " " counter in
  view <- eagle_eye_utils.format_number counter_view ;;
  href <- Py.index (video_ids pg) i ;;
  let video_id := Py.split_last "=" href in
  link <- Py.index (video_links pg) i ;;
  term <- Py.index (Py.evens (terms pg)) i ;;
  let term := Py.strip term in
  Ok (cname pg ++ TAB ++ channel_ids pg ++ TAB ++ title ++ TAB ++ published
      ++ TAB ++ view ++ TAB ++ video_id ++ TAB
      ++ "https://www.youtube.com" ++ link ++ TAB ++ term).

(** The loop over [range(total)]: the state reached and the exception that
    ended it, if one did. *)
Fixpoint loop (pg : page) (max_videos : option Z) (range : list nat)
  (st : locals) : locals * option exn :=
  match range with
  | [] => (st, None)
  | i :: range' =>
      if reached max_videos i then (st, None)
      else
        let st1 :=
          {| video_data := video_data st;
             channel_id := Some (channel_ids pg);
             subscriber := Some (subscribers pg);
             keyword := Some (keywords pg) |} in
        match video_info pg i with
        | Raise e => (st1, Some e)
        | Ok info =>
            loop pg max_videos range'
              {| video_data := video_data st1 ++ [Py.split Py.tab info];
                 channel_id := channel_id st1;
                 subscriber := subscriber st1;
                 keyword := keyword st1 |}
        end
  end.

Definition assemble (pg : page) (max_videos : option Z)
  : locals * option exn :=
  loop pg max_videos (seq 0 (List.length (titles pg))) start.

Definition video_columns : list string :=
  ["Channel"; "Identifier"; "Title"; "Published"; "Video_views";
   "Video_id"; "Link"; "Duration"].

Definition summary_columns : list string :=
  ["Channel"; "Identifier"; "Description"; "Keywords"; "Subscribers";
   "Joined"; "Location"; "Global_views"].

Definition channel_folder (pg : page) : string :=
  path_join "downloads" (cname pg).

Definition video_name (pg : page) (current_datetime ext : string) : string :=
  cname pg ++ "_videos_" ++ current_datetime ++ ext.

Definition summary_name (pg : page) (current_datetime ext : string)
  : string :=
  cname pg ++ "_summary_" ++ current_datetime ++ ext.

Definition video_path (pg : page) (current_datetime ext : string) : string :=
  path_join (channel_folder pg) (video_name pg current_datetime ext).

Definition summary_path (pg : page) (current_datetime ext : string)
  : string :=
  path_join (channel_folder pg) (summary_name pg current_datetime ext).

(** The branch [choice_info == "1"]. *)
Definition save_videos (pg : page) (st : locals) (current_datetime : string)
  : io unit :=
  write_file (video_path pg current_datetime ".txt")
    (Text (txt_lines
             ("Channel" ++ TAB ++ "Identifier" ++ TAB ++ "Title" ++ TAB
              ++ "Published" ++ TAB ++ "Video_views" ++ TAB ++ "Video_id"
              ++ TAB ++ "Link" ++ TAB ++ "Duration" ++ NL)
             (video_data st))) ;;;
  df <~ lift (from_rows (video_data st) video_columns) ;;
  write_file (video_path pg current_datetime ".csv") (Delimited "," df) ;;;
  write_file (video_path pg current_datetime ".xlsx") (Excel df) ;;;
  records <~ lift (to_records df) ;;
  write_file (video_path pg current_datetime ".json") (Json records).

(** The record of the branch [choice_info == "2"]. *)
Definition channel_info (pg : page) (st : locals) : result (list string) :=
  channel_id <- local (channel_id st) ;;
  keyword <- local (keyword st) ;;
  subscriber <- local (subscriber st) ;;
  Ok (Py.split Py.tab
        (cname pg ++ TAB ++ channel_id ++ TAB ++ description pg ++ TAB
         ++ PyRepr.repr_list keyword ++ TAB ++ subscriber ++ TAB
         ++ joined pg ++ TAB ++ location pg ++ TAB ++ global_views pg)).

Section Summary.

Variable read_csv : string -> option content -> result DataFrame.

(** The branch [choice_info == "2"]. *)
Definition save_summary (pg : page) (st : locals) (current_datetime : string)
  : io unit :=
  info <~ lift (channel_info pg st) ;;
  let channel_data := [info] in
  write_file (summary_path pg current_datetime ".txt")
    (Text (txt_lines
             ("Channel" ++ TAB ++ "Identifier" ++ TAB ++ "Description" ++ TAB
              ++ "Keywords" ++ TAB ++ "Subscribers" ++ TAB ++ "Joined" ++ TAB
              ++ "location" ++ TAB ++ "global_views" ++ NL)
             channel_data)) ;;;
  df <~ lift (from_rows channel_data summary_columns) ;;
  write_file (summary_path pg current_datetime ".csv") (Delimited "," df) ;;;
  write_file (summary_path pg current_datetime ".xlsx") (Excel df) ;;;
  records <~ lift (to_records df) ;;
  write_file (summary_path pg current_datetime ".json") (Json records) ;;;
  eagle_eye_utils.merge_summary_files read_csv "./downloads/summary_channels".

Definition save (pg : page) (st : locals) (choice_info : string)
  (now : datetime) : io unit :=
  let current_datetime := strftime now in
  if String.eqb choice_info "1" then save_videos pg st current_datetime
  else if String.eqb choice_info "2" then save_summary pg st current_datetime
  else ret tt.

(** [scrape_channel], from the parsed page on. [extracted] is the outcome
    of loading the page and of the queries on it, with the driver that
    [setup_webdriver] returned; [user_choice_info] is the choice
    [get_user_choice_info] returns. The exception handler reports and
    falls through to [return video_data]. *)
Definition scrape_channel (input_value : string) (extracted : result page)
  (max_videos : option Z) (user_choice_info : string) (now : datetime)
  (w : world) : list (list string) * world :=
  match extracted with
  | Raise e => ([], fst (print (ErrorWhileScraping input_value e) w))
  | Ok pg =>
      match assemble pg max_videos with
      | (st, Some e) =>
          (video_data st, fst (print (ErrorWhileScraping input_value e) w))
      | (st, None) =>
          match (print (ChannelHas input_value (List.length (titles pg))) ;;;
                 save pg st user_choice_info now) w with
          | (w', Raise e) =>
              (video_data st,
               fst (print (ErrorWhileScraping input_value e) w'))
          | (w', Ok _) => (video_data st, w')
          end
      end
  end.

End Summary.

End eagle_eye_videos.

(** ** [eagle_eye_streams.py] *)

Module eagle_eye_streams.

Import Pandas Os.

Definition video_info (pg : page) (i : nat) : result string :=
  title <- Py.index (titles pg) i ;;
  published <- Py.index (Py.odds (uploads pg)) i ;;
  counter <- Py.index (Py.evens (counts pg)) i ;;
  let counter_view := Py.split_first " " counter in
  view <- eagle_eye_utils.format_number counter_view ;;
  href <- Py.index (video_ids pg) i ;;
  let video_id := Py.split_last "=" href in
  link <- Py.index (video_links pg) i ;;
  term <- Py.index (Py.evens (terms pg)) i ;;
  let term := Py.strip term in
  Ok (cname pg ++ TAB ++ channel_ids pg ++ TAB ++ title ++ TAB ++ published
      ++ TAB ++ view ++ TAB ++ video_id ++ TAB
      ++ "https://www.youtube.com" ++ link ++ TAB ++ term).

Fixpoint loop (pg : page) (max_videos : option Z) (range : list nat)
  (video_data : list (list string)) : list (list string) * option exn :=
  match range with
  | [] => (video_data, None)
  | i :: range' =>
      if reached max_videos i then (video_data, None)
      else
        match video_info pg i with
        | Raise e => (video_data, Some e)
        | Ok info =>
            loop pg max_videos range'
                 (video_data ++ [Py.split Py.tab info])
        end
  end.

Definition assemble (pg : page) (max_videos : option Z)
  : list (list string) * option exn :=
  loop pg max_videos (seq 0 (List.length (titles pg))) [].

Definition video_columns : list string :=
  ["Channel"; "Identifier"; "Title"; "Published"; "Video_views";
   "Video_id"; "Link"; "Duration"].

Definition channel_folder (pg : page) : string :=
  path_join "downloads" (cname pg).

Definition stream_name (pg : page) (current_datetime ext : string)
  : string :=
  cname pg ++ "_streams_" ++ current_datetime ++ ext.

Definition stream_path (pg : page) (current_datetime ext : string)
  : string :=
  path_join (channel_folder pg) (stream_name pg current_datetime ext).

Definition save (pg : page) (video_data : list (list string))
  (now : datetime) : io unit :=
  let current_datetime := strftime now in
  write_file (stream_path pg current_datetime ".txt")
    (Text (txt_lines
             ("Channel" ++ TAB ++ "Identifier" ++ TAB ++ "Title" ++ TAB
              ++ "Published" ++ TAB ++ "Video_views" ++ TAB ++ "Video_id"
              ++ TAB ++ "Link" ++ TAB ++ "Duration" ++ NL)
             video_data)) ;;;
  df <~ lift (from_rows video_data video_columns) ;;
  write_file (stream_path pg current_datetime ".csv") (Delimited "," df) ;;;
  write_file (stream_path pg current_datetime ".xlsx") (Excel df) ;;;
  records <~ lift (to_records df) ;;
  write_file (stream_path pg current_datetime ".json") (Json records).

(** [scrape_channel], from the parsed page on, as in the videos scraper. *)
Definition scrape_channel (input_value : string) (extracted : result page)
  (max_videos : option Z) (now : datetime) (w : world)
  : list (list string) * world :=
  match extracted with
  | Raise e => ([], fst (print (ErrorWhileScraping input_value e) w))
  | Ok pg =>
      match assemble pg max_videos with
      | (video_data, Some e) =>
          (video_data, fst (print (ErrorWhileScraping input_value e) w))
      | (video_data, None) =>
          match (print (ChannelHas input_value (List.length (titles pg))) ;;;
                 save pg video_data now) w with
          | (w', Raise e) =>
              (video_data,
               fst (print (ErrorWhileScraping input_value e) w'))
          | (w', Ok _) => (video_data, w')
          end
      end
  end.

End eagle_eye_streams.

(** ** [eagle_eye_shorts.py] *)

Module eagle_eye_shorts.

Import Pandas Os.

Definition video_info (pg : page) (i : nat) : result string :=
  title <- Py.index (titles pg) i ;;
  counter <- Py.index (counts pg) i ;;
  let counter_view := Py.split_first " " counter in
  view <- eagle_eye_utils.format_number counter_view ;;
  href <- Py.index (video_ids pg) i ;;
  let video_id := Py.split_last "/" href in
  link <- Py.index (video_links pg) i ;;
  Ok (cname pg ++ TAB ++ channel_ids pg ++ TAB ++ title ++ TAB ++ view
      ++ TAB ++ video_id ++ TAB ++ "https://www.youtube.com" ++ link).

Fixpoint loop (pg : page) (max_videos : option Z) (range : list nat)
  (video_data : list (list string)) : list (list string) * option exn :=
  match range with
  | [] => (video_data, None)
  | i :: range' =>
      if reached max_videos i then (video_data, None)
      else
        match video_info pg i with
        | Raise e => (video_data, Some e)
        | Ok info =>
            loop pg max_videos range'
                 (video_data ++ [Py.split Py.tab info])
        end
  end.

Definition assemble (pg : page) (max_videos : option Z)
  : list (list string) * option exn :=
  loop pg max_videos (seq 0 (List.length (titles pg))) [].

Definition shorts_path (pg : page) (ext : string) : string :=
  cname pg ++ "_shorts" ++ ext.

Section Reread.

Variable read_csv : string -> option content -> result DataFrame.

(** The text file is written first; the other formats are made from what
    [pd.read_csv] reads back from it. *)
Definition save (pg : page) (video_data : list (list string)) : io unit :=
  write_file (shorts_path pg ".txt")
    (Text (txt_lines
             ("Channel" ++ TAB ++ "Identifier" ++ TAB ++ "Title" ++ TAB
              ++ "Video_views" ++ TAB ++ "Video_id" ++ TAB ++ "Link" ++ NL)
             video_data)) ;;;
  f <~ read_file (shorts_path pg ".txt") ;;
  df <~ lift (read_csv TAB f) ;;
  write_file (shorts_path pg ".csv") (Delimited "," df) ;;;
  f <~ read_file (shorts_path pg ".txt") ;;
  df <~ lift (read_csv TAB f) ;;
  write_file (shorts_path pg ".xlsx") (Excel df) ;;;
  records <~ lift (to_records df) ;;
  write_file (shorts_path pg ".json") (Json records).

(** [scrape_channel], from the parsed page on, as in the videos scraper. *)
Definition scrape_channel (input_value : string) (extracted : result page)
  (max_videos : option Z) (w : world) : list (list string) * world :=
  match extracted with
  | Raise e => ([], fst (print (ErrorWhileScraping input_value e) w))
  | Ok pg =>
      match assemble pg max_videos with
      | (video_data, Some e) =>
          (video_data, fst (print (ErrorWhileScraping input_value e) w))
      | (video_data, None) =>
          match (print (ChannelHas input_value (List.length (titles pg))) ;;;
                 save pg video_data) w with
          | (w', Raise e) =>
              (video_data,
               fst (print (ErrorWhileScraping input_value e) w'))
          | (w', Ok _) => (video_data, w')
          end
      end
  end.

End Reread.

End eagle_eye_shorts.

(** ** [eagle_eye_main.py] *)

Module eagle_eye_main.

Import Pandas Os.

(** One channel of the run: the name given, what loading and querying its
    page yields, and the clock when it is saved. *)
Record visit : Type := {
  channel : string;
  extracted : result page;
  clock : datetime
}.

Section Run.

Variable read_csv : string -> option content -> result DataFrame.

(** The loop of [main] over [channels_to_scrape]: [data.extend] with what
    each [scrape_channel] returns, which is never [None]. Every visit is
    one with a browser that has started. *)
Fixpoint scrape_all (selection : string) (max_videos : option Z)
  (choice_info : string) (channels_to_scrape : list visit)
  (data : list (list string)) (w : world) : list (list string) * world :=
  match channels_to_scrape with
  | [] => (data, w)
  | v :: rest =>
      let '(scraped_data, w') :=
        if String.eqb selection "videos" then
          eagle_eye_videos.scrape_channel read_csv (Py.strip (channel v))
            (extracted v) max_videos choice_info (clock v) w
        else if String.eqb selection "streams" then
          eagle_eye_streams.scrape_channel (Py.strip (channel v))
            (extracted v) max_videos (clock v) w
        else
          eagle_eye_shorts.scrape_channel read_csv (Py.strip (channel v))
            (extracted v) max_videos w in
      scrape_all selection max_videos choice_info rest
                 (data ++ scraped_data) w'
  end.

End Run.

End eagle_eye_main.

(** ** Reading the loop *)

(** The record the loop appends at index [i], when the body does not
    raise. *)
Definition record_at (info : page -> nat -> result string) (pg : page)
  (i : nat) : list string :=
  match info pg i with
  | Ok s => Py.split Py.tab s
  | Raise _ => []
  end.

(** A sequence read by the videos loop, other than the titles, has no
    element [i]. *)
Definition missing (pg : page) (i : nat) : bool :=
  ((List.length (Py.odds (uploads pg)) <=? i)
   || (List.length (Py.evens (counts pg)) <=? i)
   || (List.length (video_ids pg) <=? i)
   || (List.length (video_links pg) <=? i)
   || (List.length (Py.evens (terms pg)) <=? i))%nat.

(** Every sequence the videos loop reads has [n] elements. *)
Definition aligned (pg : page) (n : nat) : Prop :=
  List.length (titles pg) = n
  /\ List.length (Py.odds (uploads pg)) = n
  /\ List.length (Py.evens (counts pg)) = n
  /\ List.length (video_ids pg) = n
  /\ List.length (video_links pg) = n
  /\ List.length (Py.evens (terms pg)) = n.

(** There are [n] titles, and every other sequence the videos loop reads
    has at least [n] elements. *)
Definition complete (pg : page) (n : nat) : Prop :=
  List.length (titles pg) = n
  /\ (n <= List.length (Py.odds (uploads pg)))%nat
  /\ (n <= List.length (Py.evens (counts pg)))%nat
  /\ (n <= List.length (video_ids pg))%nat
  /\ (n <= List.length (video_links pg))%nat
  /\ (n <= List.length (Py.evens (terms pg)))%nat.

(** The first word of the text of the view-count element of item [i]. *)
Definition counter_view (pg : page) (i : nat) : string :=
  Py.split_first " " (nth i (Py.evens (counts pg)) "").

(** The number of records assembled from [n] items under a maximum. *)
Definition capped (n : nat) (max_videos : option Z) : nat :=
  match max_videos with
  | Some k => Nat.min n (Z.to_nat k)
  | None => n
  end.

(** The number of tabs in a string, and strings without one. *)
Definition tabs (s : string) : nat :=
  count_occ ascii_dec (Py.chars s) Py.tab.

Definition tabless (s : string) : Prop :=
  Forall (fun c => c <> Py.tab) (Py.chars s).

(** No text the videos loop reads for item [i] holds a tab. *)
Definition clean (pg : page) (i : nat) : Prop :=
  tabless (cname pg)
  /\ tabless (channel_ids pg)
  /\ tabless (nth i (titles pg) "")
  /\ tabless (nth i (Py.odds (uploads pg)) "")
  /\ tabless (nth i (Py.evens (counts pg)) "")
  /\ tabless (nth i (video_ids pg) "")
  /\ tabless (nth i (video_links pg) "")
  /\ tabless (nth i (Py.evens (terms pg)) "").

(** ** Reading the merge *)

Section MergeReading.

Import Pandas Os.

Variable read_csv : string -> option content -> result DataFrame.

(** The frames [merge_summary_files] reads, in the order of [fs]. *)
Fixpoint read_frames (folder_path : string) (s : store) (fs : list string)
  : result (list DataFrame) :=
  match fs with
  | [] => Ok []
  | file :: fs' =>
      df <- read_csv "," (lookup (path_join folder_path file) s) ;;
      dfs <- read_frames folder_path s fs' ;;
      Ok (df :: dfs)
  end.

(** The store after the four aggregate files are written. *)
Definition merged_store (folder_path : string) (merged_df : DataFrame)
  (records : list (list (string * cell))) (s : store) : store :=
  write (path_join folder_path "summary_all_channels.json") (Json records)
    (write (path_join folder_path "summary_all_channels.xlsx")
       (Excel (sheet merged_df))
       (write (path_join folder_path "summary_all_channels.txt")
          (Delimited TAB merged_df)
          (write (path_join folder_path "summary_all_channels.csv")
             (Delimited "," merged_df) s))).

End MergeReading.

(** A text that the four formats keep as it is: no longer than a cell of
    a worksheet, and without a character that the worksheet refuses or a
    carriage return, which the delimited text would leave bare. *)
Definition plain_text (s : string) : bool :=
  (String.length s <=? Z.to_nat 32767)%nat
  && forallb (fun c => negb (Pandas.illegal_character c)
                       && negb (Ascii.eqb c (ascii_of_nat 13)))
             (Py.chars s).

(** A cell that stacking and the four formats keep as it is: a plain
    text, an integer of 64 bits, or a truth value. A float or a missing
    value can change the type of its column. *)
Definition plain_cell (c : Pandas.cell) : bool :=
  match c with
  | Pandas.CStr s => plain_text s
  | Pandas.CInt n => (- 2 ^ 63 <=? n) && (n <? 2 ^ 63)
  | Pandas.CBool _ => true
  | Pandas.CFloat _ => false
  | Pandas.CNone => false
  end.

Definition plain (df : Pandas.DataFrame) : bool :=
  forallb plain_text (Pandas.columns df)
  && forallb (forallb plain_cell) (Pandas.rows df).

(** The number of data rows of the delimited file at [p]. *)
Definition data_rows (p : string) (w : world) : option nat :=
  match Os.lookup p (files w) with
  | Some (Os.Delimited _ df) => Some (List.length (Pandas.rows df))
  | _ => None
  end.

(** What the selected scraper returns for a page: the records its loop
    has appended when it ends or raises. *)
Definition returned (selection : string) (max_videos : option Z) (pg : page)
  : list (list string) :=
  if String.eqb selection "videos" then
    eagle_eye_videos.video_data
      (fst (eagle_eye_videos.assemble pg max_videos))
  else if String.eqb selection "streams" then
    fst (eagle_eye_streams.assemble pg max_videos)
  else fst (eagle_eye_shorts.assemble pg max_videos).

(** The header line of the videos and of the streams text file. *)
Definition video_header : string :=
  "Channel" ++ TAB ++ "Identifier" ++ TAB ++ "Title" ++ TAB ++ "Published"
  ++ TAB ++ "Video_views" ++ TAB ++ "Video_id" ++ TAB ++ "Link" ++ TAB
  ++ "Duration" ++ NL.

(** The header line of the shorts text file. *)
Definition shorts_header : string :=
  "Channel" ++ TAB ++ "Identifier" ++ TAB ++ "Title" ++ TAB
  ++ "Video_views" ++ TAB ++ "Video_id" ++ TAB ++ "Link" ++ NL.

(** ** Sample pages and runs *)

Module Sample.

Definition channel_page (ti up co vi vl te : list string) : page :=
  {| cname := "@c"; channel_ids := "UC1"; subscribers := "10";
     description := "d"; keywords := ["k"]; joined := "Jan 1 2020";
     location := "X"; global_views := "5";
     titles := ti; uploads := up; counts := co;
     video_ids := vi; video_links := vl; terms := te |}.

Definition spans : list string :=
  ["15K views"; "1 day ago"; "900 views"; "2 days ago"].

Definition hrefs : list string := ["/watch?v=x1"; "/watch?v=x2"].

(** Two titles, and a duration for the first item only. *)
Definition short_terms : page :=
  channel_page ["a"; "b"] spans spans hrefs hrefs ["1:00"; "1:00"].

(** One item whose title holds a tab. *)
Definition tab_title : page :=
  channel_page [String "a" (String Py.tab "b")]
    ["5 views"; "1 day ago"] ["5 views"; "1 day ago"]
    ["/watch?v=x1"] ["/watch?v=x1"] ["1:00"].

(** One item in every sequence; the text of the view-count element is
    empty. *)
Definition empty_count : page :=
  channel_page ["a"] [""; "1 day ago"] [""; "1 day ago"]
    ["/watch?v=x1"] ["/watch?v=x1"] ["1:00"].

(** Two items, with every sequence the videos loop reads complete. *)
Definition two_videos : page :=
  channel_page ["a"; "b"] spans spans hrefs hrefs
    ["1:00"; "1:00"; "2:00"; "2:00"].

(** A table of one row under the header of the channel summary. *)
Definition summary_of (name : string) : Pandas.DataFrame :=
  {| Pandas.columns := eagle_eye_videos.summary_columns;
     Pandas.rows := [map Pandas.CStr
                       [name; "UC1"; "d"; "['k']"; "10"; "Jan 1 2020";
                        "X"; "5"]] |}.

(** A folder that holds three summary files and one other file. *)
Definition three_summaries : world :=
  {| files := [("d/b_summary.csv", Os.Delimited "," (summary_of "b"));
               ("d/notes.txt", Os.Text "n");
               ("d/a_summary.csv", Os.Delimited "," (summary_of "a"));
               ("d/c_summary.csv", Os.Delimited "," (summary_of "c"))];
     stdout := [] |}.


(** One short. *)
Definition one_short : page :=
  channel_page ["a"] [] ["5 views"] ["/shorts/x1"] ["/shorts/x1"] [].

(** Two shorts. *)
Definition two_shorts : page :=
  channel_page ["t1"; "t2"] [] ["5 views"; "7 views"]
    ["/shorts/x1"; "/shorts/x2"] ["/shorts/x1"; "/shorts/x2"] [].

(** One short whose title holds tabs and a line break: the rest of a first
    line, and the start of a second. *)
Definition folded_short : page :=
  channel_page
    ["t1" ++ TAB ++ "5" ++ TAB ++ "x1" ++ TAB
     ++ "https://www.youtube.com/shorts/x1" ++ NL
     ++ "@c" ++ TAB ++ "UC1" ++ TAB ++ "t2"]
    [] ["7 views"] ["/shorts/x2"] ["/shorts/x2"] [].

Definition nothing : world := {| files := []; stdout := [] |}.

Definition noon : datetime :=
  {| year := 2023; month := 12; day := 6;
     hour := 12; minute := 0; second := 0 |}.

Definition a_second_later : datetime :=
  {| year := 2023; month := 12; day := 6;
     hour := 12; minute := 0; second := 1 |}.

(** The files after the videos and the streams export of the page of two
    items at noon. *)
Definition exported : world :=
  fst (eagle_eye_streams.save two_videos
         (fst (eagle_eye_streams.assemble two_videos None)) noon
         (fst (eagle_eye_videos.save_videos two_videos
                 (fst (eagle_eye_videos.assemble two_videos None))
                 (strftime noon) nothing))).

(** A reader that gives back the table a delimited file holds. *)
Definition table_reader (sep : string) (f : option Os.content)
  : result Pandas.DataFrame :=
  match f with
  | Some (Os.Delimited _ df) => Ok df
  | _ => Raise (LibraryError "ParserError")
  end.

End Sample.

(** ** [int(str)] *)

Module PyInt.

(** The most digits a decimal literal may have
    ([sys.int_info.default_max_str_digits]). *)
Definition max_str_digits : nat := 4300.

(** The digits and underscores at the head of [l], and the rest. *)
Fixpoint span_body (l : list ascii) : list ascii * list ascii :=
  match l with
  | [] => ([], [])
  | c :: l' =>
      if PyFloat.is_digit c || Ascii.eqb c "_" then
        let '(b, r) := span_body l' in (c :: b, r)
      else ([], l)
  end.

(** No underscore stands first, last or after another one, and there is a
    digit. [after_underscore] holds at the start and after an underscore. *)
Fixpoint well_placed (after_underscore : bool) (l : list ascii) : bool :=
  match l with
  | [] => negb after_underscore
  | c :: l' =>
      if Ascii.eqb c "_" then negb after_underscore && well_placed true l'
      else well_placed false l'
  end.

(** [int(s)] in base 10: blanks, a sign, digits with single underscores
    between them, blanks. [None] stands for [ValueError]. *)
Definition parse (s : string) : option Z :=
  let '(neg, r) := PyFloat.take_sign (PyFloat.lstrip (Py.chars s)) in
  let '(body, rest) := span_body r in
  let digits := filter PyFloat.is_digit body in
  if well_placed true body then
    match PyFloat.lstrip rest with
    | [] =>
        if (max_str_digits <? List.length digits)%nat then None
        else Some (if neg then - PyFloat.digits_val digits
                   else PyFloat.digits_val digits)
    | _ :: _ => None
    end
  else None.

Definition int (s : string) : result Z :=
  match parse s with
  | Some n => Ok n
  | None => Raise ValueError
  end.

End PyInt.

(** ** More of [str]: [isalnum], [replace], separators of several
    characters, [rsplit] and [split] with a limit *)

Module PyStr.

Definition between (a n b : nat) : bool := ((a <=? n) && (n <=? b))%nat.

(** [c.isalnum()] for a code point below 256: the letters, the digits and
    the other numeric characters of Latin-1. *)
Definition isalnum_char (c : ascii) : bool :=
  let n := Py.code c in
  between 48 n 57 || between 65 n 90 || between 97 n 122
  || (n =? 170)%nat || between 178 n 179 || (n =? 181)%nat
  || between 185 n 186 || between 188 n 190
  || between 192 n 214 || between 216 n 246 || between 248 n 255.

(** [s.isalnum()]: false on the empty string. *)
Definition isalnum (s : string) : bool :=
  match Py.chars s with
  | [] => false
  | l => forallb isalnum_char l
  end.

(** [s.replace(a, b)] for two characters *)
Definition replace (a b : ascii) (s : string) : string :=
  Py.str (map (fun c => if Ascii.eqb c a then b else c) (Py.chars s)).

(** [sep] stands at the head of [l]. *)
Fixpoint starts (sep l : list ascii) : bool :=
  match sep, l with
  | [], _ => true
  | _ :: _, [] => false
  | a :: sep', c :: l' => Ascii.eqb a c && starts sep' l'
  end.

(** [s.split(sep)] for a separator that is not empty: the occurrences are
    taken from the left and do not overlap. [skip] counts the characters
    of an occurrence still to pass, [cur] holds the current piece,
    reversed. *)
Fixpoint split_at (sep : list ascii) (skip : nat) (cur l : list ascii)
  : list (list ascii) :=
  match l with
  | [] => [rev cur]
  | c :: l' =>
      match skip with
      | S k => split_at sep k cur l'
      | O =>
          if starts sep l then
            rev cur :: split_at sep (List.length sep - 1) [] l'
          else split_at sep O (c :: cur) l'
      end
  end.

Definition split (sep s : string) : list string :=
  map Py.str (split_at (Py.chars sep) 0 [] (Py.chars s)).

(** The text before and after the first occurrence of [sep] in [l]. *)
Fixpoint find_first (sep before l : list ascii)
  : option (list ascii * list ascii) :=
  match l with
  | [] => None
  | c :: l' =>
      if starts sep l then Some (rev before, skipn (List.length sep) l)
      else find_first sep (c :: before) l'
  end.

(** [s.rsplit(sep, 1)]: cut at the last occurrence of [sep]. *)
Definition rsplit1 (sep s : string) : list string :=
  match find_first (rev (Py.chars sep)) [] (rev (Py.chars s)) with
  | Some (a, b) => [Py.str (rev b); Py.str (rev a)]
  | None => [s]
  end.

(** The characters up to the first blank, and the rest. *)
Fixpoint span_word (l : list ascii) : list ascii * list ascii :=
  match l with
  | [] => ([], [])
  | c :: l' =>
      if Py.isspace c then ([], l)
      else let '(w, r) := span_word l' in (c :: w, r)
  end.

(** [s.split(maxsplit=1)]: the first word, and what follows the blanks
    after it, to the end of the string. *)
Definition split_blank1 (s : string) : list string :=
  match Py.lstrip_chars (Py.chars s) with
  | [] => []
  | l =>
      let '(w, r) := span_word l in
      match Py.lstrip_chars r with
      | [] => [Py.str w]
      | r' => [Py.str w; Py.str r']
      end
  end.

End PyStr.
(** ** The terminal: [input] and what is printed around it *)

(** The lines printed by the prompts and by [main] that the model keeps:
    the warnings, the version line and the reports that close a run. The
    menus, the echo of the answers and the progress lines are not kept. *)
Inductive notice : Type :=
  | NoChannelUsernames
  | InvalidSelection
  | NotPositiveNumber
  | InvalidNumber
  | InvalidFormatSelection
  | InvalidChoice
  | Version
  | DataSavedAll
  | DataSaved (format : string)
  | TotalScraped (selection : string) (total : nat)
  | ScrapingCompleted
  | NoDataScraped.

(** [input()] returns the next line of the standard input, and raises
    [EOFError] when there is none. A prompt leaves the warnings it printed
    and either its value with the lines not read, or the [EOFError]. *)
Inductive answer (A : Type) : Type :=
  | Answered (a : A) (stdin : list string)
  | EOFError.

Arguments Answered {A} a stdin.
Arguments EOFError {A}.

Definition prompt (A : Type) : Type := list string -> list notice * answer A.

(** A warning, then the next turn of the [while] loop. *)
Definition again {A : Type} (n : notice) (r : list notice * answer A)
  : list notice * answer A :=
  (n :: fst r, snd r).

(** ** [eagle_eye_utils.py]: the prompts *)

Module eagle_eye_utils_prompts.

Fixpoint get_channel_input (stdin : list string)
  : list notice * answer (list string) :=
  match stdin with
  | [] => ([], EOFError)
  | line :: stdin' =>
      let channels_to_scrape := Py.split "," line in
      let channels_to_scrape :=
        map Py.strip
            (filter (fun channel => negb (String.eqb (Py.strip channel) ""))
                    channels_to_scrape) in
      match channels_to_scrape with
      | _ :: _ => ([], Answered channels_to_scrape stdin')
      | [] => again NoChannelUsernames (get_channel_input stdin')
      end
  end.

Fixpoint get_data_type_to_scrape (stdin : list string)
  : list notice * answer string :=
  match stdin with
  | [] => ([], EOFError)
  | line :: stdin' =>
      let selection := Py.strip line in
      if String.eqb selection "1" then ([], Answered "videos" stdin')
      else if String.eqb selection "2" then ([], Answered "streams" stdin')
      else if String.eqb selection "3" then ([], Answered "shorts" stdin')
      else again InvalidSelection (get_data_type_to_scrape stdin')
  end.

Fixpoint get_max_videos_to_scrape (stdin : list string)
  : list notice * answer (option Z) :=
  match stdin with
  | [] => ([], EOFError)
  | max_videos_input :: stdin' =>
      if String.eqb max_videos_input "" then ([], Answered None stdin')
      else
        match PyInt.int max_videos_input with
        | Ok max_videos =>
            if 0 <? max_videos then ([], Answered (Some max_videos) stdin')
            else again NotPositiveNumber (get_max_videos_to_scrape stdin')
        | Raise _ => again InvalidNumber (get_max_videos_to_scrape stdin')
        end
  end.

Definition valid_formats : list string := ["1"; "2"; "3"; "4"; "5"].

(** [choice in l] *)
Definition member (choice : string) (l : list string) : bool :=
  existsb (String.eqb choice) l.

(** The [for] loop after the [while] loop: a choice outside [valid_formats]
    is reported and rebinds [format_selection] to the empty list, while the
    loop goes on over the list it began with. *)
Definition recheck (format_selection : list string)
  : list notice * list string :=
  fold_left
    (fun acc choice =>
       if member choice valid_formats then acc
       else ((fst acc ++ [InvalidFormatSelection])%list, []))
    format_selection ([], format_selection).

Fixpoint get_format_selection (stdin : list string)
  : list notice * answer (list string) :=
  match stdin with
  | [] => ([], EOFError)
  | line :: stdin' =>
      let format_selection := Py.split "," (Py.strip line) in
      if forallb (fun choice => member choice valid_formats)
                 format_selection then
        match format_selection with
        | [] => get_format_selection stdin'
        | _ :: _ =>
            (fst (recheck format_selection),
             Answered (snd (recheck format_selection)) stdin')
        end
      else again InvalidFormatSelection (get_format_selection stdin')
  end.

(** The [while] loop of [get_user_choice_info]. *)
Fixpoint ask_choice_info (stdin : list string)
  : list notice * answer string :=
  match stdin with
  | [] => ([], EOFError)
  | line :: stdin' =>
      let choice_info := Py.strip line in
      if member choice_info ["1"; "2"] then ([], Answered choice_info stdin')
      else again InvalidChoice (ask_choice_info stdin')
  end.

(** [get_user_choice_info], with the module variable [user_choice_info]
    passed in and returned next to the choice. *)
Definition get_user_choice_info (user_choice_info : option string)
  (stdin : list string) : list notice * answer (string * option string) :=
  match user_choice_info with
  | Some choice_info =>
      ([], Answered (choice_info, user_choice_info) stdin)
  | None =>
      match ask_choice_info stdin with
      | (ns, Answered choice_info stdin') =>
          (ns, Answered (choice_info, Some choice_info) stdin')
      | (ns, EOFError) => (ns, EOFError)
      end
  end.

End eagle_eye_utils_prompts.
(** ** The page before the loop: the address and the queries *)

(** What the queries of the scrapers find in the parsed page: the text or
    the attribute read from each element, in document order. The four
    single elements and the two [meta] attributes are taken to be there. *)
Record soup : Type := {
  about_section : string;
  channel_handle : string;
  identifier : string;
  subscriber_count : string;
  og_description : string;
  og_video_tags : list string;
  title_links : list (string * option string);
  title_spans : list string;
  metadata_items : list string;
  slim_media_links : list string;
  time_status : list string
}.

(** The [href] of the links that have one. *)
Definition with_href (links : list (string * option string)) : list string :=
  flat_map (fun a => match snd a with
                     | Some href => [href]
                     | None => []
                     end) links.

(** [a, b = l] *)
Definition unpack2 (l : list string) : result (string * string) :=
  match l with
  | [a; b] => Ok (a, b)
  | _ => Raise ValueError
  end.

Definition SPACE : ascii := " "%char.
Definition COMMA : ascii := ","%char.
Definition SEMICOLON : ascii := ";"%char.

(** The description, as the three scrapers clean it. *)
Definition clean_description (content : string) : string :=
  PyStr.replace COMMA SEMICOLON (PyStr.replace Py.newline SPACE content).

Module videos_page.

Definition url (input_value : string) : string :=
  if (String.length input_value =? 24)%nat && PyStr.isalnum input_value then
    "https://www.youtube.com/channel/" ++ input_value ++ "/videos"
  else "https://www.youtube.com/" ++ input_value ++ "/videos".

(** The statements from [channel_details_one] to [terms]. *)
Definition queries (s : soup) : result page :=
  channel_details_one <- Py.index (PyStr.split "Joined " (about_section s)) 1 ;;
  let channel_details_one :=
    PyStr.replace Py.newline SPACE (Py.strip channel_details_one) in
  parts <- unpack2 (PyStr.rsplit1 ", " channel_details_one) ;;
  let date := fst parts in
  let rest_of_info := snd parts in
  let year := Py.split_first SPACE rest_of_info in
  let joined := date ++ " " ++ year in
  location <- Py.index (PyStr.split_blank1 rest_of_info) 1 ;;
  let channel_details_two :=
    PyStr.replace Py.newline SPACE
      (Py.strip (last (PyStr.split "videos" (about_section s)) "")) in
  let global_views :=
    Py.strip (hd "" (PyStr.split "views" channel_details_two)) in
  let cname := Py.strip (channel_handle s) in
  let channel_ids := identifier s in
  let num_subscribers :=
    Py.split_first SPACE (Py.strip (subscriber_count s)) in
  subscribers <- eagle_eye_utils.format_number num_subscribers ;;
  let description := clean_description (og_description s) in
  Ok {| cname := cname; channel_ids := channel_ids;
        subscribers := subscribers; description := description;
        keywords := og_video_tags s; joined := joined;
        location := location; global_views := global_views;
        titles := map fst (title_links s);
        uploads := metadata_items s; counts := metadata_items s;
        video_ids := with_href (title_links s);
        video_links := with_href (title_links s);
        terms := time_status s |}.

End videos_page.

Module streams_page.

Definition url (input_value : string) : string :=
  if (String.length input_value =? 24)%nat && PyStr.isalnum input_value then
    "https://www.youtube.com/channel/" ++ input_value ++ "/streams"
  else "https://www.youtube.com/" ++ input_value ++ "/streams".

(** The streams scraper reads no join date, location or view total, and
    writes none: the three fields are left empty. *)
Definition queries (s : soup) : result page :=
  let cname := Py.strip (channel_handle s) in
  let channel_ids := identifier s in
  let subscribers := Py.split_first SPACE (Py.strip (subscriber_count s)) in
  let description := clean_description (og_description s) in
  Ok {| cname := cname; channel_ids := channel_ids;
        subscribers := subscribers; description := description;
        keywords := og_video_tags s; joined := "";
        location := ""; global_views := "";
        titles := map fst (title_links s);
        uploads := metadata_items s; counts := metadata_items s;
        video_ids := with_href (title_links s);
        video_links := with_href (title_links s);
        terms := time_status s |}.

End streams_page.

Module shorts_page.

Definition url (input_value : string) : string :=
  if (String.length input_value =? 24)%nat && PyStr.isalnum input_value then
    "https://www.youtube.com/channel/" ++ input_value ++ "/shorts"
  else "https://www.youtube.com/" ++ input_value ++ "/shorts".

(** The shorts scraper queries no upload time and no duration. *)
Definition queries (s : soup) : result page :=
  let cname := Py.strip (channel_handle s) in
  let channel_ids := identifier s in
  let subscribers := Py.split_first SPACE (Py.strip (subscriber_count s)) in
  let description := clean_description (og_description s) in
  Ok {| cname := cname; channel_ids := channel_ids;
        subscribers := subscribers; description := description;
        keywords := og_video_tags s; joined := "";
        location := ""; global_views := "";
        titles := title_spans s;
        uploads := []; counts := metadata_items s;
        video_ids := slim_media_links s;
        video_links := slim_media_links s;
        terms := [] |}.

End shorts_page.
(** ** Scrolling the page *)

(** What the scrapers ask of the browser while they scroll, and the
    pauses between. *)
Inductive action : Type :=
  | ExecuteScript (script : string)
  | Sleep (seconds : spec_float).

Module scrolling.

Definition SCROLL_PAUSE : spec_float :=
  Eval vm_compute in PyFloat.of_decimal false 5 (-1).

Definition MAX_SCROLLS : Z := 100.

Definition SCROLL_AMOUNT : Z := 1000.

(** The body of the [while True] loop, for at most [fuel] turns; [None]
    when the loop has not left by then. [driver] is the list of what the
    browser was asked so far. *)
Fixpoint scroll_loop (fuel : nat) (scroll_count : Z) (driver : list action)
  : option (list action) :=
  match fuel with
  | O => None
  | S fuel' =>
      let driver :=
        (driver
         ++ [ExecuteScript
               ("scrollBy(0, " ++ Py.str (PyFormat.decimal SCROLL_AMOUNT)
                ++ ");")])%list in
      let scroll_count := scroll_count + 1 in
      let driver := (driver ++ [Sleep SCROLL_PAUSE])%list in
      if MAX_SCROLLS <=? scroll_count then Some driver
      else scroll_loop fuel' scroll_count driver
  end.

(** [scroll_down_to_load], the same in the three scrapers. *)
Definition scroll_down_to_load (fuel : nat) (driver : list action)
  : option (list action) :=
  scroll_loop fuel 0 driver.

End scrolling.
(** ** [eagle_eye_main.py]: [main] *)

Module eagle_eye_main_run.

Import Pandas Os eagle_eye_utils_prompts.

(** What [parse_arguments] returns. *)
Record arguments : Type := {
  version : bool;
  channels : list string
}.

(** What is outside the program: for a content type and an address, what
    loading the page and the queries on it yield, and the clock when the
    channel of a given position is saved; the position after the last one
    is the time of the export of [main]. *)
Record internet : Type := {
  load : string -> string -> result page;
  time : nat -> datetime
}.

(** How the program ends: [main] returns, an exception leaves it, or
    [input] finds the standard input at its end. *)
Inductive ending : Type :=
  | Returned
  | Crashed (e : exn)
  | EndOfInput.

(** The state of the process: the lines not yet read, the module variable
    [eagle_eye_utils.user_choice_info], the files with what the scrapers
    printed, and what the prompts and [main] printed. *)
Record process : Type := {
  stdin : list string;
  user_choice_info : option string;
  disk : world;
  printed : list notice
}.

Inductive step (A : Type) : Type :=
  | Next (a : A)
  | Stop (e : ending).

Arguments Next {A} a.
Arguments Stop {A} e.

Definition run (A : Type) : Type := process -> process * step A.

Definition unit_run {A : Type} (a : A) : run A := fun s => (s, Next a).

Definition stop {A : Type} (e : ending) : run A := fun s => (s, Stop e).

Definition run_bind {A B : Type} (m : run A) (k : A -> run B) : run B :=
  fun s =>
    match m s with
    | (s', Next a) => k a s'
    | (s', Stop e) => (s', Stop e)
    end.

Notation "x <-- m ;; k" := (run_bind m (fun x => k))
  (at level 61, m at next level, right associativity).

Definition say (n : notice) : run unit :=
  fun s =>
    ({| stdin := stdin s; user_choice_info := user_choice_info s;
        disk := disk s; printed := printed s ++ [n] |}, Next tt).

(** A prompt, run on the lines not yet read. *)
Definition ask {A : Type} (p : prompt A) : run A :=
  fun s =>
    let said := (printed s ++ fst (p (stdin s)))%list in
    match snd (p (stdin s)) with
    | Answered a rest =>
        ({| stdin := rest; user_choice_info := user_choice_info s;
            disk := disk s; printed := said |}, Next a)
    | EOFError =>
        ({| stdin := []; user_choice_info := user_choice_info s;
            disk := disk s; printed := said |}, Stop EndOfInput)
    end.

(** A computation on the files; what it raises is not handled. *)
Definition on_disk {A : Type} (m : io A) : run A :=
  fun s =>
    let s' := {| stdin := stdin s; user_choice_info := user_choice_info s;
                 disk := fst (m (disk s)); printed := printed s |} in
    match snd (m (disk s)) with
    | Ok a => (s', Next a)
    | Raise e => (s', Stop (Crashed e))
    end.

(** [eagle_eye_utils.get_user_choice_info()], on the module variable. *)
Definition ask_user_choice_info : run string :=
  fun s =>
    (r <-- ask (get_user_choice_info (user_choice_info s)) ;;
     fun s' =>
       ({| stdin := stdin s'; user_choice_info := snd r;
           disk := disk s'; printed := printed s' |}, Next (fst r))) s.

(** The channels of the run, each with what the network and the clock give
    for it. *)
Fixpoint visits (net : internet) (selection : string) (k : nat)
  (channels_to_scrape : list string) : list eagle_eye_main.visit :=
  match channels_to_scrape with
  | [] => []
  | channel :: rest =>
      {| eagle_eye_main.channel := channel;
         eagle_eye_main.extracted := load net selection (Py.strip channel);
         eagle_eye_main.clock := time net k |}
      :: visits net selection (S k) rest
  end.

Definition shorts_columns : list string :=
  ["Channel"; "Identifier"; "Title"; "Video_views"; "Video_id"; "Link"].

Definition video_columns : list string :=
  ["Channel"; "Identifier"; "Title"; "Published"; "Video_views";
   "Video_id"; "Link"; "Duration"].

Definition combined_name (selection current_datetime ext : string)
  : string :=
  "all_" ++ selection ++ "_eagle_eye_" ++ current_datetime ++ ext.

(** The arms [choice == '1'] to [choice == '4'], which the two branches of
    the export share word for word. [channels_folder] and
    [current_datetime] are locals of [main] that only the branch for all
    formats binds. The file [csv.writer] writes is kept as the table of
    the rows it is given. The value tells whether an arm was taken. *)
Definition save_as (selection : string) (df : DataFrame)
  (data : list (list string)) (channels_folder current_datetime : option string)
  (choice : string) : io bool :=
  if String.eqb choice "1" then
    folder <~ lift (local channels_folder) ;;
    stamp <~ lift (local current_datetime) ;;
    write_file (path_join folder (combined_name selection stamp ".csv"))
      (Delimited "," {| columns := columns df;
                        rows := map (map CStr) data |}) ;;;
    ret true
  else if String.eqb choice "2" then
    folder <~ lift (local channels_folder) ;;
    stamp <~ lift (local current_datetime) ;;
    write_file (path_join folder (combined_name selection stamp ".txt"))
      (Text (txt_lines (Py.join TAB (columns df) ++ NL) data)) ;;;
    ret true
  else if String.eqb choice "3" then
    folder <~ lift (local channels_folder) ;;
    stamp <~ lift (local current_datetime) ;;
    write_file (path_join folder (combined_name selection stamp ".xlsx"))
      (Excel df) ;;;
    ret true
  else if String.eqb choice "4" then
    folder <~ lift (local channels_folder) ;;
    stamp <~ lift (local current_datetime) ;;
    records <~ lift (to_records df) ;;
    write_file (path_join folder (combined_name selection stamp ".json"))
      (Json records) ;;;
    ret true
  else ret false.

(** The loop of the branch without ['5']. *)
Fixpoint save_selected (selection choice_info : string) (df : DataFrame)
  (data : list (list string)) (format_selection : list string) : run unit :=
  match format_selection with
  | [] => unit_run tt
  | choice :: rest =>
      _ <-- (if String.eqb choice_info "1" then
               saved <-- on_disk (save_as selection df data None None choice) ;;
               if saved : bool then say (DataSaved choice) else unit_run tt
             else unit_run tt) ;;
      save_selected selection choice_info df data rest
  end.

(** The branch with ['5']. *)
Definition save_all (selection choice_info : string) (df : DataFrame)
  (data : list (list string)) (now : datetime) : run unit :=
  saved_in_all_formats <--
    (if String.eqb choice_info "1" then
       let channels_folder :=
         path_join "downloads" ("all_" ++ selection ++ "_channels") in
       let current_datetime := strftime now in
       saved <-- on_disk (io_map (save_as selection df data
                                    (Some channels_folder)
                                    (Some current_datetime))
                                 ["1"; "2"; "3"; "4"]) ;;
       unit_run (existsb (fun b => b) saved)
     else unit_run false) ;;
  if saved_in_all_formats : bool then say DataSavedAll else unit_run tt.

(** [main] from [if data:] on. *)
Definition export (selection choice_info : string)
  (format_selection : list string) (data : list (list string))
  (now : datetime) : run unit :=
  match data with
  | [] => say NoDataScraped
  | _ :: _ =>
      df <-- on_disk (lift (from_rows data
                              (if String.eqb selection "shorts"
                               then shorts_columns else video_columns))) ;;
      _ <-- (if member "5" format_selection then
               save_all selection choice_info df data now
             else
               save_selected selection choice_info df data
                             format_selection) ;;
      _ <-- say (TotalScraped selection (List.length data)) ;;
      say ScrapingCompleted
  end.

Section Main.

Variable read_csv : string -> option content -> result DataFrame.

(** The loop over the channels, on the files of the process. *)
Definition scrape (selection : string) (max_videos : option Z)
  (choice_info : string) (channels_to_scrape : list eagle_eye_main.visit)
  : run (list (list string)) :=
  fun s =>
    let r := eagle_eye_main.scrape_all read_csv selection max_videos
               choice_info channels_to_scrape [] (disk s) in
    ({| stdin := stdin s; user_choice_info := user_choice_info s;
        disk := snd r; printed := printed s |}, Next (fst r)).

Definition main_body (args : arguments) (net : internet) : run unit :=
  if version args then
    _ <-- say Version ;; stop Returned
  else
    channels_to_scrape <--
      (match channels args with
       | [] =>
           channels_to_scrape <-- ask get_channel_input ;;
           match channels_to_scrape with
           | [] => stop Returned
           | _ :: _ => unit_run channels_to_scrape
           end
       | _ :: _ => unit_run (channels args)
       end) ;;
    selection <-- ask get_data_type_to_scrape ;;
    choice_info <-- (if String.eqb selection "videos"
                     then ask_user_choice_info
                     else unit_run "1") ;;
    max_videos <-- ask get_max_videos_to_scrape ;;
    format_selection <-- ask get_format_selection ;;
    data <-- scrape selection max_videos choice_info
               (visits net selection 0 channels_to_scrape) ;;
    export selection choice_info format_selection data
           (time net (List.length channels_to_scrape)).

(** [main()], run on a process. *)
Definition main (args : arguments) (net : internet) (s : process)
  : process * ending :=
  match main_body args net s with
  | (s', Next _) => (s', Returned)
  | (s', Stop e) => (s', e)
  end.

End Main.

End eagle_eye_main_run.
(** ** Reading the prompts and the run *)

(** A list of characters that does not begin with a blank. *)
Definition unblank (l : list ascii) : Prop :=
  match l with
  | [] => True
  | a :: _ => Py.isspace a = false
  end.

(** Notices among which there is no report of a single format saved. *)
Definition no_format_report (ns : list notice) : Prop :=
  forall format, ~ In (DataSaved format) ns.

Section RunReading.

Import eagle_eye_main_run.

(** A step that prints no report of a single format saved. *)
Definition reports_no_format {A : Type} (m : run A) : Prop :=
  forall s, exists ns,
    printed (fst (m s)) = (printed s ++ ns)%list /\ no_format_report ns.

(** A step that leaves the files as they are. *)
Definition keeps_disk {A : Type} (m : run A) : Prop :=
  forall s, disk (fst (m s)) = disk s.

(** A step that does not end at the end of the input. *)
Definition reads_no_line {A : Type} (m : run A) : Prop :=
  forall s, snd (m s) <> Stop EndOfInput.

(** A step that, when it ends at the end of the input, has left the files
    as they were. *)
Definition starves_clean {A : Type} (m : run A) : Prop :=
  forall s, snd (m s) = Stop EndOfInput -> disk (fst (m s)) = disk s.

End RunReading.
(** ** Sample runs of [main] *)

Module Scenario.

Import eagle_eye_main_run.

(** A process at its start, with the lines it will read. *)
Definition fresh (lines : list string) : process :=
  {| stdin := lines; user_choice_info := None; disk := Sample.nothing;
     printed := [] |}.

(** The records of the two videos of the sample page. *)
Definition two_records : list (list string) :=
  [["@c"; "UC1"; "a"; "1 day ago"; "15,000"; "x1";
    "https://www.youtube.com/watch?v=x1"; "1:00"];
   ["@c"; "UC1"; "b"; "2 days ago"; "900"; "x2";
    "https://www.youtube.com/watch?v=x2"; "2:00"]].

(** Every channel shows the sample page of two videos, at noon. *)
Definition site : internet :=
  {| load := fun _ _ => Ok Sample.two_videos;
     time := fun _ => Sample.noon |}.

Definition one_channel : arguments :=
  {| version := false; channels := ["c"] |}.

(** A page whose subscriber count is hidden. *)
Definition hidden_count : soup :=
  {| about_section := "Joined Jan 1, 2020 Spain 2 videos 5 views";
     channel_handle := "@c"; identifier := "UC1";
     subscriber_count := " "; og_description := "d";
     og_video_tags := ["k"];
     title_links := [("a", Some "/watch?v=x1")];
     title_spans := [];
     metadata_items := ["5 views"; "1 day ago"];
     slim_media_links := [];
     time_status := ["1:00"; "1:00"] |}.

End Scenario.

(** * Properties *)

(** ** The number normaliser *)

(** C4. [format_number] maps ["1.2K"] to ["1,200"], ["2M"] to
    ["2,000,000"], ["350"] to ["350"], and passes ["N/A"] through. *)
Theorem format_number_examples :
  eagle_eye_utils.format_number "1.2K" = Ok "1,200"
  /\ eagle_eye_utils.format_number "2M" = Ok "2,000,000"
  /\ eagle_eye_utils.format_number "350" = Ok "350"
  /\ eagle_eye_utils.format_number "N/A" = Ok "N/A".
Proof.
  repeat split; vm_compute; reflexivity.
Qed.

(** C2. [format_number] is not total: on the empty string the read of the
    last character raises [IndexError], and on ["inf"] the conversion to
    [int] raises [OverflowError]; the handler takes [ValueError] only. *)
Theorem format_number_raises :
  eagle_eye_utils.format_number "" = Raise IndexError
  /\ eagle_eye_utils.format_number "inf" = Raise OverflowError.
Proof.
  split; vm_compute; reflexivity.
Qed.

(** ** The assembly loop *)

Section VideosLoop.

Import eagle_eye_videos.

Variable pg : page.
Variable max_videos : option Z.

Lemma reached_below (i j : nat) :
  (j <= i)%nat -> reached max_videos i = false ->
  reached max_videos j = false.
Proof.
  unfold reached. destruct max_videos as [m|]; trivial.
  rewrite !Z.leb_gt. lia.
Qed.

(** While the body does not raise and the maximum is not reached, the loop
    appends one record per index. *)
Lemma loop_all (range : list nat) : forall st,
  (forall i, In i range ->
     reached max_videos i = false /\ raises (video_info pg i) = false) ->
  video_data (fst (loop pg max_videos range st))
  = (video_data st ++ map (record_at video_info pg) range)%list
  /\ snd (loop pg max_videos range st) = None.
Proof.
  induction range as [|i range IH]; intros st H; simpl.
  - now rewrite app_nil_r.
  - destruct (H i (or_introl eq_refl)) as [Hr Hv].
    rewrite Hr. unfold record_at at 1.
    destruct (video_info pg i) as [s|e]; [|discriminate].
    edestruct IH as [E1 E2];
      [intros j Hj; apply H; now right|rewrite E1, E2].
    simpl. now rewrite <- app_assoc.
Qed.

(** The loop stops at the first index where the body raises, and keeps
    what it appended. *)
Lemma loop_raise (pre post : list nat) (i : nat) (e : exn) : forall st,
  (forall j, In j pre ->
     reached max_videos j = false /\ raises (video_info pg j) = false) ->
  reached max_videos i = false ->
  video_info pg i = Raise e ->
  video_data (fst (loop pg max_videos (pre ++ i :: post) st))
  = (video_data st ++ map (record_at video_info pg) pre)%list
  /\ snd (loop pg max_videos (pre ++ i :: post) st) = Some e.
Proof.
  induction pre as [|j pre IH]; intros st H Hr He; simpl.
  - rewrite Hr, He. simpl. now rewrite app_nil_r.
  - destruct (H j (or_introl eq_refl)) as [Hrj Hv].
    rewrite Hrj. unfold record_at at 1.
    destruct (video_info pg j) as [s|e']; [|discriminate].
    edestruct IH as [E1 E2];
      [intros k Hk; apply H; now right|exact Hr|exact He|rewrite E1, E2].
    simpl. now rewrite <- app_assoc.
Qed.

(** The loop leaves at the first index that reaches the maximum. *)
Lemma loop_break (pre post : list nat) (i : nat) : forall st,
  (forall j, In j pre ->
     reached max_videos j = false /\ raises (video_info pg j) = false) ->
  reached max_videos i = true ->
  video_data (fst (loop pg max_videos (pre ++ i :: post) st))
  = (video_data st ++ map (record_at video_info pg) pre)%list
  /\ snd (loop pg max_videos (pre ++ i :: post) st) = None.
Proof.
  induction pre as [|j pre IH]; intros st H Hr; simpl.
  - rewrite Hr. simpl. now rewrite app_nil_r.
  - destruct (H j (or_introl eq_refl)) as [Hrj Hv].
    rewrite Hrj. unfold record_at at 1.
    destruct (video_info pg j) as [s|e']; [|discriminate].
    edestruct IH as [E1 E2];
      [intros k Hk; apply H; now right|exact Hr|rewrite E1, E2].
    simpl. now rewrite <- app_assoc.
Qed.

Lemma seq_split (n i : nat) :
  (i < n)%nat -> seq 0 n = (seq 0 i ++ i :: seq (S i) (n - S i))%list.
Proof.
  intros H. replace n with (i + S (n - S i))%nat at 1 by lia.
  now rewrite seq_app.
Qed.

(** Where a sequence has no element [i], the body raises at [i]. *)
Lemma missing_raises (i : nat) :
  missing pg i = true -> raises (video_info pg i) = true.
Proof.
  unfold missing, video_info, Py.index. intros H.
  repeat match goal with
         | |- context [nth_error ?l ?k] =>
             let E := fresh "E" in
             destruct (nth_error l k) eqn:E; simpl; trivial;
             apply (f_equal (fun o => match o with
                                      | Some _ => true
                                      | None => false
                                      end)) in E;
             assert (k < List.length l)%nat
               by (apply nth_error_Some; intros N; rewrite N in E;
                   discriminate);
             clear E
         | |- context [eagle_eye_utils.format_number ?s] =>
             destruct (eagle_eye_utils.format_number s); simpl; trivial
         end.
  repeat rewrite orb_true_iff in H. rewrite !Nat.leb_le in H. lia.
Qed.

(** The outcome of [assemble] when the body first raises at index [i]. *)
Lemma assemble_raise (i : nat) (e : exn) :
  (i < List.length (titles pg))%nat ->
  reached max_videos i = false ->
  (forall j, (j < i)%nat -> raises (video_info pg j) = false) ->
  video_info pg i = Raise e ->
  video_data (fst (assemble pg max_videos))
  = map (record_at video_info pg) (seq 0 i)
  /\ snd (assemble pg max_videos) = Some e.
Proof.
  intros Hi Hr Hok He. unfold assemble. rewrite (seq_split _ _ Hi).
  apply (loop_raise (seq 0 i) _ i e start); trivial.
  intros j Hj. apply in_seq in Hj. split.
  - apply (reached_below i); [lia|trivial].
  - apply Hok. lia.
Qed.

End VideosLoop.

(** ** Sequences of unequal length *)

(** C1, as the specification states it, fails: with two titles and one
    duration the call returns the first record, not an empty list. *)
Lemma unequal_lengths_return_a_record :
  fst (eagle_eye_videos.scrape_channel Sample.table_reader "c"
         (Ok Sample.short_terms) None "1" Sample.noon Sample.nothing)
  = [["@c"; "UC1"; "a"; "1 day ago"; "15,000"; "x1";
      "https://www.youtube.com/watch?v=x1"; "1:00"]]
  /\ snd (eagle_eye_videos.assemble Sample.short_terms None)
     = Some IndexError.
Proof.
  split; vm_compute; reflexivity.
Qed.

(** C1, amended. The loop has no length check. When a sequence other than
    the titles has no element at an index [i] below the number of titles
    and the maximum, and the body ran through below [i], the call reports
    an exception, writes no file, and returns the [i] records assembled
    before. *)
Theorem unequal_lengths_return_prefix
  (read_csv : string -> option Os.content -> result Pandas.DataFrame)
  (input_value : string) (pg : page) (max_videos : option Z)
  (choice_info : string) (now : datetime) (w : world) (i : nat) :
  (i < List.length (titles pg))%nat ->
  reached max_videos i = false ->
  (forall j, (j < i)%nat ->
     raises (eagle_eye_videos.video_info pg j) = false) ->
  missing pg i = true ->
  exists e,
    eagle_eye_videos.scrape_channel read_csv input_value (Ok pg) max_videos
      choice_info now w
    = (map (record_at eagle_eye_videos.video_info pg) (seq 0 i),
       {| files := files w;
          stdout := stdout w ++ [ErrorWhileScraping input_value e] |})
    /\ List.length (map (record_at eagle_eye_videos.video_info pg) (seq 0 i))
       = i.
Proof.
  intros Hi Hr Hok Hm. apply missing_raises in Hm.
  destruct (eagle_eye_videos.video_info pg i) as [s|e] eqn:He;
    [discriminate|].
  exists e. split; [|now rewrite length_map, length_seq].
  destruct (assemble_raise pg max_videos i e Hi Hr Hok He) as [E1 E2].
  unfold eagle_eye_videos.scrape_channel.
  destruct (eagle_eye_videos.assemble pg max_videos) as [st o].
  simpl in E1, E2. subst o. now rewrite E1.
Qed.

Lemma unequal_lengths_return_prefix_witness :
  exists e,
    eagle_eye_videos.scrape_channel Sample.table_reader "c"
      (Ok Sample.short_terms) None "1" Sample.noon Sample.nothing
    = (map (record_at eagle_eye_videos.video_info Sample.short_terms)
           (seq 0 1),
       {| files := files Sample.nothing;
          stdout := stdout Sample.nothing ++ [ErrorWhileScraping "c" e] |})
    /\ List.length
         (map (record_at eagle_eye_videos.video_info Sample.short_terms)
              (seq 0 1)) = 1%nat.
Proof.
  apply (unequal_lengths_return_prefix Sample.table_reader "c"
           Sample.short_terms None "1" Sample.noon Sample.nothing 1).
  - simpl. lia.
  - reflexivity.
  - intros j Hj. assert (j = 0%nat) by lia. subst j. vm_compute.
    reflexivity.
  - vm_compute. reflexivity.
Defined.

(** ** A channel that fails, seen from [main] *)

(** C6, as the specification states it, fails: the channel whose loop
    raised at its second item leaves its first record in [data]. *)
Lemma failed_channel_leaves_a_record :
  fst (eagle_eye_main.scrape_all Sample.table_reader "videos" None "1"
         [{| eagle_eye_main.channel := "c";
             eagle_eye_main.extracted := Ok Sample.short_terms;
             eagle_eye_main.clock := Sample.noon |}] [] Sample.nothing)
  = [["@c"; "UC1"; "a"; "1 day ago"; "15,000"; "x1";
      "https://www.youtube.com/watch?v=x1"; "1:00"]].
Proof.
  vm_compute. reflexivity.
Qed.

(** C6, amended. A channel whose loop raises at index [i] is reported, and
    [main] goes on to the next channel with [data] extended by the [i]
    records that channel had appended: none only when [i] is 0. *)
Theorem failed_channel_contributes_prefix
  (read_csv : string -> option Os.content -> result Pandas.DataFrame)
  (max_videos : option Z) (choice_info : string)
  (v : eagle_eye_main.visit) (rest : list eagle_eye_main.visit)
  (data : list (list string)) (w : world) (pg : page) (i : nat) (e : exn) :
  eagle_eye_main.extracted v = Ok pg ->
  (i < List.length (titles pg))%nat ->
  reached max_videos i = false ->
  (forall j, (j < i)%nat ->
     raises (eagle_eye_videos.video_info pg j) = false) ->
  eagle_eye_videos.video_info pg i = Raise e ->
  eagle_eye_main.scrape_all read_csv "videos" max_videos choice_info
    (v :: rest) data w
  = eagle_eye_main.scrape_all read_csv "videos" max_videos choice_info rest
      (data ++ map (record_at eagle_eye_videos.video_info pg) (seq 0 i))
      {| files := files w;
         stdout := stdout w
                   ++ [ErrorWhileScraping
                         (Py.strip (eagle_eye_main.channel v)) e] |}.
Proof.
  intros Hx Hi Hr Hok He.
  destruct (assemble_raise pg max_videos i e Hi Hr Hok He) as [E1 E2].
  simpl. rewrite Hx. unfold eagle_eye_videos.scrape_channel.
  destruct (eagle_eye_videos.assemble pg max_videos) as [st o].
  simpl in E1, E2. subst o. now rewrite E1.
Qed.

Lemma failed_channel_contributes_prefix_witness :
  eagle_eye_main.scrape_all Sample.table_reader "videos" None "1"
    [{| eagle_eye_main.channel := "c";
        eagle_eye_main.extracted := Ok Sample.short_terms;
        eagle_eye_main.clock := Sample.noon |}] [] Sample.nothing
  = eagle_eye_main.scrape_all Sample.table_reader "videos" None "1" []
      ([] ++ map (record_at eagle_eye_videos.video_info Sample.short_terms)
                 (seq 0 1))
      {| files := files Sample.nothing;
         stdout := stdout Sample.nothing
                   ++ [ErrorWhileScraping (Py.strip "c") IndexError] |}.
Proof.
  apply (failed_channel_contributes_prefix Sample.table_reader None "1"
           {| eagle_eye_main.channel := "c";
              eagle_eye_main.extracted := Ok Sample.short_terms;
              eagle_eye_main.clock := Sample.noon |}
           [] [] Sample.nothing Sample.short_terms 1 IndexError).
  - reflexivity.
  - simpl. lia.
  - reflexivity.
  - intros j Hj. assert (j = 0%nat) by lia. subst j. vm_compute.
    reflexivity.
  - vm_compute. reflexivity.
Defined.

(** ** Sequences of equal length *)

(** C3, at an input where it fails. Every sequence the loop reads has one
    element and no maximum is set, yet no record is returned: the text of
    the view-count element is empty, [format_number] raises [IndexError]
    on its first word, and the loop ends there. *)
Theorem equal_lengths_empty_count :
  aligned Sample.empty_count 1
  /\ eagle_eye_videos.scrape_channel Sample.table_reader "c"
       (Ok Sample.empty_count) None "1" Sample.noon Sample.nothing
     = ([], {| files := [];
               stdout := [ErrorWhileScraping "c" IndexError] |}).
Proof.
  unfold aligned. repeat split; vm_compute; reflexivity.
Qed.

(** ** The number of fields of a record *)

(** C5, at an input where it fails. A title that holds a tab gives a
    record of nine fields; the data frame of eight columns is then refused
    and only the text file is written. *)
Theorem tab_in_title_gives_nine_fields :
  map (@List.length string)
      (fst (eagle_eye_videos.scrape_channel Sample.table_reader "c"
              (Ok Sample.tab_title) None "1" Sample.noon Sample.nothing))
  = [9%nat]
  /\ stdout (snd (eagle_eye_videos.scrape_channel Sample.table_reader "c"
                    (Ok Sample.tab_title) None "1" Sample.noon
                    Sample.nothing))
     = [ChannelHas "c" 1; ErrorWhileScraping "c" ValueError].
Proof.
  split; vm_compute; reflexivity.
Qed.

(** ** Strings and paths *)


Lemma append_assoc (a b c : string) : (a ++ b) ++ c = a ++ (b ++ c).
Proof.
  induction a as [|x a IH]; simpl; [reflexivity|now rewrite IH].
Qed.

Lemma append_cancel_l (a b c : string) : a ++ b = a ++ c -> b = c.
Proof.
  induction a as [|x a IH]; simpl; intros H; [exact H|].
  injection H as H. now apply IH.
Qed.

Lemma length_append (a b : string) :
  String.length (a ++ b) = (String.length a + String.length b)%nat.
Proof.
  induction a as [|x a IH]; simpl; [reflexivity|now rewrite IH].
Qed.




Lemma substring_shift (a b : string) (k n : nat) :
  substring (String.length a + k) n (a ++ b) = substring k n b.
Proof.
  induction a as [|c a IH]; simpl; [reflexivity|exact IH].
Qed.

(** Whether a string ends with [t] is decided by any tail of it that is at
    least as long as [t]. *)
Lemma endswith_append (a b t : string) :
  (String.length t <= String.length b)%nat ->
  Py.endswith (a ++ b) t = Py.endswith b t.
Proof.
  intros H. unfold Py.endswith. rewrite length_append.
  replace (String.length a + String.length b - String.length t)%nat
    with (String.length a + (String.length b - String.length t))%nat by lia.
  rewrite substring_shift.
  destruct (Nat.leb_spec (String.length t) (String.length b)) as [_|N];
    [|lia].
  destruct (Nat.leb_spec (String.length t)
              (String.length a + String.length b)) as [_|N]; [|lia].
  reflexivity.
Qed.

Section Store.

Import Os.

Lemma lookup_write_same (p : string) (c : content) (s : store) :
  lookup p (write p c s) = Some c.
Proof.
  induction s as [|[q d] s IH]; simpl.
  - now rewrite String.eqb_refl.
  - destruct (String.eqb q p) eqn:E; simpl.
    + now rewrite String.eqb_refl.
    + now rewrite E.
Qed.

Lemma lookup_write_other (p q : string) (c : content) (s : store) :
  p <> q -> lookup p (write q c s) = lookup p s.
Proof.
  intros N. induction s as [|[k d] s IH]; simpl.
  - destruct (String.eqb_spec q p) as [E|_]; [now elim N|reflexivity].
  - destruct (String.eqb_spec k q) as [E|Nk]; simpl.
    + subst k. destruct (String.eqb_spec q p) as [E|_]; [now elim N|].
      reflexivity.
    + now rewrite IH.
Qed.




Lemma no_sep_relative (n : string) :
  has_sep n = false -> Py.startswith n SEP = false.
Proof.
  destruct n as [|c n]; [reflexivity|].
  unfold has_sep, Py.startswith, SEP, Py.chars.
  cbn [list_ascii_of_string existsb prefix].
  intros H. apply orb_false_elim in H as [H _].
  destruct (ascii_dec "/" c) as [E|N]; [|reflexivity].
  subst c. rewrite Ascii.eqb_refl in H. discriminate.
Qed.

Lemma path_join_relative (a b : string) :
  Py.startswith b SEP = false -> path_join a b = dir_prefix a ++ b.
Proof.
  unfold path_join. now intros ->.
Qed.


End Store.

(** ** The summary merger *)

Section Merger.

Import Pandas Os eagle_eye_utils.

Variable read_csv : string -> option content -> result DataFrame.
Variable folder_path : string.

Lemma io_map_reads (fs : list string) (w : world) :
  io_map (fun file =>
            c <~ read_file (path_join folder_path file) ;;
            lift (read_csv "," c)) fs w
  = (w, read_frames read_csv folder_path (files w) fs).
Proof.
  induction fs as [|f fs IH]; [reflexivity|].
  cbn [io_map read_frames]. unfold io_bind, read_file, lift, ret in *.
  cbn beta iota.
  destruct (read_csv "," (lookup (path_join folder_path f) (files w)));
    [|reflexivity].
  cbn [bind]. rewrite IH.
  destruct (read_frames read_csv folder_path (files w) fs); reflexivity.
Qed.

Lemma plain_text_sheet (s : string) :
  plain_text s = true -> refused s = false /\ Py.str (sheet_chars s) = s.
Proof.
  unfold plain_text, refused, sheet_chars. intros H.
  apply andb_prop in H as [L F]. apply Nat.leb_le in L.
  assert (E : firstn (Z.to_nat 32767) (Py.chars s) = Py.chars s).
  { apply firstn_all2.
    replace (List.length (Py.chars s)) with (String.length s); [exact L|].
    unfold Py.chars. clear. induction s as [|c s IH]; [reflexivity|].
    cbn. now rewrite IH. }
  rewrite E. split.
  - destruct (existsb illegal_character (Py.chars s)) eqn:X; [|reflexivity].
    apply existsb_exists in X as (c & Hc & Hi).
    rewrite forallb_forall in F. specialize (F c Hc). rewrite Hi in F.
    discriminate F.
  - apply string_of_list_ascii_of_string.
Qed.

Lemma plain_cell_sheet (c : cell) :
  plain_cell c = true -> refused_cell c = false /\ sheet_cell c = c.
Proof.
  destruct c as [s|n|x|b|]; cbn [plain_cell refused_cell sheet_cell];
    intros H; try (now split).
  destruct (plain_text_sheet s H) as [R E]. now rewrite E.
Qed.

(** A plain frame is written to the worksheet as it is. *)
Lemma plain_sheet (df : DataFrame) :
  plain df = true ->
  existsb refused (columns df) || existsb (existsb refused_cell) (rows df)
  = false
  /\ sheet df = df.
Proof.
  unfold plain. intros H. apply andb_prop in H as [Hc Hr].
  rewrite forallb_forall in Hc, Hr.
  assert (C : existsb refused (columns df) = false
              /\ map (fun s => Py.str (sheet_chars s)) (columns df)
                 = columns df).
  { induction (columns df) as [|c l IH]; [now split|].
    destruct (plain_text_sheet c (Hc c (or_introl eq_refl))) as [R E].
    destruct IH as [I1 I2]; [intros x Hx; apply Hc; now right|].
    cbn [existsb map]. now rewrite R, E, I1, I2. }
  assert (R : existsb (existsb refused_cell) (rows df) = false
              /\ map (map sheet_cell) (rows df) = rows df).
  { induction (rows df) as [|r l IH]; [now split|].
    destruct IH as [I1 I2]; [intros x Hx; apply Hr; now right|].
    specialize (Hr r (or_introl eq_refl)). rewrite forallb_forall in Hr.
    assert (Q : existsb refused_cell r = false /\ map sheet_cell r = r).
    { induction r as [|c r IHr]; [now split|].
      destruct (plain_cell_sheet c (Hr c (or_introl eq_refl))) as [Rc Ec].
      destruct IHr as [J1 J2]; [intros x Hx; apply Hr; now right|].
      cbn [existsb map]. now rewrite Rc, Ec, J1, J2. }
    destruct Q as [Q1 Q2]. cbn [existsb map]. now rewrite Q1, Q2, I1, I2. }
  destruct C as [C1 C2], R as [R1 R2]. rewrite C1, R1. split; [reflexivity|].
  unfold sheet. rewrite C2, R2. now destruct df.
Qed.

Lemma to_excel_plain (p : string) (df : DataFrame) (w : world) :
  plain df = true -> too_large df = false ->
  to_excel p df w = write_file p (Excel df) w.
Proof.
  intros P L. unfold to_excel. destruct (plain_sheet df P) as [R E].
  now rewrite L, R, E.
Qed.

(** One run of the merger over a folder with summary files, when the
    worksheet takes the stacked frame. *)
Lemma merge_run (w : world) (f : string) (fs : list string)
  (dfs : list DataFrame) (m : DataFrame)
  (records : list (list (string * cell))) :
  summary_files folder_path (files w) = f :: fs ->
  read_frames read_csv folder_path (files w) (f :: fs) = Ok dfs ->
  concat dfs = Ok m ->
  plain m = true ->
  too_large m = false ->
  to_records m = Ok records ->
  merge_summary_files read_csv folder_path w
  = ({| files := merged_store folder_path m records (files w);
        stdout := stdout w ++ [SummaryFilesMerged] |}, Ok tt).
Proof.
  intros Hs Hr Hc Hp Hl Ht. unfold merge_summary_files. rewrite Hs.
  unfold io_bind at 1. rewrite io_map_reads, Hr.
  unfold io_bind at 1. unfold lift at 1. rewrite Hc.
  unfold io_bind at 1. unfold write_file at 1.
  unfold io_bind at 1. unfold write_file at 1.
  unfold io_bind at 1. rewrite to_excel_plain by assumption.
  unfold io_bind, lift, write_file, print. cbn. rewrite Ht.
  unfold merged_store. destruct (plain_sheet m Hp) as [_ E]. now rewrite E.
Qed.

(** Without summary files nothing is written. *)
Lemma merge_nothing (w : world) :
  summary_files folder_path (files w) = [] ->
  merge_summary_files read_csv folder_path w
  = ({| files := files w; stdout := stdout w ++ [NoSummaryFilesFound] |},
     Ok tt).
Proof.
  intros Hs. unfold merge_summary_files. now rewrite Hs.
Qed.





Lemma aggregate_paths_differ (x y : string) :
  has_sep x = false -> has_sep y = false -> x <> y ->
  path_join folder_path x <> path_join folder_path y.
Proof.
  intros Hx Hy N. rewrite !path_join_relative by now apply no_sep_relative.
  intros E. now apply append_cancel_l in E.
Qed.

End Merger.

(** ** File names of the summary export *)

Lemma digit_not (n : nat) (c : ascii) :
  PyFloat.is_digit c = false -> Ascii.eqb (digit n) c = false.
Proof.
  intros H. destruct (Ascii.eqb_spec (digit n) c) as [E|]; [|reflexivity].
  subst c. unfold digit in H.
  assert (B : (n mod 10 < 10)%nat) by (apply Nat.mod_upper_bound; lia).
  remember (n mod 10)%nat as k eqn:Ek. clear Ek.
  do 10 (destruct k as [|k]; [vm_compute in H; discriminate H|]).
  lia.
Qed.

(** No file name of the summary export carries the suffix the merger
    selects by. *)
Lemma summary_name_not_selected (pg : page) (now : datetime) (ext : string) :
  In ext [".txt"; ".csv"; ".xlsx"; ".json"] ->
  Py.endswith (eagle_eye_videos.summary_name pg (strftime now) ext)
              "_summary.csv" = false.
Proof.
  intros H. unfold eagle_eye_videos.summary_name.
  assert (D : forall n, Ascii.eqb (digit n) "_" = false
                        /\ Ascii.eqb (digit n) "s" = false)
    by (intros n; split; now apply digit_not).
  simpl in H.
  destruct H as [H|[H|[H|[H|[]]]]]; subst ext;
    (rewrite endswith_append by (rewrite length_append; simpl; lia));
    unfold Py.endswith, strftime, pad4, pad2;
    cbn [String.append String.length Nat.leb Nat.sub substring String.eqb
         andb];
    rewrite ?(proj1 (D _)), ?(proj2 (D _)); reflexivity.
Qed.

Section MergerRuns.

Import Pandas Os eagle_eye_utils.

Variable read_csv : string -> option content -> result DataFrame.
Variable folder_path : string.

Ltac aggregate_name :=
  first [ reflexivity | discriminate | vm_compute; reflexivity ].


Lemma merged_store_lookup (m : DataFrame)
  (records : list (list (string * cell))) (s : store) :
  let s1 := merged_store folder_path m records s in
  lookup (path_join folder_path "summary_all_channels.csv") s1
  = Some (Delimited "," m)
  /\ lookup (path_join folder_path "summary_all_channels.txt") s1
     = Some (Delimited TAB m)
  /\ lookup (path_join folder_path "summary_all_channels.xlsx") s1
     = Some (Excel (sheet m))
  /\ lookup (path_join folder_path "summary_all_channels.json") s1
     = Some (Json records).
Proof.
  unfold merged_store.
  repeat split;
    repeat first
      [ apply lookup_write_same
      | rewrite lookup_write_other
          by (apply aggregate_paths_differ; aggregate_name) ].
Qed.


End MergerRuns.




(** C10. The name of the summary file the export writes for a channel,
    the channel name, [_summary_], the time stamp and [.csv], does not end
    with [_summary.csv]; so over a folder in which every file is one of
    that export the merger selects no file, writes nothing and prints that
    there is nothing to merge. *)
Theorem summary_export_is_never_merged
  (read_csv : string -> option Os.content -> result Pandas.DataFrame)
  (folder_path : string) (w : world) (pg : page) (now : datetime) :
  (forall n, In n (Os.listdir folder_path (files w)) ->
     exists pg' now' ext,
       In ext [".txt"; ".csv"; ".xlsx"; ".json"]
       /\ n = eagle_eye_videos.summary_name pg' (strftime now') ext) ->
  Py.endswith (eagle_eye_videos.summary_name pg (strftime now) ".csv")
              "_summary.csv" = false
  /\ eagle_eye_utils.summary_files folder_path (files w) = []
  /\ eagle_eye_utils.merge_summary_files read_csv folder_path w
     = ({| files := files w; stdout := stdout w ++ [NoSummaryFilesFound] |},
        Ok tt).
Proof.
  intros H.
  assert (E : eagle_eye_utils.summary_files folder_path (files w) = []).
  { unfold eagle_eye_utils.summary_files.
    induction (Os.listdir folder_path (files w)) as [|n l IH];
      [reflexivity|].
    cbn [filter].
    destruct (H n (or_introl eq_refl)) as (pg' & now' & ext & Hx & ->).
    rewrite summary_name_not_selected by exact Hx.
    apply IH. intros m Hm. apply H. now right. }
  split; [|split].
  - apply summary_name_not_selected. simpl. tauto.
  - exact E.
  - now apply merge_nothing.
Qed.

Lemma summary_export_is_never_merged_witness :
  Py.endswith
    (eagle_eye_videos.summary_name Sample.two_videos (strftime Sample.noon)
       ".csv") "_summary.csv" = false
  /\ eagle_eye_utils.summary_files "downloads/@c"
       (files (snd (eagle_eye_videos.scrape_channel Sample.table_reader "c"
                      (Ok Sample.two_videos) None "2" Sample.noon
                      Sample.nothing))) = []
  /\ eagle_eye_utils.merge_summary_files Sample.table_reader "downloads/@c"
       (snd (eagle_eye_videos.scrape_channel Sample.table_reader "c"
               (Ok Sample.two_videos) None "2" Sample.noon Sample.nothing))
     = ({| files :=
             files (snd (eagle_eye_videos.scrape_channel Sample.table_reader
                           "c" (Ok Sample.two_videos) None "2" Sample.noon
                           Sample.nothing));
           stdout :=
             stdout (snd (eagle_eye_videos.scrape_channel
                            Sample.table_reader "c" (Ok Sample.two_videos)
                            None "2" Sample.noon Sample.nothing))
             ++ [NoSummaryFilesFound] |}, Ok tt).
Proof.
  apply (summary_export_is_never_merged Sample.table_reader "downloads/@c"
           (snd (eagle_eye_videos.scrape_channel Sample.table_reader "c"
                   (Ok Sample.two_videos) None "2" Sample.noon
                   Sample.nothing))
           Sample.two_videos Sample.noon).
  intros n Hn. vm_compute in Hn.
  exists Sample.two_videos, Sample.noon.
  destruct Hn as [Hn|[Hn|[Hn|[Hn|[]]]]]; subst n;
    [exists ".txt"|exists ".csv"|exists ".xlsx"|exists ".json"];
    (split; [simpl; tauto|vm_compute; reflexivity]).
Defined.

(** ** The shorts export *)

Lemma keys_write (p : string) (c : Os.content) (s : Os.store) :
  incl (map fst (Os.write p c s)) (map fst s ++ [p]).
Proof.
  induction s as [|[q d] s IH]; simpl.
  - apply incl_refl.
  - destruct (String.eqb_spec q p) as [E|N]; simpl.
    + subst q. intros x [H|H]; [now left|].
      right. apply in_or_app. now left.
    + intros x [H|H]; [now left|]. right. now apply IH.
Qed.

Ltac keys_of_writes :=
  repeat first
    [ apply incl_appl; apply incl_refl
    | eapply incl_tran; [apply keys_write|];
      apply incl_app; [|intros ? [<-|[]]; apply in_or_app; right;
                         simpl; tauto] ].

Section Shorts.

Import Pandas Os eagle_eye_shorts.

Variable read_csv : string -> option content -> result DataFrame.

Lemma shorts_paths_differ (pg : page) (e1 e2 : string) :
  "_shorts" ++ e1 <> "_shorts" ++ e2 ->
  shorts_path pg e1 <> shorts_path pg e2.
Proof.
  unfold shorts_path. intros N E. now apply append_cancel_l in E.
Qed.

(** Whatever is read back, [save] writes the text file, and only files
    named after the channel in the working directory. *)
Lemma shorts_save_files (pg : page) (video_data : list (list string))
  (w : world) :
  lookup (shorts_path pg ".txt")
         (files (fst (save read_csv pg video_data w)))
  = Some (Text (txt_lines shorts_header video_data))
  /\ incl (map fst (files (fst (save read_csv pg video_data w))))
          (map fst (files w)
           ++ [shorts_path pg ".txt"; shorts_path pg ".csv";
               shorts_path pg ".xlsx"; shorts_path pg ".json"])
  /\ stdout (fst (save read_csv pg video_data w)) = stdout w.
Proof.
  unfold save, io_bind, write_file, read_file, lift.
  cbn [fst snd files stdout]. fold shorts_header.
  repeat match goal with
         | |- context [read_csv ?s ?c] => destruct (read_csv s c)
         | |- context [to_records ?d] => destruct (to_records d)
         end;
    cbn [fst snd files stdout];
    (split; [|split; [keys_of_writes|reflexivity]]);
    repeat (rewrite lookup_write_other
              by (apply shorts_paths_differ; discriminate));
    apply lookup_write_same.
Qed.

(** The files after a call of the shorts scraper on a page. *)
Lemma shorts_scrape_files (input_value : string) (pg : page)
  (max_videos : option Z) (w : world) :
  let w1 := snd (scrape_channel read_csv input_value (Ok pg) max_videos w) in
  incl (map fst (files w1))
       (map fst (files w)
        ++ [shorts_path pg ".txt"; shorts_path pg ".csv";
            shorts_path pg ".xlsx"; shorts_path pg ".json"])
  /\ (snd (assemble pg max_videos) = None ->
      lookup (shorts_path pg ".txt") (files w1)
      = Some (Text (txt_lines shorts_header
                      (fst (assemble pg max_videos))))).
Proof.
  unfold scrape_channel.
  destruct (assemble pg max_videos) as [video_data [e|]];
    cbn [fst snd files print].
  - split; [apply incl_appl, incl_refl|discriminate].
  - unfold io_bind, print.
    set (w0 := {| files := files w;
                  stdout := stdout w
                            ++ [ChannelHas input_value
                                  (List.length (titles pg))] |}).
    destruct (shorts_save_files pg video_data w0) as (L & I & _).
    destruct (save read_csv pg video_data w0) as [w' [u|e]];
      cbn [fst snd files] in *; split; trivial.
Qed.

End Shorts.

(** C7, where it fails. The shorts scraper names no folder and reads no
    clock: every file it writes is one of the four [_shorts] names after
    the channel name, in the working directory. A second run over the
    channel therefore replaces the text file of the first. *)
Theorem shorts_files_have_no_folder_and_no_time
  (read_csv : string -> option Os.content -> result Pandas.DataFrame)
  (input_value : string) (pg : page) (max_videos : option Z) (w : world) :
  let run := eagle_eye_shorts.scrape_channel read_csv in
  incl (map fst (files (snd (run input_value (Ok pg) max_videos w))))
       (map fst (files w)
        ++ [cname pg ++ "_shorts.txt"; cname pg ++ "_shorts.csv";
            cname pg ++ "_shorts.xlsx"; cname pg ++ "_shorts.json"])
  /\ Os.lookup "@c_shorts.txt"
       (files (snd (run "c" (Ok Sample.one_short) None Sample.nothing)))
     = Some (Os.Text
               (txt_lines shorts_header
                  [["@c"; "UC1"; "a"; "5"; "x1";
                    "https://www.youtube.com/shorts/x1"]]))
  /\ Os.lookup "@c_shorts.txt"
       (files (snd (run "c" (Ok Sample.two_shorts) None
                      (snd (run "c" (Ok Sample.one_short) None
                              Sample.nothing)))))
     = Some (Os.Text
               (txt_lines shorts_header
                  [["@c"; "UC1"; "t1"; "5"; "x1";
                    "https://www.youtube.com/shorts/x1"];
                   ["@c"; "UC1"; "t2"; "7"; "x2";
                    "https://www.youtube.com/shorts/x2"]])).
Proof.
  intros run. subst run. split; [|split].
  - apply (shorts_scrape_files read_csv input_value pg max_videos w).
  - apply (shorts_scrape_files read_csv "c" Sample.one_short None
             Sample.nothing).
    vm_compute. reflexivity.
  - apply (shorts_scrape_files read_csv "c" Sample.two_shorts None).
    vm_compute. reflexivity.
Qed.

Section ShortsText.

Import Pandas Os eagle_eye_shorts.

Variable read_csv : string -> option content -> result DataFrame.

(** The files [save] leaves depend on the records only through the text
    it writes first. *)
Lemma shorts_save_by_text (pg pg' : page)
  (video_data video_data' : list (list string)) (w w' : world) :
  cname pg = cname pg' ->
  txt_lines shorts_header video_data = txt_lines shorts_header video_data' ->
  files w = files w' ->
  files (fst (save read_csv pg video_data w))
  = files (fst (save read_csv pg' video_data' w')).
Proof.
  intros Hc Ht Hf.
  unfold save, io_bind, write_file, read_file, lift, shorts_path.
  cbn [fst snd files stdout]. fold shorts_header.
  rewrite Hc, Ht, Hf.
  repeat match goal with
         | |- context [read_csv ?s ?c] => destruct (read_csv s c)
         | |- context [to_records ?d] => destruct (to_records d)
         end; reflexivity.
Qed.

Lemma shorts_scrape_by_text (input_value : string) (pg pg' : page)
  (video_data video_data' : list (list string)) (w : world) :
  assemble pg None = (video_data, None) ->
  assemble pg' None = (video_data', None) ->
  cname pg = cname pg' ->
  txt_lines shorts_header video_data = txt_lines shorts_header video_data' ->
  files (snd (scrape_channel read_csv input_value (Ok pg) None w))
  = files (snd (scrape_channel read_csv input_value (Ok pg') None w)).
Proof.
  intros A A' Hc Ht. unfold scrape_channel. rewrite A, A'.
  unfold io_bind, print.
  match goal with
  | |- files (snd match save _ _ _ ?w1 with _ => _ end)
       = files (snd match save _ _ _ ?w2 with _ => _ end) =>
      pose proof (shorts_save_by_text pg pg' video_data video_data' w1 w2
                    Hc Ht eq_refl) as E;
      destruct (save read_csv pg video_data w1) as [x [u|e]];
      destruct (save read_csv pg' video_data' w2) as [y [u'|e']]
  end; exact E.
Qed.

End ShortsText.

(** C8, where it fails. The shorts scraper makes its CSV and JSON files
    from the text file read back. A page of one short whose title holds
    tabs and a line break writes the same text file as a page of two
    shorts, so the two runs leave the same files, with one record
    assembled in the first and two in the second: the CSV file cannot hold
    as many data rows as records in both. *)
Theorem shorts_rows_come_from_the_text
  (read_csv : string -> option Os.content -> result Pandas.DataFrame) :
  let run := eagle_eye_shorts.scrape_channel read_csv "c" in
  let one := run (Ok Sample.folded_short) None Sample.nothing in
  let two := run (Ok Sample.two_shorts) None Sample.nothing in
  List.length (fst one) = 1%nat
  /\ List.length (fst two) = 2%nat
  /\ files (snd one) = files (snd two)
  /\ ~ (data_rows "@c_shorts.csv" (snd one) = Some (List.length (fst one))
        /\ data_rows "@c_shorts.csv" (snd two)
           = Some (List.length (fst two))).
Proof.
  intros run one two.
  assert (A1 : eagle_eye_shorts.assemble Sample.folded_short None
               = (fst (eagle_eye_shorts.assemble Sample.folded_short None),
                  None)) by (vm_compute; reflexivity).
  assert (A2 : eagle_eye_shorts.assemble Sample.two_shorts None
               = (fst (eagle_eye_shorts.assemble Sample.two_shorts None),
                  None)) by (vm_compute; reflexivity).
  assert (F : files (snd one) = files (snd two)).
  { apply (shorts_scrape_by_text read_csv "c" _ _ _ _ _ A1 A2);
      vm_compute; reflexivity. }
  assert (L1 : List.length (fst one) = 1%nat).
  { subst one run. unfold eagle_eye_shorts.scrape_channel. rewrite A1.
    destruct ((print _ ;;; eagle_eye_shorts.save _ _ _) _) as [x [u|e]];
      vm_compute; reflexivity. }
  assert (L2 : List.length (fst two) = 2%nat).
  { subst two run. unfold eagle_eye_shorts.scrape_channel. rewrite A2.
    destruct ((print _ ;;; eagle_eye_shorts.save _ _ _) _) as [x [u|e]];
      vm_compute; reflexivity. }
  repeat split; trivial.
  intros [R1 R2]. unfold data_rows in R1, R2. rewrite F, R2, L1, L2 in R1.
  discriminate.
Qed.

(** ** Complete sequences *)

Lemma aligned_complete (pg : page) (n : nat) : aligned pg n -> complete pg n.
Proof.
  unfold aligned, complete. intros (H1 & H2 & H3 & H4 & H5 & H6).
  repeat split; lia.
Qed.

Section Complete.

Import eagle_eye_videos.

Variable pg : page.
Variable n : nat.
Hypothesis Hpg : complete pg n.

Lemma complete_body (i : nat) :
  (i < n)%nat ->
  raises (eagle_eye_utils.format_number (counter_view pg i)) = false ->
  raises (video_info pg i) = false.
Proof.
  destruct Hpg as (H1 & H2 & H3 & H4 & H5 & H6). intros Hi Hf.
  unfold video_info, Py.index, counter_view in *.
  repeat match goal with
         | |- context [nth_error ?l i] =>
             let E := fresh "E" in
             destruct (nth_error l i) eqn:E;
             [ try (rewrite (nth_error_nth _ _ _ E) in Hf)
             | apply nth_error_None in E; lia ];
             cbn [bind]
         end.
  destruct (eagle_eye_utils.format_number _); [reflexivity|discriminate].
Qed.

(** X1. With [n] titles, at least [n] elements in every other sequence,
    and [format_number] returning on every view count, the loop raises
    nothing and appends the record of each index in order, up to the
    maximum when one is given. *)
Theorem complete_assemble (max_videos : option Z) :
  (forall i, (i < n)%nat ->
     raises (eagle_eye_utils.format_number (counter_view pg i)) = false) ->
  video_data (fst (assemble pg max_videos))
  = map (record_at video_info pg) (seq 0 (capped n max_videos))
  /\ snd (assemble pg max_videos) = None
  /\ List.length (video_data (fst (assemble pg max_videos)))
     = capped n max_videos.
Proof.
  intros Hf.
  assert (T : List.length (titles pg) = n) by apply Hpg.
  assert (G : video_data (fst (assemble pg max_videos))
              = map (record_at video_info pg) (seq 0 (capped n max_videos))
              /\ snd (assemble pg max_videos) = None).
  { unfold assemble. rewrite T.
    destruct (Nat.lt_ge_cases (capped n max_videos) n) as [Lt|Ge].
    - destruct max_videos as [k|]; [|unfold capped in Lt; lia].
      unfold capped in *. rewrite (seq_split n _ Lt).
      apply (loop_break pg (Some k)).
      + intros j Hj. apply in_seq in Hj. split.
        * unfold reached. apply Z.leb_gt. lia.
        * apply complete_body; [lia|apply Hf; lia].
      + unfold reached. apply Z.leb_le. lia.
    - assert (E : capped n max_videos = n).
      { unfold capped in *. destruct max_videos; lia. }
      rewrite E. apply (loop_all pg max_videos (seq 0 n) start).
      intros j Hj. apply in_seq in Hj. split.
      + unfold reached. destruct max_videos as [k|]; [|reflexivity].
        apply Z.leb_gt. unfold capped in E. lia.
      + apply complete_body; [lia|apply Hf; lia]. }
  destruct G as [G1 G2]. repeat split; trivial.
  now rewrite G1, length_map, length_seq.
Qed.

End Complete.

Lemma complete_assemble_witness :
  eagle_eye_videos.video_data
    (fst (eagle_eye_videos.assemble Sample.two_videos (Some 1)))
  = map (record_at eagle_eye_videos.video_info Sample.two_videos)
        (seq 0 (capped 2 (Some 1)))
  /\ snd (eagle_eye_videos.assemble Sample.two_videos (Some 1)) = None
  /\ List.length
       (eagle_eye_videos.video_data
          (fst (eagle_eye_videos.assemble Sample.two_videos (Some 1))))
     = capped 2 (Some 1).
Proof.
  apply (complete_assemble Sample.two_videos 2).
  - apply aligned_complete. repeat split; reflexivity.
  - intros i Hi.
    destruct i as [|[|i]]; [vm_compute; reflexivity .. | lia].
Defined.

(** ** The videos export *)

Section VideosFiles.

Import Pandas Os eagle_eye_videos.

Lemma append_cancel_r (a b c : string) : a ++ c = b ++ c -> a = b.
Proof.
  revert b. induction a as [|x a IH]; intros [|y b] H; simpl in H.
  - reflexivity.
  - apply (f_equal String.length) in H. simpl in H.
    rewrite length_append in H. lia.
  - apply (f_equal String.length) in H. simpl in H.
    rewrite length_append in H. lia.
  - injection H as -> H. f_equal. now apply IH.
Qed.

Lemma no_sep_no_end (s : string) :
  has_sep s = false -> Py.endswith s SEP = false.
Proof.
  induction s as [|c s IH]; [reflexivity|].
  unfold has_sep, Py.chars. cbn [list_ascii_of_string existsb].
  intros H. apply orb_false_elim in H as [Hc Hs].
  destruct s as [|d s].
  - unfold Py.endswith, SEP. cbn.
    rewrite Ascii.eqb_sym. now rewrite Hc.
  - change (String c (String d s)) with (String c "" ++ String d s).
    rewrite endswith_append by (simpl; lia). now apply IH.
Qed.

Lemma startswith_append (x e : string) :
  x <> "" -> Py.startswith (x ++ e) SEP = Py.startswith x SEP.
Proof.
  destruct x as [|c x]; [now intros N|]. intros _.
  unfold Py.startswith, SEP. cbn [String.append prefix].
  destruct (ascii_dec "/" c); [|reflexivity]. now destruct (x ++ e), x.
Qed.

(** Two names that differ in their extension give two paths. *)
Lemma path_join_ext (a x e1 e2 : string) :
  x <> "" -> e1 <> e2 -> path_join a (x ++ e1) <> path_join a (x ++ e2).
Proof.
  intros Nx Ne E. unfold path_join in E.
  rewrite !startswith_append in E by exact Nx.
  destruct (Py.startswith x SEP).
  - now apply append_cancel_l in E.
  - now do 2 apply append_cancel_l in E.
Qed.

(** The place of a per-channel file, for a channel name that is not empty
    and holds no separator. *)
Lemma channel_file_path (cn name : string) :
  cn <> "" -> has_sep cn = false ->
  path_join (path_join "downloads" cn) (cn ++ name)
  = "downloads/" ++ cn ++ "/" ++ cn ++ name.
Proof.
  intros Nc Hs.
  rewrite (path_join_relative "downloads" cn)
    by now apply no_sep_relative.
  change (dir_prefix "downloads") with "downloads/".
  rewrite path_join_relative
    by (rewrite startswith_append by exact Nc; now apply no_sep_relative).
  unfold dir_prefix.
  assert (E : Py.endswith ("downloads/" ++ cn) SEP = false).
  { rewrite endswith_append.
    - now apply no_sep_no_end.
    - destruct cn; [now elim Nc|simpl; lia]. }
  rewrite E. cbn [String.eqb orb String.append].
  now rewrite !append_assoc.
Qed.

End VideosFiles.

Section DirectExport.

Import Pandas Os.

Lemma video_paths_differ (pg : page) (ts e1 e2 : string) :
  e1 <> e2 ->
  eagle_eye_videos.video_path pg ts e1 <> eagle_eye_videos.video_path pg ts e2.
Proof.
  intros N. unfold eagle_eye_videos.video_path, eagle_eye_videos.video_name.
  rewrite <- !(append_assoc "_videos_"), <- !(append_assoc (cname pg)).
  apply path_join_ext; [|exact N]. now destruct (cname pg).
Qed.

Lemma stream_paths_differ (pg : page) (ts e1 e2 : string) :
  e1 <> e2 ->
  eagle_eye_streams.stream_path pg ts e1
  <> eagle_eye_streams.stream_path pg ts e2.
Proof.
  intros N.
  unfold eagle_eye_streams.stream_path, eagle_eye_streams.stream_name.
  rewrite <- !(append_assoc "_streams_"), <- !(append_assoc (cname pg)).
  apply path_join_ext; [|exact N]. now destruct (cname pg).
Qed.

End DirectExport.

(** ** The exceptions of the number normaliser *)

(** X4. [format_number] lets no [ValueError] out. What it raises is
    [IndexError], on the empty string only, or [OverflowError], when the
    number read is infinite. *)
Theorem format_number_exceptions (number : string) (e : exn) :
  eagle_eye_utils.format_number number = Raise e ->
  (e = IndexError /\ number = "") \/ e = OverflowError.
Proof.
  unfold eagle_eye_utils.format_number, eagle_eye_utils.format_number_try.
  unfold Py.last_char.
  destruct (rev (Py.chars number)) as [|c l] eqn:R; cbn [bind].
  - intros H. injection H as <-. left. split; [reflexivity|].
    apply (f_equal (@rev ascii)) in R. rewrite rev_involutive in R.
    simpl in R. unfold Py.chars in R.
    rewrite <- (string_of_list_ascii_of_string number), R. reflexivity.
  - match goal with
    | |- context [bind ?f _] => destruct f as [x|e'] eqn:F
    end; cbn [bind].
    + destruct (PyFloat.mul x _) as [s|s| |s m ex]; cbn;
        intros H; try discriminate H.
      injection H as <-. now right.
    + assert (e' = ValueError).
      { unfold PyFloat.float in F.
        destruct (eagle_eye_utils.dict_get _ c);
          destruct (PyFloat.parse _); congruence. }
      subst e'. discriminate.
Qed.

Lemma format_number_exceptions_witness :
  (IndexError = IndexError /\ "" = "") \/ IndexError = OverflowError.
Proof.
  apply (format_number_exceptions "" IndexError). vm_compute. reflexivity.
Defined.

(** ** Tabs in the texts read *)

Section Tabs.

Lemma chars_append (a b : string) :
  Py.chars (a ++ b) = (Py.chars a ++ Py.chars b)%list.
Proof.
  unfold Py.chars. induction a as [|c a IH]; simpl; [reflexivity|].
  now rewrite IH.
Qed.

Lemma chars_str (l : list ascii) : Py.chars (Py.str l) = l.
Proof.
  apply list_ascii_of_string_of_list_ascii.
Qed.

Lemma tabs_append (a b : string) : tabs (a ++ b) = (tabs a + tabs b)%nat.
Proof.
  unfold tabs. rewrite chars_append. apply count_occ_app.
Qed.

Lemma tabs_cons (c : ascii) (s : string) :
  tabs (String c s)
  = ((if ascii_dec c Py.tab then 1 else 0) + tabs s)%nat.
Proof.
  unfold tabs, Py.chars. cbn [list_ascii_of_string count_occ].
  now destruct (ascii_dec c Py.tab).
Qed.

Lemma tabless_tabs (s : string) : tabless s -> tabs s = 0%nat.
Proof.
  unfold tabless, tabs. intros H. apply count_occ_not_In.
  intros I. rewrite Forall_forall in H. now apply (H _ I).
Qed.

Lemma tabless_append (a b : string) :
  tabless a -> tabless b -> tabless (a ++ b).
Proof.
  unfold tabless. rewrite chars_append. intros. now apply Forall_app.
Qed.

(** A split gives one field more than there are separators. *)
Lemma split_chars_length (c : ascii) (l : list ascii) :
  List.length (Py.split_chars c l) = S (count_occ ascii_dec l c).
Proof.
  induction l as [|a l IH]; [reflexivity|]. cbn [Py.split_chars count_occ].
  destruct (Ascii.eqb_spec a c) as [E|N].
  - destruct (ascii_dec a c) as [_|N]; [|now elim N].
    cbn [List.length]. now rewrite IH.
  - destruct (ascii_dec a c) as [E|_]; [now elim N|].
    destruct (Py.split_chars c l); [discriminate IH|exact IH].
Qed.

Lemma split_length (s : string) :
  List.length (Py.split Py.tab s) = S (tabs s).
Proof.
  unfold Py.split, tabs. rewrite length_map. apply split_chars_length.
Qed.

(** Every field of a split is made of characters of the string. *)
Lemma split_chars_keep (P : ascii -> Prop) (c : ascii) (l : list ascii) :
  Forall P l -> Forall (Forall P) (Py.split_chars c l).
Proof.
  induction 1 as [|a l Ha Hl IH]; cbn [Py.split_chars].
  - repeat constructor.
  - destruct (Ascii.eqb a c); [now constructor|].
    destruct (Py.split_chars c l) as [|w ws].
    + repeat constructor. exact Ha.
    + inversion IH; subst. constructor; [now constructor|assumption].
Qed.

Lemma tabless_split_first (c : ascii) (s : string) :
  tabless s -> tabless (Py.split_first c s).
Proof.
  unfold tabless, Py.split_first, Py.split. intros H.
  apply (split_chars_keep _ c) in H.
  destruct (Py.split_chars c (Py.chars s)) as [|w ws]; cbn [map hd].
  - constructor.
  - rewrite chars_str. now inversion H.
Qed.

Lemma tabless_split_last (c : ascii) (s : string) :
  tabless s -> tabless (Py.split_last c s).
Proof.
  unfold tabless, Py.split_last, Py.split. intros H.
  apply (split_chars_keep _ c) in H.
  induction H as [|w ws Hw Hws IH]; [constructor|].
  destruct ws as [|w' ws]; cbn [map last] in *.
  - now rewrite chars_str.
  - exact IH.
Qed.

Lemma lstrip_keep (P : ascii -> Prop) (l : list ascii) :
  Forall P l -> Forall P (Py.lstrip_chars l).
Proof.
  induction 1 as [|a l Ha Hl IH]; cbn [Py.lstrip_chars]; [constructor|].
  destruct (Py.isspace a); [exact IH|now constructor].
Qed.

Lemma tabless_strip (s : string) : tabless s -> tabless (Py.strip s).
Proof.
  unfold tabless, Py.strip, Py.strip_chars. intros H. rewrite chars_str.
  apply Forall_rev, lstrip_keep, Forall_rev, lstrip_keep, H.
Qed.

Lemma uint_digits (u : Decimal.uint) :
  Forall (fun c => c <> Py.tab) (Py.chars (NilEmpty.string_of_uint u)).
Proof.
  induction u; cbn; constructor; trivial; discriminate.
Qed.

Lemma group3_keep (P : ascii -> Prop) (l : list ascii) :
  P ","%char -> forall k acc,
  Forall P l -> Forall P acc -> Forall P (PyFormat.group3 k l acc).
Proof.
  intros Hc. induction l as [|d l IH]; intros k acc Hl Ha;
    cbn [PyFormat.group3]; [exact Ha|].
  inversion Hl; subst.
  destruct k as [|[|[|[|k]]]]; apply IH; trivial; repeat constructor;
    trivial.
Qed.

Lemma tabless_commas (n : Z) : tabless (PyFormat.commas n).
Proof.
  unfold tabless, PyFormat.commas. rewrite chars_str.
  assert (B : Forall (fun c => c <> Py.tab)
                (PyFormat.group3 0 (rev (PyFormat.decimal n)) [])).
  { apply group3_keep; [discriminate| |constructor].
    apply Forall_rev. unfold PyFormat.decimal, NilZero.string_of_uint.
    destruct (N.to_uint (Z.abs_N n)); try apply uint_digits.
    repeat constructor. discriminate. }
  destruct (n <? 0); [constructor; [discriminate|exact B]|exact B].
Qed.

Lemma tabless_format_number (s t : string) :
  tabless s -> eagle_eye_utils.format_number s = Ok t -> tabless t.
Proof.
  intros Hs. unfold eagle_eye_utils.format_number.
  destruct (eagle_eye_utils.format_number_try s) as [r|e] eqn:E.
  - intros H. injection H as <-.
    unfold eagle_eye_utils.format_number_try in E.
    destruct (Py.last_char s); [|discriminate]. cbn [bind] in E.
    match type of E with
    | bind ?f _ = _ => destruct f; [|discriminate]
    end.
    cbn [bind] in E.
    destruct (PyFloat.int _); [|discriminate].
    injection E as <-. apply tabless_commas.
  - destruct e; try discriminate. intros H. now injection H as <-.
Qed.

End Tabs.

(** X5. When no text read for item [i] holds a tab, the record
    assembled for it has exactly eight fields; in every case it has one
    field more than the joined line has tabs. *)
Theorem clean_item_has_eight_fields (pg : page) (i : nat) (info : string) :
  eagle_eye_videos.video_info pg i = Ok info ->
  clean pg i ->
  record_at eagle_eye_videos.video_info pg i = Py.split Py.tab info
  /\ List.length (Py.split Py.tab info) = S (tabs info)
  /\ List.length (record_at eagle_eye_videos.video_info pg i) = 8%nat.
Proof.
  intros Hi (C1 & C2 & C3 & C4 & C5 & C6 & C7 & C8).
  assert (R : record_at eagle_eye_videos.video_info pg i
              = Py.split Py.tab info) by (unfold record_at; now rewrite Hi).
  rewrite R. split; [reflexivity|]. split; [apply split_length|].
  rewrite split_length. f_equal.
  unfold eagle_eye_videos.video_info, Py.index in Hi.
  repeat match type of Hi with
         | context [nth_error ?l i] =>
             let E := fresh "E" in
             destruct (nth_error l i) eqn:E; [|discriminate Hi];
             rewrite (nth_error_nth _ _ _ E) in *; clear E;
             cbn [bind] in Hi
         | context [eagle_eye_utils.format_number ?s] =>
             let F := fresh "F" in
             destruct (eagle_eye_utils.format_number s) eqn:F;
             [|discriminate Hi];
             apply tabless_format_number in F;
             [|now apply tabless_split_first];
             cbn [bind] in Hi
         end.
  injection Hi as <-.
  apply (tabless_split_last "=") in C6. apply tabless_strip in C8.
  repeat first [rewrite tabs_append | rewrite tabs_cons].
  rewrite !tabless_tabs by assumption. reflexivity.
Qed.

Lemma clean_item_has_eight_fields_witness :
  record_at eagle_eye_videos.video_info Sample.two_videos 1
  = Py.split Py.tab
      ("@c" ++ TAB ++ "UC1" ++ TAB ++ "b" ++ TAB ++ "2 days ago" ++ TAB
       ++ "900" ++ TAB ++ "x2" ++ TAB
       ++ "https://www.youtube.com/watch?v=x2" ++ TAB ++ "2:00")
  /\ List.length
       (Py.split Py.tab
          ("@c" ++ TAB ++ "UC1" ++ TAB ++ "b" ++ TAB ++ "2 days ago" ++ TAB
           ++ "900" ++ TAB ++ "x2" ++ TAB
           ++ "https://www.youtube.com/watch?v=x2" ++ TAB ++ "2:00"))
     = S (tabs ("@c" ++ TAB ++ "UC1" ++ TAB ++ "b" ++ TAB ++ "2 days ago"
                ++ TAB ++ "900" ++ TAB ++ "x2" ++ TAB
                ++ "https://www.youtube.com/watch?v=x2" ++ TAB ++ "2:00"))
  /\ List.length (record_at eagle_eye_videos.video_info Sample.two_videos 1)
     = 8%nat.
Proof.
  apply (clean_item_has_eight_fields Sample.two_videos 1).
  - vm_compute. reflexivity.
  - unfold clean, tabless.
    repeat split; vm_compute; repeat constructor; discriminate.
Defined.

(** ** The prompts *)

Section Prompts.

Import eagle_eye_utils_prompts.

Lemma split_not_empty (c : ascii) (s : string) : Py.split c s <> [].
Proof.
  intros E. apply (f_equal (@List.length string)) in E.
  unfold Py.split in E. rewrite length_map, split_chars_length in E.
  discriminate E.
Qed.

Lemma str_chars (s : string) : Py.str (Py.chars s) = s.
Proof.
  apply string_of_list_ascii_of_string.
Qed.

Lemma str_empty (l : list ascii) : Py.str l = "" -> l = [].
Proof.
  destruct l; [reflexivity|discriminate].
Qed.

Lemma lstrip_unblank (l : list ascii) : unblank (Py.lstrip_chars l).
Proof.
  induction l as [|a l IH]; cbn [Py.lstrip_chars]; [exact I|].
  destruct (Py.isspace a) eqn:E; [exact IH|exact E].
Qed.

Lemma lstrip_fixed (l : list ascii) : unblank l -> Py.lstrip_chars l = l.
Proof.
  destruct l as [|a l]; [reflexivity|]. cbn [unblank Py.lstrip_chars].
  now intros ->.
Qed.

(** [lstrip] drops a prefix: what is left is a suffix. *)
Lemma lstrip_suffix (l : list ascii) :
  exists p, l = (p ++ Py.lstrip_chars l)%list.
Proof.
  induction l as [|a l [p IH]]; [now exists []|]. cbn [Py.lstrip_chars].
  destruct (Py.isspace a).
  - exists (a :: p). cbn. now f_equal.
  - now exists [].
Qed.

Lemma rev_unblank_prefix (m r p : list ascii) :
  unblank m -> rev m = (p ++ r)%list -> r <> [] -> unblank (rev r).
Proof.
  intros Hm E Nr. apply (f_equal (@rev ascii)) in E.
  rewrite rev_involutive, rev_app_distr in E. subst m.
  destruct (rev r) as [|a x] eqn:R; [exact I|]. exact Hm.
Qed.

(** [strip] is idempotent. *)
Lemma strip_chars_strip (l : list ascii) :
  Py.strip_chars (Py.strip_chars l) = Py.strip_chars l.
Proof.
  unfold Py.strip_chars.
  set (m := Py.lstrip_chars l).
  set (r := Py.lstrip_chars (rev m)).
  assert (Ur : unblank r) by apply lstrip_unblank.
  assert (Um : unblank m) by apply lstrip_unblank.
  destruct (lstrip_suffix (rev m)) as [p E]. fold r in E.
  assert (U : unblank (rev r)).
  { destruct r as [|a r'] eqn:R; [exact I|].
    apply (rev_unblank_prefix m (a :: r') p Um E). discriminate. }
  rewrite (lstrip_fixed (rev r) U), rev_involutive.
  now rewrite (lstrip_fixed r Ur).
Qed.

Lemma strip_strip (s : string) : Py.strip (Py.strip s) = Py.strip s.
Proof.
  unfold Py.strip. rewrite chars_str. now rewrite strip_chars_strip.
Qed.

Lemma strip_keep (P : ascii -> Prop) (s : string) :
  Forall P (Py.chars s) -> Forall P (Py.chars (Py.strip s)).
Proof.
  unfold Py.strip, Py.strip_chars. intros H. rewrite chars_str.
  apply Forall_rev, lstrip_keep, Forall_rev, lstrip_keep, H.
Qed.

(** No field of a split holds the separator. *)
Lemma split_chars_free (c : ascii) (l : list ascii) :
  Forall (Forall (fun a => a <> c)) (Py.split_chars c l).
Proof.
  induction l as [|a l IH]; cbn [Py.split_chars].
  - repeat constructor.
  - destruct (Ascii.eqb_spec a c) as [E|N]; [now constructor|].
    destruct (Py.split_chars c l) as [|w ws].
    + repeat constructor. exact N.
    + inversion IH; subst. constructor; [now constructor|assumption].
Qed.

Lemma split_free (c : ascii) (s x : string) :
  In x (Py.split c s) -> Forall (fun a => a <> c) (Py.chars x).
Proof.
  unfold Py.split. intros H. apply in_map_iff in H as (w & <- & Hw).
  rewrite chars_str.
  pose proof (split_chars_free c (Py.chars s)) as F.
  rewrite Forall_forall in F. now apply F.
Qed.

Lemma again_answered {A : Type} (n : notice) (r : list notice * answer A)
  (ns : list notice) (a : A) (rest : list string) :
  again n r = (ns, Answered a rest) ->
  exists ns', ns = n :: ns' /\ r = (ns', Answered a rest).
Proof.
  destruct r as [ns' x]. unfold again. cbn [fst snd]. intros H.
  injection H as <- ->. now exists ns'.
Qed.

End Prompts.

(** X6. The channel prompt returns the names of the first line that holds
    one: the pieces between the commas, stripped, without the blank ones.
    The list is not empty, and no name in it is empty, holds a comma, or
    changes when stripped again. Every line before it holds blank pieces
    only, and printed one warning. *)
Theorem channel_input_names (stdin rest : list string) (ns : list notice)
  (channels_to_scrape : list string) :
  eagle_eye_utils_prompts.get_channel_input stdin
  = (ns, Answered channels_to_scrape rest) ->
  channels_to_scrape <> []
  /\ Forall (fun channel =>
               channel <> "" /\ Py.strip channel = channel
               /\ ~ In ","%char (Py.chars channel)) channels_to_scrape
  /\ exists rejected line,
       stdin = (rejected ++ line :: rest)%list
       /\ ns = repeat NoChannelUsernames (List.length rejected)
       /\ Forall (fun l => Forall (fun piece => Py.strip piece = "")
                                  (Py.split "," l)) rejected
       /\ channels_to_scrape
          = map Py.strip
              (filter (fun channel => negb (String.eqb (Py.strip channel) ""))
                      (Py.split "," line)).
Proof.
  revert ns. induction stdin as [|line stdin IH]; intros ns H;
    cbn [eagle_eye_utils_prompts.get_channel_input] in H; [discriminate H|].
  set (l := map Py.strip
              (filter (fun channel => negb (String.eqb (Py.strip channel) ""))
                      (Py.split "," line))) in *.
  destruct l as [|c l'] eqn:L.
  - apply again_answered in H as (ns' & -> & H).
    destruct (IH ns' H) as (N & F & rejected & line' & E & En & Er & Ec).
    split; [exact N|]. split; [exact F|].
    exists (line :: rejected), line'. subst stdin ns'.
    repeat split; trivial. constructor; [|exact Er].
    subst l. apply map_eq_nil in L. apply Forall_forall. intros piece Hp.
    destruct (String.eqb_spec (Py.strip piece) "") as [E|N']; [exact E|].
    assert (I : In piece
                  (filter (fun channel =>
                             negb (String.eqb (Py.strip channel) ""))
                          (Py.split "," line))).
    { apply filter_In. split; [exact Hp|].
      destruct (String.eqb_spec (Py.strip piece) ""); [now elim N'|reflexivity]. }
    rewrite L in I. destruct I.
  - injection H as <- <- <-. split; [discriminate|]. split.
    + rewrite <- L. subst l. apply Forall_forall. intros x Hx.
      apply in_map_iff in Hx as (y & <- & Hy).
      apply filter_In in Hy as [Hy Hn]. split; [|split].
      * destruct (String.eqb_spec (Py.strip y) ""); [discriminate Hn|assumption].
      * apply strip_strip.
      * intros I. pose proof (strip_keep _ y (split_free _ _ _ Hy)) as F.
        rewrite Forall_forall in F. now apply (F _ I).
    + exists [], line. now repeat split.
Qed.

(** The channel prompt, on a blank line and then a line of two names. *)
Lemma channel_input_names_witness :
  ["a"; "@b"] <> []
  /\ Forall (fun channel =>
               channel <> "" /\ Py.strip channel = channel
               /\ ~ In ","%char (Py.chars channel)) ["a"; "@b"]
  /\ exists rejected line,
       [" , "; " a, ,@b "; "1"] = (rejected ++ line :: ["1"])%list
       /\ [NoChannelUsernames]
          = repeat NoChannelUsernames (List.length rejected)
       /\ Forall (fun l => Forall (fun piece => Py.strip piece = "")
                                  (Py.split "," l)) rejected
       /\ ["a"; "@b"]
          = map Py.strip
              (filter (fun channel => negb (String.eqb (Py.strip channel) ""))
                      (Py.split "," line)).
Proof.
  apply (channel_input_names [" , "; " a, ,@b "; "1"] ["1"]
           [NoChannelUsernames] ["a"; "@b"]).
  vm_compute. reflexivity.
Defined.

(** X7. The prompt for the maximum returns on the first line that is
    empty or reads as an integer above zero: [None] for the empty line, the
    integer otherwise. Every line before it is neither, and printed one
    warning. A maximum so obtained never stops the loop of a scraper
    before its first item. *)
Theorem max_videos_is_none_or_positive (stdin rest : list string)
  (ns : list notice) (max_videos : option Z) :
  eagle_eye_utils_prompts.get_max_videos_to_scrape stdin
  = (ns, Answered max_videos rest) ->
  exists rejected line,
    stdin = (rejected ++ line :: rest)%list
    /\ List.length ns = List.length rejected
    /\ Forall (fun n => n = NotPositiveNumber \/ n = InvalidNumber) ns
    /\ Forall (fun l => l <> ""
                        /\ forall n, PyInt.parse l = Some n -> n <= 0)
              rejected
    /\ match max_videos with
       | None => line = ""
       | Some n => PyInt.parse line = Some n /\ 0 < n
       end
    /\ reached max_videos 0 = false.
Proof.
  revert ns. induction stdin as [|line stdin IH]; intros ns H;
    cbn [eagle_eye_utils_prompts.get_max_videos_to_scrape] in H;
    [discriminate H|].
  assert (Again : forall n ns0,
            (n = NotPositiveNumber \/ n = InvalidNumber) ->
            line <> "" ->
            (forall k, PyInt.parse line = Some k -> k <= 0) ->
            again n (eagle_eye_utils_prompts.get_max_videos_to_scrape stdin)
            = (ns0, Answered max_videos rest) ->
            exists rejected line0,
              line :: stdin = (rejected ++ line0 :: rest)%list
              /\ List.length ns0 = List.length rejected
              /\ Forall (fun n => n = NotPositiveNumber \/ n = InvalidNumber)
                        ns0
              /\ Forall (fun l => l <> ""
                                  /\ forall n, PyInt.parse l = Some n -> n <= 0)
                        rejected
              /\ match max_videos with
                 | None => line0 = ""
                 | Some n => PyInt.parse line0 = Some n /\ 0 < n
                 end
              /\ reached max_videos 0 = false).
  { intros n ns0 Hn Ne Hp Ha.
    apply again_answered in Ha as (ns' & -> & Ha).
    destruct (IH ns' Ha) as (rejected & line' & E & El & Fn & Fr & Hm & Hr).
    exists (line :: rejected), line'. subst stdin. cbn [List.length].
    repeat split; trivial; [now rewrite El| |]; constructor; auto. }
  destruct (String.eqb_spec line "") as [E|Ne].
  - injection H as <- <- <-. exists [], line. now repeat split.
  - unfold PyInt.int in H. destruct (PyInt.parse line) as [k|] eqn:P.
    + destruct (Z.ltb_spec 0 k) as [Pos|Neg].
      * injection H as <- <- <-. exists [], line.
        repeat split; trivial. unfold reached. apply Z.leb_gt. exact Pos.
      * apply (Again NotPositiveNumber); auto.
        intros k' Hk. injection Hk as <-. exact Neg.
    + apply (Again InvalidNumber); auto. discriminate.
Qed.

(** The prompt for the maximum, on a word, a zero and then a number. *)
Lemma max_videos_is_none_or_positive_witness :
  exists rejected line,
    ["ten"; "0"; " 1_0 "; "5"] = (rejected ++ line :: ["5"])%list
    /\ List.length [InvalidNumber; NotPositiveNumber] = List.length rejected
    /\ Forall (fun n => n = NotPositiveNumber \/ n = InvalidNumber)
              [InvalidNumber; NotPositiveNumber]
    /\ Forall (fun l => l <> ""
                        /\ forall n, PyInt.parse l = Some n -> n <= 0)
              rejected
    /\ (PyInt.parse line = Some 10 /\ 0 < 10)
    /\ reached (Some 10) 0 = false.
Proof.
  apply (max_videos_is_none_or_positive ["ten"; "0"; " 1_0 "; "5"] ["5"]
           [InvalidNumber; NotPositiveNumber] (Some 10)).
  vm_compute. reflexivity.
Defined.

Section Formats.

Import eagle_eye_utils_prompts.

Lemma member_In (choice : string) (l : list string) :
  member choice l = true <-> In choice l.
Proof.
  unfold member. rewrite existsb_exists. split.
  - intros (x & Hx & E). apply String.eqb_eq in E. now subst.
  - intros H. exists choice. split; [exact H|apply String.eqb_refl].
Qed.

(** On a selection of valid choices the second check does nothing. *)
Lemma recheck_valid (format_selection : list string) :
  forallb (fun choice => member choice valid_formats) format_selection = true ->
  recheck format_selection = ([], format_selection).
Proof.
  unfold recheck. generalize (@nil notice, format_selection).
  induction format_selection as [|c l IH]; intros acc H; [reflexivity|].
  cbn [forallb] in H. apply andb_prop in H as [Hc Hl].
  cbn [fold_left]. rewrite Hc. now apply IH.
Qed.

End Formats.

(** X8. The format prompt returns on the first line whose pieces between
    the commas, after the line is stripped, are all among ['1'] to ['5']:
    it returns these pieces. The selection is never empty, every choice in
    it is valid, so the check after the loop never fires. Every line
    before it has a piece that is no valid choice, and printed one
    warning. *)
Theorem format_selection_is_valid (stdin rest : list string)
  (ns : list notice) (format_selection : list string) :
  eagle_eye_utils_prompts.get_format_selection stdin
  = (ns, Answered format_selection rest) ->
  format_selection <> []
  /\ Forall (fun choice => In choice eagle_eye_utils_prompts.valid_formats)
            format_selection
  /\ exists rejected line,
       stdin = (rejected ++ line :: rest)%list
       /\ ns = repeat InvalidFormatSelection (List.length rejected)
       /\ Forall (fun l =>
                    exists choice,
                      In choice (Py.split "," (Py.strip l))
                      /\ ~ In choice eagle_eye_utils_prompts.valid_formats)
                 rejected
       /\ format_selection = Py.split "," (Py.strip line).
Proof.
  revert ns. induction stdin as [|line stdin IH]; intros ns H;
    cbn [eagle_eye_utils_prompts.get_format_selection] in H;
    [discriminate H|].
  destruct (forallb _ (Py.split "," (Py.strip line))) eqn:V.
  - rewrite (recheck_valid _ V) in H. cbn [fst snd] in H.
    destruct (Py.split "," (Py.strip line)) as [|c l] eqn:S;
      [now apply split_not_empty in S|].
    injection H as <- <- <-. split; [discriminate|]. split.
    + apply Forall_forall. intros x Hx.
      rewrite forallb_forall in V. now apply member_In, V.
    + exists [], line. now repeat split.
  - apply again_answered in H as (ns' & -> & H).
    destruct (IH ns' H) as (N & F & rejected & line' & E & En & Er & Ec).
    split; [exact N|]. split; [exact F|].
    exists (line :: rejected), line'. subst stdin ns'.
    repeat split; trivial. constructor; [|exact Er].
    clear - V. induction (Py.split "," (Py.strip line)) as [|c l IHl];
      [discriminate V|].
    cbn [forallb] in V.
    destruct (eagle_eye_utils_prompts.member c
                eagle_eye_utils_prompts.valid_formats) eqn:M.
    + destruct (IHl V) as (x & Hx & Nx). exists x. split; [now right|exact Nx].
    + exists c. split; [now left|]. intros I. apply member_In in I.
      congruence.
Qed.

(** The format prompt, on a selection with a blank after the comma and then
    one without. *)
Lemma format_selection_is_valid_witness :
  ["1"; "4"] <> []
  /\ Forall (fun choice => In choice eagle_eye_utils_prompts.valid_formats)
            ["1"; "4"]
  /\ exists rejected line,
       ["1, 4"; " 1,4 "] = (rejected ++ line :: [])%list
       /\ [InvalidFormatSelection]
          = repeat InvalidFormatSelection (List.length rejected)
       /\ Forall (fun l =>
                    exists choice,
                      In choice (Py.split "," (Py.strip l))
                      /\ ~ In choice eagle_eye_utils_prompts.valid_formats)
                 rejected
       /\ ["1"; "4"] = Py.split "," (Py.strip line).
Proof.
  apply (format_selection_is_valid ["1, 4"; " 1,4 "] []
           [InvalidFormatSelection] ["1"; "4"]).
  vm_compute. reflexivity.
Defined.

(** X9. The choice between video and channel information is asked once:
    a call that returns leaves the module variable set to the choice, and
    every later call returns that choice without reading a line or
    printing. When the variable was not set, the choice is ['1'] or
    ['2']. *)
Theorem user_choice_info_is_asked_once (user_choice_info : option string)
  (stdin rest : list string) (ns : list notice) (choice_info : string)
  (after : option string) :
  eagle_eye_utils_prompts.get_user_choice_info user_choice_info stdin
  = (ns, Answered (choice_info, after) rest) ->
  after = Some choice_info
  /\ (user_choice_info = None -> choice_info = "1" \/ choice_info = "2")
  /\ forall stdin',
       eagle_eye_utils_prompts.get_user_choice_info after stdin'
       = ([], Answered (choice_info, after) stdin').
Proof.
  unfold eagle_eye_utils_prompts.get_user_choice_info.
  destruct user_choice_info as [c|].
  - intros H. injection H as <- <- <- <-.
    split; [reflexivity|]. split; [discriminate|reflexivity].
  - destruct (eagle_eye_utils_prompts.ask_choice_info stdin) as [ns' [c r|]]
      eqn:A; [|discriminate].
    intros H. injection H as <- <- <- <-.
    split; [reflexivity|]. split; [|reflexivity]. intros _.
    revert ns' A. induction stdin as [|line stdin IH]; intros ns' A;
      cbn [eagle_eye_utils_prompts.ask_choice_info] in A; [discriminate A|].
    destruct (eagle_eye_utils_prompts.member (Py.strip line) ["1"; "2"]) eqn:M.
    + injection A as <- <- <-. apply member_In in M.
      destruct M as [M|[M|[]]]; auto.
    + apply again_answered in A as (ns0 & -> & A). now apply (IH ns0).
Qed.

(** The choice, asked on a wrong line and then [2]. *)
Lemma user_choice_info_is_asked_once_witness :
  Some "2" = Some "2"
  /\ (@None string = None -> "2" = "1" \/ "2" = "2")
  /\ forall stdin',
       eagle_eye_utils_prompts.get_user_choice_info (Some "2") stdin'
       = ([], Answered ("2", Some "2") stdin').
Proof.
  apply (user_choice_info_is_asked_once None ["3"; " 2 "; "x"] ["x"]
           [InvalidChoice]).
  vm_compute. reflexivity.
Defined.
(** ** The export of [main] *)

Section CombinedExport.

Import Pandas Os eagle_eye_utils_prompts eagle_eye_main_run.

Lemma pad_full (r : list cell) : pad (List.length r) r = r.
Proof.
  induction r as [|c r IH]; [reflexivity|]. cbn [List.length pad].
  now rewrite IH.
Qed.

Lemma width_even (data : list (list string)) (n : nat) :
  data <> [] -> Forall (fun r => List.length r = n) data -> width data = n.
Proof.
  unfold width. intros N F. induction F as [|r l Hr Hl IH]; [now elim N|].
  cbn [map fold_right]. destruct l as [|r' l].
  - cbn. lia.
  - rewrite IH by discriminate. lia.
Qed.

Lemma width_bound (data : list (list string)) (r : list string) :
  In r data -> (List.length r <= width data)%nat.
Proof.
  unfold width. induction data as [|x l IH]; [intros []|].
  cbn [map fold_right]. intros [->|H]; [lia|]. specialize (IH H). lia.
Qed.

(** Records of the width of the header make the frame of their cells. *)
Lemma from_rows_even (data : list (list string)) (cols : list string) :
  Forall (fun r => List.length r = List.length cols) data ->
  from_rows data cols
  = Ok {| columns := cols; rows := map (map CStr) data |}.
Proof.
  intros F. unfold from_rows. destruct data as [|r l]; [reflexivity|].
  rewrite (width_even (r :: l) (List.length cols)) by (trivial; discriminate).
  rewrite Nat.eqb_refl. do 2 f_equal. apply map_ext_in. intros x Hx.
  rewrite Forall_forall in F. rewrite <- (F x Hx), <- (length_map CStr x).
  apply pad_full.
Qed.




End CombinedExport.
Section ExportFails.

Import Pandas Os eagle_eye_utils_prompts eagle_eye_main_run.

Lemma process_eta (s : process) :
  {| stdin := stdin s; user_choice_info := user_choice_info s;
     disk := disk s; printed := printed s |} = s.
Proof.
  now destruct s.
Qed.

(** A valid choice other than ['5'] takes one of the four arms, whose
    first step reads [channels_folder]. *)
Lemma save_as_unbound (selection : string) (df : DataFrame)
  (data : list (list string)) (choice : string) (w : world) :
  In choice valid_formats -> choice <> "5" ->
  save_as selection df data None None choice w
  = (w, Raise UnboundLocalError).
Proof.
  intros H N. cbn [valid_formats In] in H.
  destruct H as [<-|[<-|[<-|[<-|[<-|[]]]]]]; try reflexivity. now elim N.
Qed.

Lemma not_member (choice : string) (l : list string) :
  member choice l = false -> ~ In choice l.
Proof.
  intros H I. apply member_In in I. congruence.
Qed.

(** The loop over the selected formats prints nothing: it stops at its
    first choice when the details of the videos were asked for, and does
    nothing otherwise. *)
Lemma save_selected_run (selection choice_info : string) (df : DataFrame)
  (data : list (list string)) (format_selection : list string) (s : process) :
  Forall (fun choice => In choice valid_formats) format_selection ->
  member "5" format_selection = false ->
  save_selected selection choice_info df data format_selection s
  = (s, if String.eqb choice_info "1"
        then match format_selection with
             | [] => Next tt
             | _ :: _ => Stop (Crashed UnboundLocalError)
             end
        else Next tt).
Proof.
  intros F M. apply not_member in M.
  induction F as [|c l Hc Hl IH]; cbn [save_selected].
  - now destruct (String.eqb choice_info "1").
  - unfold run_bind at 1. destruct (String.eqb choice_info "1") eqn:E.
    + unfold run_bind, on_disk.
      rewrite save_as_unbound;
        [|exact Hc|intros ->; apply M; now left].
      cbn [fst snd]. now rewrite process_eta.
    + unfold unit_run at 1. apply IH. intros I. apply M. now right.
Qed.

End ExportFails.

(** X11. With a selection of formats that does not hold ['5'], the choice
    of video details and at least one record scraped, the export of [main]
    writes no file: the first format reads the folder of the combined
    files, a local variable that only the branch for all formats binds, and
    [main] ends with [UnboundLocalError] before it prints a report. *)
Theorem combined_export_of_selected_formats_fails (selection : string)
  (format_selection : list string) (data : list (list string))
  (df : Pandas.DataFrame) (now : datetime) (s : eagle_eye_main_run.process) :
  data <> [] ->
  Pandas.from_rows data
    (if String.eqb selection "shorts" then eagle_eye_main_run.shorts_columns
     else eagle_eye_main_run.video_columns) = Ok df ->
  format_selection <> [] ->
  Forall (fun choice => In choice eagle_eye_utils_prompts.valid_formats)
         format_selection ->
  eagle_eye_utils_prompts.member "5" format_selection = false ->
  eagle_eye_main_run.export selection "1" format_selection data now s
  = (s, eagle_eye_main_run.Stop
          (eagle_eye_main_run.Crashed UnboundLocalError)).
Proof.
  intros Nd Hd Nf F M. unfold eagle_eye_main_run.export.
  destruct data as [|r0 data0]; [now elim Nd|].
  unfold eagle_eye_main_run.run_bind at 1.
  unfold eagle_eye_main_run.on_disk at 1, lift at 1 2. cbn [fst snd].
  rewrite Hd, M, process_eta.
  unfold eagle_eye_main_run.run_bind at 1.
  rewrite save_selected_run by assumption. cbn [String.eqb Ascii.eqb Bool.eqb].
  destruct format_selection; [now elim Nf|reflexivity].
Qed.

(** X12. A record with more fields than the header has columns, as a tab
    in a title makes one, stops the export of [main] at the data frame:
    [main] ends with [ValueError], whatever formats were selected, and
    writes and reports nothing. *)
Theorem wide_record_stops_the_export (selection choice_info : string)
  (format_selection : list string) (data : list (list string))
  (record : list string) (now : datetime) (s : eagle_eye_main_run.process) :
  In record data ->
  (List.length
     (if String.eqb selection "shorts" then eagle_eye_main_run.shorts_columns
      else eagle_eye_main_run.video_columns)
   < List.length record)%nat ->
  eagle_eye_main_run.export selection choice_info format_selection data now s
  = (s, eagle_eye_main_run.Stop (eagle_eye_main_run.Crashed ValueError)).
Proof.
  intros I L. pose proof (width_bound data record I) as B.
  unfold eagle_eye_main_run.export.
  destruct data as [|r0 data0]; [destruct I|].
  unfold eagle_eye_main_run.run_bind at 1.
  unfold eagle_eye_main_run.on_disk at 1, lift at 1 2. cbn [fst snd].
  unfold Pandas.from_rows.
  destruct (Nat.eqb_spec (Pandas.width (r0 :: data0))
              (List.length
                 (if String.eqb selection "shorts"
                  then eagle_eye_main_run.shorts_columns
                  else eagle_eye_main_run.video_columns))) as [E|_]; [lia|].
  now rewrite process_eta.
Qed.
(** ** The run of [main] *)

Section MainRun.

Import Pandas Os eagle_eye_utils_prompts eagle_eye_main_run.

Variable read_csv : string -> option content -> result DataFrame.

Lemma no_format_report_nil : no_format_report [].
Proof.
  intros f [].
Qed.

Lemma no_format_report_cons (n : notice) (ns : list notice) :
  (forall f, n <> DataSaved f) -> no_format_report ns ->
  no_format_report (n :: ns).
Proof.
  intros Hn Hns f [E|I]; [now apply (Hn f)|now apply (Hns f)].
Qed.

Lemma no_format_report_app (a b : list notice) :
  no_format_report a -> no_format_report b -> no_format_report (a ++ b).
Proof.
  intros Ha Hb f I. apply in_app_or in I as [I|I];
    [now apply (Ha f)|now apply (Hb f)].
Qed.

Lemma again_no_format_report {A : Type} (n : notice)
  (r : list notice * answer A) :
  (forall f, n <> DataSaved f) -> no_format_report (fst r) ->
  no_format_report (fst (again n r)).
Proof.
  intros Hn Hr. unfold again. cbn [fst]. now apply no_format_report_cons.
Qed.

Ltac prompt_warnings IH :=
  first [ apply no_format_report_nil
        | apply again_no_format_report; [discriminate|exact IH] ].

(** The prompts print warnings only. *)
Lemma channel_input_warnings (l : list string) :
  no_format_report (fst (get_channel_input l)).
Proof.
  induction l as [|line l IH]; cbn [get_channel_input];
    [apply no_format_report_nil|].
  destruct (map _ _); prompt_warnings IH.
Qed.

Lemma data_type_warnings (l : list string) :
  no_format_report (fst (get_data_type_to_scrape l)).
Proof.
  induction l as [|line l IH]; cbn [get_data_type_to_scrape];
    [apply no_format_report_nil|].
  repeat match goal with
         | |- context [if ?b then _ else _] => destruct b
         end; prompt_warnings IH.
Qed.

Lemma max_videos_warnings (l : list string) :
  no_format_report (fst (get_max_videos_to_scrape l)).
Proof.
  induction l as [|line l IH]; cbn [get_max_videos_to_scrape];
    [apply no_format_report_nil|].
  destruct (String.eqb line ""); [apply no_format_report_nil|].
  destruct (PyInt.int line) as [k|e]; [destruct (0 <? k)|];
    prompt_warnings IH.
Qed.

Lemma format_selection_warnings (l : list string) :
  no_format_report (fst (get_format_selection l)).
Proof.
  induction l as [|line l IH]; cbn [get_format_selection];
    [apply no_format_report_nil|].
  destruct (forallb _ (Py.split "," (Py.strip line))) eqn:V.
  - rewrite (recheck_valid _ V).
    destruct (Py.split "," (Py.strip line)); [exact IH|].
    apply no_format_report_nil.
  - prompt_warnings IH.
Qed.

Lemma choice_info_warnings (l : list string) :
  no_format_report (fst (ask_choice_info l)).
Proof.
  induction l as [|line l IH]; cbn [ask_choice_info];
    [apply no_format_report_nil|].
  destruct (member _ _); prompt_warnings IH.
Qed.

Lemma user_choice_info_warnings (g : option string) (l : list string) :
  no_format_report (fst (get_user_choice_info g l)).
Proof.
  unfold get_user_choice_info. destruct g; [apply no_format_report_nil|].
  pose proof (choice_info_warnings l) as H.
  now destruct (ask_choice_info l) as [ns [c r|]].
Qed.

(** The selection the format prompt returns holds valid choices only. *)
Lemma format_selection_choices (l rest : list string) (ns : list notice)
  (format_selection : list string) :
  get_format_selection l = (ns, Answered format_selection rest) ->
  Forall (fun choice => In choice valid_formats) format_selection.
Proof.
  revert ns. induction l as [|line l IH]; intros ns H;
    cbn [get_format_selection] in H; [discriminate H|].
  destruct (forallb _ (Py.split "," (Py.strip line))) eqn:V.
  - rewrite (recheck_valid _ V) in H. cbn [fst snd] in H.
    destruct (Py.split "," (Py.strip line)) as [|c l0] eqn:S;
      [now apply split_not_empty in S|].
    injection H as <- <- <-. apply Forall_forall. intros x Hx.
    rewrite forallb_forall in V. now apply member_In, V.
  - apply again_answered in H as (ns' & -> & H). now apply (IH ns').
Qed.

(** *** Steps that print no report of a single format *)

Lemma quiet_bind {A B : Type} (m : run A) (k : A -> run B) :
  reports_no_format m -> (forall a, reports_no_format (k a)) ->
  reports_no_format (run_bind m k).
Proof.
  intros Hm Hk s. unfold run_bind. destruct (Hm s) as (ns & E & Q).
  destruct (m s) as [s' [a|e]]; cbn [fst] in *.
  - destruct (Hk a s') as (ns' & E' & Q'). exists (ns ++ ns')%list.
    rewrite E', E, app_assoc. split; [reflexivity|].
    now apply no_format_report_app.
  - now exists ns.
Qed.

Lemma quiet_unit {A : Type} (a : A) : reports_no_format (unit_run a).
Proof.
  intros s. exists []. cbn. rewrite app_nil_r. split; [reflexivity|].
  apply no_format_report_nil.
Qed.

Lemma quiet_stop {A : Type} (e : ending) : reports_no_format (@stop A e).
Proof.
  intros s. exists []. cbn. rewrite app_nil_r. split; [reflexivity|].
  apply no_format_report_nil.
Qed.

Lemma quiet_say (n : notice) :
  (forall f, n <> DataSaved f) -> reports_no_format (say n).
Proof.
  intros H s. exists [n]. cbn. split; [reflexivity|].
  apply no_format_report_cons; [exact H|apply no_format_report_nil].
Qed.

Lemma quiet_ask {A : Type} (p : prompt A) :
  (forall l, no_format_report (fst (p l))) -> reports_no_format (ask p).
Proof.
  intros H s. exists (fst (p (stdin s))). unfold ask.
  split; [|apply H]. now destruct (snd (p (stdin s))).
Qed.

Lemma quiet_on_disk {A : Type} (m : io A) : reports_no_format (on_disk m).
Proof.
  intros s. exists []. unfold on_disk. rewrite app_nil_r.
  split; [|apply no_format_report_nil]. now destruct (snd (m (disk s))).
Qed.

Lemma quiet_choice : reports_no_format ask_user_choice_info.
Proof.
  intros s. unfold ask_user_choice_info, run_bind.
  destruct (quiet_ask (get_user_choice_info (user_choice_info s))
              (user_choice_info_warnings _) s) as (ns & E & Q).
  exists ns. split; [|exact Q].
  now destruct (ask (get_user_choice_info (user_choice_info s)) s)
    as [s' [a|e]].
Qed.

Lemma quiet_scrape (selection : string) (max_videos : option Z)
  (choice_info : string) (l : list eagle_eye_main.visit) :
  reports_no_format (scrape read_csv selection max_videos choice_info l).
Proof.
  intros s. exists []. cbn. rewrite app_nil_r. split; [reflexivity|].
  apply no_format_report_nil.
Qed.

Lemma quiet_export (selection choice_info : string)
  (format_selection : list string) (data : list (list string))
  (now : datetime) :
  Forall (fun choice => In choice valid_formats) format_selection ->
  reports_no_format (export selection choice_info format_selection data now).
Proof.
  intros F. unfold export. destruct data as [|r0 data0].
  - apply quiet_say. discriminate.
  - apply quiet_bind; [apply quiet_on_disk|]. intros df.
    apply quiet_bind; [|intros _; apply quiet_bind;
                         [apply quiet_say; discriminate
                         |intros _; apply quiet_say; discriminate]].
    destruct (member "5" format_selection) eqn:M.
    + unfold save_all. apply quiet_bind.
      * destruct (String.eqb choice_info "1"); [|apply quiet_unit].
        apply quiet_bind; [apply quiet_on_disk|intros ?; apply quiet_unit].
      * intros [|]; [apply quiet_say; discriminate|apply quiet_unit].
    + intros s. exists []. rewrite save_selected_run by assumption.
      cbn [fst]. rewrite app_nil_r. split; [reflexivity|].
      apply no_format_report_nil.
Qed.

Lemma ask_next {A : Type} (p : prompt A) (s s' : process) (a : A) :
  ask p s = (s', Next a) ->
  exists ns rest, p (stdin s) = (ns, Answered a rest).
Proof.
  unfold ask. destruct (p (stdin s)) as [ns [x rest|]]; cbn [fst snd];
    intros H; [|discriminate H].
  injection H as _ <-. now exists ns, rest.
Qed.

Lemma quiet_main_body (args : arguments) (net : internet) :
  reports_no_format (main_body read_csv args net).
Proof.
  unfold main_body. destruct (version args).
  - apply quiet_bind; [apply quiet_say; discriminate|].
    intros _. apply quiet_stop.
  - apply quiet_bind.
    { destruct (channels args); [|apply quiet_unit].
      apply quiet_bind; [apply quiet_ask, channel_input_warnings|].
      intros [|c l]; [apply quiet_stop|apply quiet_unit]. }
    intros channels_to_scrape.
    apply quiet_bind; [apply quiet_ask, data_type_warnings|].
    intros selection. apply quiet_bind.
    { destruct (String.eqb selection "videos");
        [apply quiet_choice|apply quiet_unit]. }
    intros choice_info.
    apply quiet_bind; [apply quiet_ask, max_videos_warnings|].
    intros max_videos.
    (* the selection of formats is known to be valid where it is used *)
    intros s. unfold run_bind at 1.
    destruct (quiet_ask get_format_selection format_selection_warnings s)
      as (ns & E & Q).
    destruct (ask get_format_selection s) as [s' [fs|e]] eqn:K;
      cbn [fst] in E; [|now exists ns].
    apply ask_next in K as (ns0 & rest & K).
    apply format_selection_choices in K.
    destruct (quiet_bind (scrape read_csv selection max_videos choice_info
                            (visits net selection 0 channels_to_scrape))
                (fun data => export selection choice_info fs data
                               (time net (List.length channels_to_scrape)))
                (quiet_scrape _ _ _ _)
                (fun data => quiet_export _ _ _ data _ K) s')
      as (ns' & E' & Q').
    exists (ns ++ ns')%list. rewrite E', E, app_assoc.
    split; [reflexivity|]. now apply no_format_report_app.
Qed.

(** *** Steps and the end of the input *)

Lemma starves_bind {A B : Type} (m : run A) (k : A -> run B) :
  keeps_disk m -> (forall a, starves_clean (k a)) ->
  starves_clean (run_bind m k).
Proof.
  intros Hm Hk s. unfold run_bind. specialize (Hm s).
  destruct (m s) as [s' [a|e]]; cbn [fst snd] in *.
  - intros H. rewrite (Hk a s' H). exact Hm.
  - intros _. exact Hm.
Qed.

Lemma keeps_bind {A B : Type} (m : run A) (k : A -> run B) :
  keeps_disk m -> (forall a, keeps_disk (k a)) -> keeps_disk (run_bind m k).
Proof.
  intros Hm Hk s. unfold run_bind. specialize (Hm s).
  destruct (m s) as [s' [a|e]]; cbn [fst] in *; [|exact Hm].
  now rewrite (Hk a s').
Qed.

Lemma keeps_starves {A : Type} (m : run A) : keeps_disk m -> starves_clean m.
Proof.
  intros H s _. apply H.
Qed.

Lemma fed_starves {A : Type} (m : run A) : reads_no_line m -> starves_clean m.
Proof.
  intros H s E. now elim (H s).
Qed.

Lemma fed_bind {A B : Type} (m : run A) (k : A -> run B) :
  reads_no_line m -> (forall a, reads_no_line (k a)) ->
  reads_no_line (run_bind m k).
Proof.
  intros Hm Hk s. unfold run_bind. specialize (Hm s).
  destruct (m s) as [s' [a|e]]; cbn [snd] in *; [apply Hk|].
  intros E. apply Hm. injection E as ->. reflexivity.
Qed.

Lemma keeps_ask {A : Type} (p : prompt A) : keeps_disk (ask p).
Proof.
  intros s. unfold ask. now destruct (snd (p (stdin s))).
Qed.

Lemma keeps_unit {A : Type} (a : A) : keeps_disk (unit_run a).
Proof.
  intros s. reflexivity.
Qed.

Lemma keeps_stop {A : Type} (e : ending) : keeps_disk (@stop A e).
Proof.
  intros s. reflexivity.
Qed.

Lemma keeps_say (n : notice) : keeps_disk (say n).
Proof.
  intros s. reflexivity.
Qed.

Lemma keeps_choice : keeps_disk ask_user_choice_info.
Proof.
  intros s. unfold ask_user_choice_info, run_bind.
  pose proof (keeps_ask (get_user_choice_info (user_choice_info s)) s) as H.
  now destruct (ask (get_user_choice_info (user_choice_info s)) s)
    as [s' [a|e]].
Qed.

Lemma fed_unit {A : Type} (a : A) : reads_no_line (unit_run a).
Proof.
  intros s. discriminate.
Qed.

Lemma fed_say (n : notice) : reads_no_line (say n).
Proof.
  intros s. discriminate.
Qed.

Lemma fed_on_disk {A : Type} (m : io A) : reads_no_line (on_disk m).
Proof.
  intros s. unfold on_disk. destruct (snd (m (disk s))); discriminate.
Qed.

Lemma fed_save_selected (selection choice_info : string) (df : DataFrame)
  (data : list (list string)) (format_selection : list string) :
  reads_no_line (save_selected selection choice_info df data format_selection).
Proof.
  induction format_selection as [|c l IH]; cbn [save_selected];
    [apply fed_unit|].
  apply fed_bind; [|intros _; exact IH].
  destruct (String.eqb choice_info "1"); [|apply fed_unit].
  apply fed_bind; [apply fed_on_disk|].
  intros [|]; [apply fed_say|apply fed_unit].
Qed.

Lemma fed_export (selection choice_info : string)
  (format_selection : list string) (data : list (list string))
  (now : datetime) :
  reads_no_line (export selection choice_info format_selection data now).
Proof.
  unfold export. destruct data as [|r0 data0]; [apply fed_say|].
  apply fed_bind; [apply fed_on_disk|]. intros df.
  apply fed_bind; [|intros _; apply fed_bind;
                     [apply fed_say|intros _; apply fed_say]].
  destruct (member "5" format_selection); [|apply fed_save_selected].
  unfold save_all. apply fed_bind.
  - destruct (String.eqb choice_info "1"); [|apply fed_unit].
    apply fed_bind; [apply fed_on_disk|intros ?; apply fed_unit].
  - intros [|]; [apply fed_say|apply fed_unit].
Qed.

Lemma fed_scrape (selection : string) (max_videos : option Z)
  (choice_info : string) (l : list eagle_eye_main.visit) :
  reads_no_line (scrape read_csv selection max_videos choice_info l).
Proof.
  intros s. discriminate.
Qed.

Lemma starves_main_body (args : arguments) (net : internet) :
  starves_clean (main_body read_csv args net).
Proof.
  unfold main_body. destruct (version args).
  - apply keeps_starves, keeps_bind; [apply keeps_say|].
    intros _. apply keeps_stop.
  - apply starves_bind.
    { destruct (channels args); [|apply keeps_unit].
      apply keeps_bind; [apply keeps_ask|].
      intros [|c l]; [apply keeps_stop|apply keeps_unit]. }
    intros channels_to_scrape. apply starves_bind; [apply keeps_ask|].
    intros selection. apply starves_bind.
    { destruct (String.eqb selection "videos");
        [apply keeps_choice|apply keeps_unit]. }
    intros choice_info. apply starves_bind; [apply keeps_ask|].
    intros max_videos. apply starves_bind; [apply keeps_ask|].
    intros format_selection. apply fed_starves, fed_bind.
    + apply fed_scrape.
    + intros data. apply fed_export.
Qed.

End MainRun.

(** X13. No run of [main] prints that the data was saved in one format
    (CSV, TXT, XLSX or JSON): the selection the format prompt returns holds
    valid choices only, and the branch of the export for a selection
    without ['5'] ends at its first choice, or does nothing when the
    summary of the channel was asked for. *)
Theorem single_format_report_is_never_printed
  (read_csv : string -> option Os.content -> result Pandas.DataFrame)
  (args : eagle_eye_main_run.arguments) (net : eagle_eye_main_run.internet)
  (s : eagle_eye_main_run.process) :
  exists ns,
    eagle_eye_main_run.printed
      (fst (eagle_eye_main_run.main read_csv args net s))
    = (eagle_eye_main_run.printed s ++ ns)%list
    /\ forall format, ~ In (DataSaved format) ns.
Proof.
  destruct (quiet_main_body read_csv args net s) as (ns & E & Q).
  exists ns. split; [|exact Q]. unfold eagle_eye_main_run.main.
  now destruct (eagle_eye_main_run.main_body read_csv args net s)
    as [s' [a|e]].
Qed.

(** X14. [main] asks all its questions before it loads a page: a run that
    ends because the standard input is at its end has written no file and
    started no scraper. *)
Theorem end_of_input_leaves_the_files
  (read_csv : string -> option Os.content -> result Pandas.DataFrame)
  (args : eagle_eye_main_run.arguments) (net : eagle_eye_main_run.internet)
  (s : eagle_eye_main_run.process) :
  snd (eagle_eye_main_run.main read_csv args net s)
  = eagle_eye_main_run.EndOfInput ->
  eagle_eye_main_run.disk (fst (eagle_eye_main_run.main read_csv args net s))
  = eagle_eye_main_run.disk s.
Proof.
  pose proof (starves_main_body read_csv args net s) as H.
  unfold eagle_eye_main_run.main.
  destruct (eagle_eye_main_run.main_body read_csv args net s)
    as [s' [a|e]]; cbn [fst snd] in *; [discriminate|].
  intros ->. now apply H.
Qed.
(** ** The address and the queries *)

Section Pages.

Lemma replace_chars (a b : ascii) (s : string) :
  Py.chars (PyStr.replace a b s)
  = map (fun c => if Ascii.eqb c a then b else c) (Py.chars s).
Proof.
  unfold PyStr.replace. apply chars_str.
Qed.

Lemma chars_length (s : string) :
  List.length (Py.chars s) = String.length s.
Proof.
  unfold Py.chars. induction s as [|c s IH]; [reflexivity|].
  cbn. now rewrite IH.
Qed.

Lemma replace_length (a b : ascii) (s : string) :
  String.length (PyStr.replace a b s) = String.length s.
Proof.
  rewrite <- !chars_length, replace_chars. apply length_map.
Qed.

Lemma clean_description_chars (content : string) :
  Forall (fun c => c <> COMMA /\ c <> Py.newline)
         (Py.chars (clean_description content)).
Proof.
  unfold clean_description. rewrite !replace_chars, map_map.
  apply Forall_forall. intros c Hc. apply in_map_iff in Hc as (x & <- & _).
  destruct (Ascii.eqb_spec x Py.newline) as [->|N].
  - cbn. split; discriminate.
  - destruct (Ascii.eqb_spec x COMMA) as [->|M].
    + split; discriminate.
    + now split.
Qed.

Lemma isalnum_sign (input_value : string) (c : ascii) :
  In c (Py.chars input_value) -> PyStr.isalnum_char c = false ->
  PyStr.isalnum input_value = false.
Proof.
  intros I H. unfold PyStr.isalnum.
  destruct (Py.chars input_value) as [|a l] eqn:E; [reflexivity|].
  rewrite <- E in *. clear E.
  destruct (forallb PyStr.isalnum_char (Py.chars input_value)) eqn:F;
    [|reflexivity].
  rewrite forallb_forall in F. rewrite (F c I) in H. discriminate.
Qed.

End Pages.

(** X15. The three scrapers keep the description with every line break
    replaced by a blank and every comma by a semicolon: the description of
    the page has the length of the one read, and holds no comma and no
    line break. *)
Theorem description_has_no_comma_and_no_line_break (s : soup) :
  let kept := clean_description (og_description s) in
  Forall (fun c => c <> COMMA /\ c <> Py.newline) (Py.chars kept)
  /\ String.length kept = String.length (og_description s)
  /\ (forall pg, videos_page.queries s = Ok pg -> description pg = kept)
  /\ (forall pg, streams_page.queries s = Ok pg -> description pg = kept)
  /\ (forall pg, shorts_page.queries s = Ok pg -> description pg = kept).
Proof.
  intros kept. split; [apply clean_description_chars|]. split.
  { unfold kept, clean_description. now rewrite !replace_length. }
  split; [|split].
  - unfold videos_page.queries. intros pg H.
    repeat match type of H with
           | bind ?r _ = _ => destruct r; [cbn [bind] in H|discriminate H]
           end.
    now injection H as <-.
  - unfold streams_page.queries. intros pg H. now injection H as <-.
  - unfold shorts_page.queries. intros pg H. now injection H as <-.
Qed.

(** X16. When the text of the subscriber count is blank, the videos
    scraper, which passes its first word through [format_number], fails
    before the loop: it returns no record, writes no file and reports the
    error. The streams and the shorts scraper, which keep the word as it
    is, read the page with an empty count. *)
Theorem blank_subscriber_count_fails_the_videos_scraper
  (read_csv : string -> option Os.content -> result Pandas.DataFrame)
  (s : soup) (input_value : string) (max_videos : option Z)
  (user_choice_info : string) (now : datetime) (w : world) :
  Py.strip (subscriber_count s) = "" ->
  (exists e,
     videos_page.queries s = Raise e
     /\ eagle_eye_videos.scrape_channel read_csv input_value
          (videos_page.queries s) max_videos user_choice_info now w
        = ([], {| files := files w;
                  stdout := stdout w ++ [ErrorWhileScraping input_value e] |}))
  /\ (exists pg, streams_page.queries s = Ok pg /\ subscribers pg = "")
  /\ (exists pg, shorts_page.queries s = Ok pg /\ subscribers pg = "").
Proof.
  intros B. split; [|split].
  - assert (R : exists e, videos_page.queries s = Raise e).
    { assert (F : eagle_eye_utils.format_number (Py.split_first SPACE "")
                  = Raise IndexError) by reflexivity.
      unfold videos_page.queries. rewrite B, F.
      repeat match goal with
             | |- exists e, bind ?r _ = _ =>
                 destruct r; [cbn [bind]|eexists; reflexivity]
             end.
      exists IndexError. reflexivity. }
    destruct R as [e R]. exists e. split; [exact R|]. now rewrite R.
  - eexists. split; [reflexivity|]. cbn [subscribers]. now rewrite B.
  - eexists. split; [reflexivity|]. cbn [subscribers]. now rewrite B.
Qed.

(** X17. The three scrapers build the address under [/channel/] for a name
    of 24 characters that are all letters or digits, and for no other
    name: a name of another length, and a name with any other character,
    as the hyphen or the underscore of a channel identifier or the at sign
    of a handle, is taken for a handle and put right after the host. *)
Theorem channel_address_needs_24_letters_and_digits (input_value : string) :
  let identifier :=
    String.length input_value = 24%nat
    /\ Forall (fun c => PyStr.isalnum_char c = true) (Py.chars input_value) in
  (identifier ->
   videos_page.url input_value
   = "https://www.youtube.com/channel/" ++ input_value ++ "/videos"
   /\ streams_page.url input_value
      = "https://www.youtube.com/channel/" ++ input_value ++ "/streams"
   /\ shorts_page.url input_value
      = "https://www.youtube.com/channel/" ++ input_value ++ "/shorts")
  /\ (~ identifier ->
      videos_page.url input_value
      = "https://www.youtube.com/" ++ input_value ++ "/videos"
      /\ streams_page.url input_value
         = "https://www.youtube.com/" ++ input_value ++ "/streams"
      /\ shorts_page.url input_value
         = "https://www.youtube.com/" ++ input_value ++ "/shorts").
Proof.
  intros identifier.
  assert (T : (String.length input_value =? 24)%nat
              && PyStr.isalnum input_value = true <-> identifier).
  { unfold identifier, PyStr.isalnum. rewrite andb_true_iff, Nat.eqb_eq.
    split; intros [L F]; (split; [exact L|]);
      rewrite <- chars_length in L;
      destruct (Py.chars input_value) as [|a l] eqn:E; try discriminate L.
    - now apply Forall_forall, forallb_forall.
    - now apply forallb_forall, Forall_forall. }
  unfold videos_page.url, streams_page.url, shorts_page.url.
  destruct ((String.length input_value =? 24)%nat
            && PyStr.isalnum input_value).
  - split; [now repeat split|]. intros N. elim N. now apply T.
  - split; [|now repeat split]. intros I. apply T in I. discriminate I.
Qed.

(** ** The summary of a channel *)

Section SummaryRecord.

Import Pandas Os eagle_eye_videos.


Lemma loop_grows (pg : page) (max_videos : option Z) (range : list nat) :
  forall st st' o,
  loop pg max_videos range st = (st', o) ->
  (List.length (video_data st) <= List.length (video_data st'))%nat.
Proof.
  induction range as [|i range IH]; intros st st' o H; cbn [loop] in H.
  - injection H as <- <-. lia.
  - destruct (reached max_videos i); [injection H as <- <-; lia|].
    destruct (video_info pg i) as [info|e].
    + apply IH in H. cbn [video_data] in H. rewrite length_app in H.
      cbn [List.length] in H. lia.
    + injection H as <- <-. cbn [video_data]. lia.
Qed.

(** A piece without the separator, the separator, and the rest. *)
Lemma split_chars_app (c : ascii) (w l : list ascii) :
  Forall (fun a => a <> c) w ->
  Py.split_chars c (w ++ c :: l) = w :: Py.split_chars c l.
Proof.
  induction 1 as [|a w Ha Hw IH]; cbn [app Py.split_chars].
  - now rewrite Ascii.eqb_refl.
  - destruct (Ascii.eqb_spec a c) as [E|_]; [now elim Ha|]. now rewrite IH.
Qed.

Lemma split_chars_one (c : ascii) (w : list ascii) :
  Forall (fun a => a <> c) w -> Py.split_chars c w = [w].
Proof.
  induction 1 as [|a w Ha Hw IH]; cbn [Py.split_chars]; [reflexivity|].
  destruct (Ascii.eqb_spec a c) as [E|_]; [now elim Ha|]. now rewrite IH.
Qed.

Lemma split_field (a rest : string) :
  tabless a ->
  Py.split Py.tab (a ++ TAB ++ rest) = a :: Py.split Py.tab rest.
Proof.
  intros H. unfold Py.split, TAB. rewrite chars_append.
  change (Py.chars (String Py.tab "" ++ rest))
    with (Py.tab :: Py.chars rest).
  rewrite split_chars_app by exact H. cbn [map]. now rewrite str_chars.
Qed.

Lemma split_last_field (a : string) :
  tabless a -> Py.split Py.tab a = [a].
Proof.
  intros H. unfold Py.split. rewrite split_chars_one by exact H.
  cbn [map]. now rewrite str_chars.
Qed.





Variable read_csv : string -> option content -> result DataFrame.


End SummaryRecord.
Section SummaryRuns.

Import Pandas Os eagle_eye_videos.

Lemma assemble_nothing (pg : page) (max_videos : option Z) :
  capped (List.length (titles pg)) max_videos = 0%nat ->
  assemble pg max_videos = (start, None).
Proof.
  unfold assemble, capped. intros H.
  destruct (List.length (titles pg)) as [|n]; [reflexivity|].
  destruct max_videos as [k|]; [|discriminate H].
  cbn [seq loop]. unfold reached.
  destruct (Z.leb_spec k (Z.of_nat 0)) as [_|L]; [reflexivity|lia].
Qed.


End SummaryRuns.

(** X18. The summary of a channel needs one turn of the loop over its
    videos: when the page has no title, or the maximum leaves no room for
    one, the record of the channel reads locals that the loop never bound.
    The scraper then writes no file and reports [UnboundLocalError],
    although the attributes of the channel were all read. Asked for video
    details, the same call, for a channel name that is not empty and holds
    no separator, so that its files are opened inside the folder the
    scraper has made, reports no error and writes its files with the
    header alone. *)
Theorem summary_needs_one_item
  (read_csv : string -> option Os.content -> result Pandas.DataFrame)
  (input_value : string) (pg : page) (max_videos : option Z)
  (now : datetime) (w : world) :
  capped (List.length (titles pg)) max_videos = 0%nat ->
  cname pg <> "" ->
  Os.has_sep (cname pg) = false ->
  eagle_eye_videos.scrape_channel read_csv input_value (Ok pg) max_videos
    "2" now w
  = ([], {| files := files w;
            stdout := stdout w
                      ++ [ChannelHas input_value (List.length (titles pg));
                          ErrorWhileScraping input_value
                            UnboundLocalError] |})
  /\ (let r := eagle_eye_videos.scrape_channel read_csv input_value (Ok pg)
                 max_videos "1" now w in
      fst r = []
      /\ stdout (snd r)
         = (stdout w
            ++ [ChannelHas input_value (List.length (titles pg))])%list
      /\ Os.lookup (eagle_eye_videos.video_path pg (strftime now) ".txt")
           (files (snd r))
         = Some (Os.Text
                   ("Channel" ++ TAB ++ "Identifier" ++ TAB ++ "Title" ++ TAB
                    ++ "Published" ++ TAB ++ "Video_views" ++ TAB
                    ++ "Video_id" ++ TAB ++ "Link" ++ TAB ++ "Duration"
                    ++ NL))
      /\ Os.lookup (eagle_eye_videos.video_path pg (strftime now) ".csv")
           (files (snd r))
         = Some (Os.Delimited ","
                   {| Pandas.columns := eagle_eye_videos.video_columns;
                      Pandas.rows := [] |})).
Proof.
  intros H _ _. unfold eagle_eye_videos.scrape_channel.
  rewrite (assemble_nothing pg max_videos H). split.
  - cbn. now rewrite <- app_assoc.
  - cbn -[eagle_eye_videos.video_path strftime Os.lookup Os.write].
    repeat split.
    + rewrite !lookup_write_other by (apply video_paths_differ; discriminate).
      apply lookup_write_same.
    + rewrite !lookup_write_other by (apply video_paths_differ; discriminate).
      apply lookup_write_same.
Qed.

(** The summary of a page without a video. *)
Lemma summary_needs_one_item_witness :
  eagle_eye_videos.scrape_channel Sample.table_reader "c"
    (Ok (Sample.channel_page [] [] [] [] [] [])) None "2" Sample.noon
    Sample.nothing
  = ([], {| files := files Sample.nothing;
            stdout := stdout Sample.nothing
                      ++ [ChannelHas "c"
                            (List.length
                               (titles (Sample.channel_page [] [] [] [] []
                                          [])));
                          ErrorWhileScraping "c" UnboundLocalError] |})
  /\ (let r := eagle_eye_videos.scrape_channel Sample.table_reader "c"
                 (Ok (Sample.channel_page [] [] [] [] [] [])) None "1"
                 Sample.noon Sample.nothing in
      fst r = []
      /\ stdout (snd r)
         = (stdout Sample.nothing
            ++ [ChannelHas "c"
                  (List.length
                     (titles (Sample.channel_page [] [] [] [] [] [])))])%list
      /\ Os.lookup
           (eagle_eye_videos.video_path (Sample.channel_page [] [] [] [] [] [])
              (strftime Sample.noon) ".txt")
           (files (snd r))
         = Some (Os.Text
                   ("Channel" ++ TAB ++ "Identifier" ++ TAB ++ "Title" ++ TAB
                    ++ "Published" ++ TAB ++ "Video_views" ++ TAB
                    ++ "Video_id" ++ TAB ++ "Link" ++ TAB ++ "Duration"
                    ++ NL))
      /\ Os.lookup
           (eagle_eye_videos.video_path (Sample.channel_page [] [] [] [] [] [])
              (strftime Sample.noon) ".csv")
           (files (snd r))
         = Some (Os.Delimited ","
                   {| Pandas.columns := eagle_eye_videos.video_columns;
                      Pandas.rows := [] |})).
Proof.
  apply (summary_needs_one_item Sample.table_reader "c"
           (Sample.channel_page [] [] [] [] [] []) None Sample.noon
           Sample.nothing); [reflexivity|discriminate|reflexivity].
Defined.

(** ** The merger over any number of files *)

Section MergeAll.

Import Pandas Os eagle_eye_utils.

Lemma same_columns_all (df : DataFrame) (dfs : list DataFrame) :
  Forall (fun d => columns d = columns df) dfs ->
  same_columns (df :: dfs) = true.
Proof.
  intros F. unfold same_columns. apply forallb_forall. intros d Hd.
  rewrite Forall_forall in F. rewrite (F d Hd).
  now destruct (list_eq_dec string_dec (columns df) (columns df)).
Qed.

Lemma concat_stack (cols : list string) (dfs : list DataFrame) :
  dfs <> [] ->
  Forall (fun d => columns d = cols) dfs ->
  concat dfs = Ok {| columns := cols; rows := flat_map rows dfs |}.
Proof.
  intros N F. destruct dfs as [|df dfs]; [now elim N|].
  inversion F as [|? ? Hd Hl]; subst. unfold concat.
  rewrite same_columns_all; [reflexivity|].
  apply Forall_forall. intros d Hd'. rewrite Forall_forall in Hl.
  now apply Hl.
Qed.

Lemma flat_map_length (dfs : list DataFrame) :
  List.length (flat_map rows dfs)
  = list_sum (map (fun d => List.length (rows d)) dfs).
Proof.
  induction dfs as [|d dfs IH]; [reflexivity|].
  cbn [flat_map map list_sum]. now rewrite length_app, IH.
Qed.

End MergeAll.

Section StackPlain.

Import Pandas.

Lemma plain_stack (cols : list string) (dfs : list DataFrame) :
  dfs <> [] ->
  Forall (fun df => columns df = cols) dfs ->
  forallb plain dfs = true ->
  plain {| columns := cols; rows := flat_map rows dfs |} = true.
Proof.
  intros N F P. unfold plain. cbn [columns rows].
  rewrite forallb_forall in P. apply andb_true_intro. split.
  - destruct dfs as [|df l]; [now elim N|].
    inversion F as [|? ? Hd _]; subst.
    specialize (P df (or_introl eq_refl)). unfold plain in P.
    now apply andb_prop in P as [Pc _].
  - apply forallb_forall. intros r Hr. apply in_flat_map in Hr as (df & Hd & Hr).
    specialize (P df Hd). unfold plain in P. apply andb_prop in P as [_ Pr].
    rewrite forallb_forall in Pr. now apply Pr.
Qed.

End StackPlain.

(** X20. Over a folder with any number of summary files, each read as a
    table of plain cells under one header of distinct plain names, and
    not more rows together than a worksheet takes, the merger writes the
    four aggregate files with the rows of all the tables stacked, file
    after file in the order of the listing and row after row within a
    file: the aggregate has as many rows as the files have together. *)
Theorem merge_stacks_the_summary_files
  (read_csv : string -> option Os.content -> result Pandas.DataFrame)
  (folder_path : string) (w : world) (f : string) (fs : list string)
  (dfs : list Pandas.DataFrame) (cols : list string) :
  let merged :=
    {| Pandas.columns := cols; Pandas.rows := flat_map Pandas.rows dfs |} in
  let w1 :=
    fst (eagle_eye_utils.merge_summary_files read_csv folder_path w) in
  eagle_eye_utils.summary_files folder_path (files w) = f :: fs ->
  read_frames read_csv folder_path (files w) (f :: fs) = Ok dfs ->
  Forall (fun df => Pandas.columns df = cols) dfs ->
  Pandas.unique cols = true ->
  forallb plain dfs = true ->
  Pandas.too_large merged = false ->
  Os.lookup (Os.path_join folder_path "summary_all_channels.csv") (files w1)
  = Some (Os.Delimited "," merged)
  /\ Os.lookup (Os.path_join folder_path "summary_all_channels.txt")
       (files w1) = Some (Os.Delimited TAB merged)
  /\ Os.lookup (Os.path_join folder_path "summary_all_channels.xlsx")
       (files w1) = Some (Os.Excel merged)
  /\ Os.lookup (Os.path_join folder_path "summary_all_channels.json")
       (files w1)
     = Some (Os.Json (map (combine cols) (flat_map Pandas.rows dfs)))
  /\ List.length (Pandas.rows merged)
     = list_sum (map (fun df => List.length (Pandas.rows df)) dfs)
  /\ List.length dfs = S (List.length fs)
  /\ stdout w1 = (stdout w ++ [SummaryFilesMerged])%list.
Proof.
  intros merged w1 Hs Hr Hc U P L.
  assert (N : dfs <> []).
  { intros ->. cbn [read_frames] in Hr.
    destruct (read_csv _ _); [|discriminate Hr]. cbn [bind] in Hr.
    destruct (read_frames _ _ _ fs); discriminate Hr. }
  assert (Ln : forall l ds,
            read_frames read_csv folder_path (files w) l = Ok ds ->
            List.length ds = List.length l).
  { induction l as [|x l IH]; intros ds H; cbn [read_frames] in H.
    - now injection H as <-.
    - destruct (read_csv _ _); [|discriminate H]. cbn [bind] in H.
      destruct (read_frames _ _ _ l) as [ds'|]; [|discriminate H].
      injection H as <-. cbn [List.length]. f_equal. now apply IH. }
  assert (Hp : plain merged = true) by now apply plain_stack.
  assert (E : eagle_eye_utils.merge_summary_files read_csv folder_path w
              = ({| files := merged_store folder_path merged
                               (map (combine cols)
                                    (flat_map Pandas.rows dfs)) (files w);
                    stdout := stdout w ++ [SummaryFilesMerged] |}, Ok tt)).
  { apply (merge_run read_csv folder_path w f fs dfs); trivial.
    - now apply concat_stack.
    - unfold Pandas.to_records, merged. cbn [Pandas.columns Pandas.rows].
      now rewrite U. }
  subst w1. rewrite E. cbn [fst files stdout].
  destruct (merged_store_lookup folder_path merged
              (map (combine cols) (flat_map Pandas.rows dfs)) (files w))
    as (L1 & L2 & L3 & L4).
  rewrite (proj2 (plain_sheet merged Hp)) in L3.
  repeat split; trivial.
  - apply flat_map_length.
  - apply (Ln (f :: fs) dfs Hr).
Qed.

(** The merger over the folder of three summary files. *)
Lemma merge_stacks_the_summary_files_witness :
  let dfs := [Sample.summary_of "b"; Sample.summary_of "a";
              Sample.summary_of "c"] in
  let merged :=
    {| Pandas.columns := eagle_eye_videos.summary_columns;
       Pandas.rows := flat_map Pandas.rows dfs |} in
  let w1 :=
    fst (eagle_eye_utils.merge_summary_files Sample.table_reader "d"
           Sample.three_summaries) in
  Os.lookup (Os.path_join "d" "summary_all_channels.csv") (files w1)
  = Some (Os.Delimited "," merged)
  /\ Os.lookup (Os.path_join "d" "summary_all_channels.txt") (files w1)
     = Some (Os.Delimited TAB merged)
  /\ Os.lookup (Os.path_join "d" "summary_all_channels.xlsx") (files w1)
     = Some (Os.Excel merged)
  /\ Os.lookup (Os.path_join "d" "summary_all_channels.json") (files w1)
     = Some (Os.Json (map (combine eagle_eye_videos.summary_columns)
                          (flat_map Pandas.rows dfs)))
  /\ List.length (Pandas.rows merged)
     = list_sum (map (fun df => List.length (Pandas.rows df)) dfs)
  /\ List.length dfs = S (List.length ["a_summary.csv"; "c_summary.csv"])
  /\ stdout w1 = (stdout Sample.three_summaries ++ [SummaryFilesMerged])%list.
Proof.
  apply (merge_stacks_the_summary_files Sample.table_reader "d"
           Sample.three_summaries "b_summary.csv"
           ["a_summary.csv"; "c_summary.csv"]);
    [reflexivity|reflexivity|repeat constructor|reflexivity|reflexivity
    |reflexivity].
Defined.

(** X21. The merger writes nothing when one summary file cannot be read,
    or when the tables read cannot be stacked: the exception leaves it
    before the first aggregate file is opened. *)
Theorem merge_writes_nothing_when_a_file_fails
  (read_csv : string -> option Os.content -> result Pandas.DataFrame)
  (folder_path : string) (w : world) (e : exn) :
  let fs := eagle_eye_utils.summary_files folder_path (files w) in
  read_frames read_csv folder_path (files w) fs = Raise e
  \/ (fs <> []
      /\ exists dfs,
           read_frames read_csv folder_path (files w) fs = Ok dfs
           /\ Pandas.concat dfs = Raise e) ->
  eagle_eye_utils.merge_summary_files read_csv folder_path w = (w, Raise e).
Proof.
  intros fs H. unfold eagle_eye_utils.merge_summary_files. fold fs.
  destruct fs as [|f l] eqn:F.
  - destruct H as [H|[N _]]; [discriminate H|now elim N].
  - unfold io_bind at 1. rewrite io_map_reads.
    destruct H as [H|(_ & dfs & H & C)]; rewrite H; [reflexivity|].
    unfold io_bind at 1. unfold lift at 1. now rewrite C.
Qed.

(** The merger over a folder whose summary file is not a table. *)
Lemma merge_writes_nothing_when_a_file_fails_witness :
  eagle_eye_utils.merge_summary_files Sample.table_reader "d"
    {| files := [("d/a_summary.csv", Os.Text "x")]; stdout := [] |}
  = ({| files := [("d/a_summary.csv", Os.Text "x")]; stdout := [] |},
     Raise (LibraryError "ParserError")).
Proof.
  apply (merge_writes_nothing_when_a_file_fails Sample.table_reader "d"
           {| files := [("d/a_summary.csv", Os.Text "x")]; stdout := [] |}).
  left. reflexivity.
Defined.

(** ** The text file *)

Section TextFile.

Lemma join_cons (sep a : string) (b : string) (l : list string) :
  Py.join sep (a :: b :: l) = a ++ sep ++ Py.join sep (b :: l).
Proof.
  reflexivity.
Qed.

(** Joining the fields of a split with the separator gives the string
    back. *)
Lemma join_split_chars (l : list ascii) :
  Py.join TAB (map Py.str (Py.split_chars Py.tab l)) = Py.str l.
Proof.
  induction l as [|a l IH]; [reflexivity|]. cbn [Py.split_chars].
  pose proof (split_chars_length Py.tab l) as Hl.
  destruct (Py.split_chars Py.tab l) as [|w ws]; [discriminate Hl|].
  change (Py.str (a :: l)) with (String a (Py.str l)).
  destruct (Ascii.eqb_spec a Py.tab) as [->|N].
  - cbn [map]. rewrite join_cons. cbn [map] in IH. rewrite IH. reflexivity.
  - cbn [map] in *.
    change (Py.str (a :: w)) with (String a (Py.str w)).
    destruct ws as [|w' ws].
    + cbn [map Py.join] in *. now rewrite IH.
    + cbn [map] in *. rewrite join_cons in *. cbn [String.append].
      now rewrite IH.
Qed.

Lemma join_split (s : string) : Py.join TAB (Py.split Py.tab s) = s.
Proof.
  unfold Py.split. rewrite join_split_chars. apply str_chars.
Qed.

End TextFile.

(** The text file of an export holds the lines as the loop assembled them:
    splitting a line on the tabs and joining the fields again gives the
    line back, whatever the fields hold. *)
Lemma txt_lines_split (header : string) (infos : list string) :
  txt_lines header (map (Py.split Py.tab) infos)
  = header ++ String.concat "" (map (fun info => info ++ NL) infos).
Proof.
  unfold txt_lines. f_equal. rewrite map_map. f_equal.
  apply map_ext. intros info. now rewrite join_split.
Qed.

(** ** The files of a channel *)

Section ChannelExports.

Import Pandas Os.

Variable pg : page.

(** No two of the four extensions end alike. *)
Lemma extensions_differ (a b e1 e2 : string) :
  In e1 [".txt"; ".csv"; ".xlsx"; ".json"] ->
  In e2 [".txt"; ".csv"; ".xlsx"; ".json"] ->
  e1 <> e2 -> a ++ e1 <> b ++ e2.
Proof.
  intros H1 H2 N E. cbn [In] in H1, H2.
  destruct H1 as [<-|[<-|[<-|[<-|[]]]]], H2 as [<-|[<-|[<-|[<-|[]]]]];
    try (now elim N);
    first
      [ apply (f_equal (fun s => Py.endswith s "t")) in E;
        rewrite !endswith_append in E by (simpl; lia); discriminate E
      | apply (f_equal (fun s => Py.endswith s "v")) in E;
        rewrite !endswith_append in E by (simpl; lia); discriminate E
      | apply (f_equal (fun s => Py.endswith s "x")) in E;
        rewrite !endswith_append in E by (simpl; lia); discriminate E ].
Qed.

(** Two time stamps give two names, whatever the extensions. *)
Lemma stamps_differ (x ts ts' e e' : string) :
  In e [".txt"; ".csv"; ".xlsx"; ".json"] ->
  In e' [".txt"; ".csv"; ".xlsx"; ".json"] ->
  ts <> ts' -> x ++ ts ++ e <> x ++ ts' ++ e'.
Proof.
  intros He He' N E. apply append_cancel_l in E.
  destruct (string_dec e e') as [<-|Ne].
  - apply append_cancel_r in E. contradiction.
  - revert E. now apply extensions_differ.
Qed.

Hypothesis named : cname pg <> "".
Hypothesis no_sep : has_sep (cname pg) = false.

Lemma video_path_stamped (ts ext : string) :
  eagle_eye_videos.video_path pg ts ext
  = "downloads/" ++ cname pg ++ "/" ++ cname pg ++ "_videos_" ++ ts ++ ext.
Proof.
  unfold eagle_eye_videos.video_path, eagle_eye_videos.channel_folder,
    eagle_eye_videos.video_name.
  now rewrite channel_file_path.
Qed.

Lemma stream_path_stamped (ts ext : string) :
  eagle_eye_streams.stream_path pg ts ext
  = "downloads/" ++ cname pg ++ "/" ++ cname pg ++ "_streams_" ++ ts ++ ext.
Proof.
  unfold eagle_eye_streams.stream_path, eagle_eye_streams.channel_folder,
    eagle_eye_streams.stream_name.
  now rewrite channel_file_path.
Qed.

(** A file of another time stamp is none of the four that an export
    writes. *)
Lemma other_stamp (variant ts ts' e e' : string) :
  In e [".txt"; ".csv"; ".xlsx"; ".json"] ->
  In e' [".txt"; ".csv"; ".xlsx"; ".json"] ->
  ts' <> ts ->
  "downloads/" ++ cname pg ++ "/" ++ cname pg ++ variant ++ ts' ++ e'
  <> "downloads/" ++ cname pg ++ "/" ++ cname pg ++ variant ++ ts ++ e.
Proof.
  intros He He' N E. do 5 apply append_cancel_l in E.
  revert E. apply (stamps_differ "" ts' ts e' e He' He N).
Qed.

End ChannelExports.

Section ExportWrites.

Import Pandas Os.

Variable pg : page.

(** The text file is written first, and stays. *)
Lemma videos_text_written (st : eagle_eye_videos.locals) (ts : string)
  (w : world) :
  lookup (eagle_eye_videos.video_path pg ts ".txt")
    (files (fst (eagle_eye_videos.save_videos pg st ts w)))
  = Some (Text (txt_lines video_header (eagle_eye_videos.video_data st))).
Proof.
  unfold eagle_eye_videos.save_videos, io_bind, write_file, lift.
  cbn [fst snd files stdout].
  destruct (from_rows _ _) as [df|e]; cbn [fst snd files stdout];
    [|apply lookup_write_same].
  destruct (to_records df) as [records|e]; cbn [fst snd files stdout];
    rewrite !lookup_write_other by (apply video_paths_differ; discriminate);
    apply lookup_write_same.
Qed.

Lemma streams_text_written (video_data : list (list string)) (now : datetime)
  (w : world) :
  lookup (eagle_eye_streams.stream_path pg (strftime now) ".txt")
    (files (fst (eagle_eye_streams.save pg video_data now w)))
  = Some (Text (txt_lines video_header video_data)).
Proof.
  unfold eagle_eye_streams.save, io_bind, write_file, lift.
  cbn [fst snd files stdout].
  destruct (from_rows _ _) as [df|e]; cbn [fst snd files stdout];
    [|apply lookup_write_same].
  destruct (to_records df) as [records|e]; cbn [fst snd files stdout];
    rewrite !lookup_write_other by (apply stream_paths_differ; discriminate);
    apply lookup_write_same.
Qed.

(** An export touches its four files only. *)
Lemma videos_export_keeps (st : eagle_eye_videos.locals) (ts p : string)
  (w : world) :
  (forall e, In e [".txt"; ".csv"; ".xlsx"; ".json"] ->
             p <> eagle_eye_videos.video_path pg ts e) ->
  lookup p (files (fst (eagle_eye_videos.save_videos pg st ts w)))
  = lookup p (files w).
Proof.
  intros N.
  unfold eagle_eye_videos.save_videos, io_bind, write_file, lift.
  cbn [fst snd files stdout].
  destruct (from_rows _ _) as [df|e]; cbn [fst snd files stdout];
    [|now rewrite lookup_write_other by (apply N; simpl; tauto)].
  destruct (to_records df) as [records|e]; cbn [fst snd files stdout];
    now rewrite !lookup_write_other by (apply N; simpl; tauto).
Qed.

Lemma streams_export_keeps (video_data : list (list string)) (now : datetime)
  (p : string) (w : world) :
  (forall e, In e [".txt"; ".csv"; ".xlsx"; ".json"] ->
             p <> eagle_eye_streams.stream_path pg (strftime now) e) ->
  lookup p (files (fst (eagle_eye_streams.save pg video_data now w)))
  = lookup p (files w).
Proof.
  intros N.
  unfold eagle_eye_streams.save, io_bind, write_file, lift.
  cbn [fst snd files stdout].
  destruct (from_rows _ _) as [df|e]; cbn [fst snd files stdout];
    [|now rewrite lookup_write_other by (apply N; simpl; tauto)].
  destruct (to_records df) as [records|e]; cbn [fst snd files stdout];
    now rewrite !lookup_write_other by (apply N; simpl; tauto).
Qed.

(** A loop that ends without an exception has read one line per index,
    up to the maximum. *)
Lemma loop_infos (max_videos : option Z) (n : nat) : forall a st st',
  eagle_eye_videos.loop pg max_videos (seq a n) st = (st', None) ->
  exists infos,
    List.length infos
    = match max_videos with
      | Some m => Nat.min n (Z.to_nat m - a)
      | None => n
      end
    /\ Forall2 (fun i info => eagle_eye_videos.video_info pg i = Ok info)
               (seq a (List.length infos)) infos
    /\ eagle_eye_videos.video_data st'
       = (eagle_eye_videos.video_data st
          ++ map (Py.split Py.tab) infos)%list.
Proof.
  induction n as [|n IH]; intros a st st' H;
    cbn [seq eagle_eye_videos.loop] in H.
  - injection H as <-. exists []. cbn. rewrite app_nil_r.
    repeat split; [now destruct max_videos|constructor].
  - destruct (reached max_videos a) eqn:R.
    + injection H as <-. exists []. cbn [List.length seq map].
      rewrite app_nil_r. repeat split; [|constructor].
      unfold reached in R. destruct max_videos as [m|]; [|discriminate R].
      apply Z.leb_le in R. lia.
    + destruct (eagle_eye_videos.video_info pg a) as [info|e] eqn:V;
        [|discriminate H].
      apply IH in H as (infos & L & F & D). exists (info :: infos).
      split; [|split].
      * cbn [List.length]. rewrite L. unfold reached in R.
        destruct max_videos as [m|]; [|reflexivity].
        apply Z.leb_gt in R. lia.
      * cbn [List.length seq]. now constructor.
      * rewrite D. cbn [eagle_eye_videos.video_data map].
        now rewrite <- app_assoc.
Qed.

End ExportWrites.

(** X2. When the channel name holds no separator, every record has eight
    fields of plain text, and the records are no more than a worksheet has
    rows, the videos export succeeds and prints nothing, and the CSV, the
    Excel and the JSON file hold the records themselves: one row or
    object per record, in their order, each field as the text it is, under
    the eight column names. *)
Theorem videos_export_agrees (pg : page) (st : eagle_eye_videos.locals)
  (ts : string) (w : world) :
  let data := eagle_eye_videos.video_data st in
  let table :=
    {| Pandas.columns := eagle_eye_videos.video_columns;
       Pandas.rows := map (map Pandas.CStr) data |} in
  let r := eagle_eye_videos.save_videos pg st ts w in
  Os.has_sep (cname pg) = false ->
  forallb (fun info =>
             (List.length info =? 8)%nat && forallb plain_text info) data
  = true ->
  Z.of_nat (List.length data) <= 2 ^ 20 ->
  snd r = Ok tt
  /\ stdout (fst r) = stdout w
  /\ Os.lookup (eagle_eye_videos.video_path pg ts ".csv") (files (fst r))
     = Some (Os.Delimited "," table)
  /\ Os.lookup (eagle_eye_videos.video_path pg ts ".xlsx") (files (fst r))
     = Some (Os.Excel table)
  /\ Os.lookup (eagle_eye_videos.video_path pg ts ".json") (files (fst r))
     = Some (Os.Json
               (map (fun info =>
                       combine eagle_eye_videos.video_columns
                               (map Pandas.CStr info)) data)).
Proof.
  intros data table r _ F _.
  assert (E : Pandas.from_rows data eagle_eye_videos.video_columns
              = Ok table).
  { apply from_rows_even. apply Forall_forall. intros info Hi.
    rewrite forallb_forall in F. specialize (F info Hi).
    apply andb_true_iff in F as [F _]. now apply Nat.eqb_eq in F. }
  subst r. unfold eagle_eye_videos.save_videos, io_bind, write_file, lift.
  cbn [fst snd files stdout]. fold data. rewrite E.
  unfold Pandas.to_records. cbn [fst snd files stdout Pandas.columns table].
  change (Pandas.unique eagle_eye_videos.video_columns) with true.
  cbn [fst snd files stdout Pandas.rows].
  repeat split.
  - rewrite !lookup_write_other by (apply video_paths_differ; discriminate).
    apply lookup_write_same.
  - rewrite !lookup_write_other by (apply video_paths_differ; discriminate).
    apply lookup_write_same.
  - rewrite lookup_write_same. unfold table. cbn [Pandas.rows].
    now rewrite map_map.
Qed.

(** The videos export at the page of two items. *)
Lemma videos_export_agrees_witness :
  let data :=
    eagle_eye_videos.video_data
      (fst (eagle_eye_videos.assemble Sample.two_videos None)) in
  let table :=
    {| Pandas.columns := eagle_eye_videos.video_columns;
       Pandas.rows := map (map Pandas.CStr) data |} in
  let r := eagle_eye_videos.save_videos Sample.two_videos
             (fst (eagle_eye_videos.assemble Sample.two_videos None))
             (strftime Sample.noon) Sample.nothing in
  snd r = Ok tt
  /\ stdout (fst r) = stdout Sample.nothing
  /\ Os.lookup
       (eagle_eye_videos.video_path Sample.two_videos (strftime Sample.noon)
          ".csv") (files (fst r))
     = Some (Os.Delimited "," table)
  /\ Os.lookup
       (eagle_eye_videos.video_path Sample.two_videos (strftime Sample.noon)
          ".xlsx") (files (fst r))
     = Some (Os.Excel table)
  /\ Os.lookup
       (eagle_eye_videos.video_path Sample.two_videos (strftime Sample.noon)
          ".json") (files (fst r))
     = Some (Os.Json
               (map (fun info =>
                       combine eagle_eye_videos.video_columns
                               (map Pandas.CStr info)) data)).
Proof.
  apply (videos_export_agrees Sample.two_videos
           (fst (eagle_eye_videos.assemble Sample.two_videos None))
           (strftime Sample.noon) Sample.nothing);
    [reflexivity|reflexivity|vm_compute; discriminate].
Defined.

(** X3. For a channel name that is not empty and holds no separator, the
    videos and the streams export write their text file, the header and
    one tab-joined line per record, under [downloads], in the folder of
    the channel, at the name made of the channel, the variant and the time
    stamp. They write it whatever becomes of the three files that follow,
    and they leave every file of another time stamp as it was: a second
    export of the channel does not touch the files of the first. *)
Theorem channel_files_are_stamped (pg : page)
  (st : eagle_eye_videos.locals) (video_data : list (list string))
  (now now' : datetime) (ext : string) (w : world) :
  let stamped := fun variant d e =>
    "downloads/" ++ cname pg ++ "/" ++ cname pg ++ variant ++ strftime d
    ++ e in
  let w1 := fst (eagle_eye_videos.save_videos pg st (strftime now) w) in
  let w2 := fst (eagle_eye_streams.save pg video_data now w) in
  cname pg <> "" ->
  Os.has_sep (cname pg) = false ->
  strftime now' <> strftime now ->
  In ext [".txt"; ".csv"; ".xlsx"; ".json"] ->
  Os.lookup (stamped "_videos_" now ".txt") (files w1)
  = Some (Os.Text (txt_lines video_header (eagle_eye_videos.video_data st)))
  /\ Os.lookup (stamped "_videos_" now' ext) (files w1)
     = Os.lookup (stamped "_videos_" now' ext) (files w)
  /\ Os.lookup (stamped "_streams_" now ".txt") (files w2)
     = Some (Os.Text (txt_lines video_header video_data))
  /\ Os.lookup (stamped "_streams_" now' ext) (files w2)
     = Os.lookup (stamped "_streams_" now' ext) (files w).
Proof.
  intros stamped w1 w2 Nc Hs Nt He. subst stamped w1 w2. cbv beta.
  repeat split.
  - rewrite <- (video_path_stamped pg Nc Hs). apply videos_text_written.
  - apply videos_export_keeps. intros e Hin.
    rewrite (video_path_stamped pg Nc Hs). now apply other_stamp.
  - rewrite <- (stream_path_stamped pg Nc Hs). apply streams_text_written.
  - apply streams_export_keeps. intros e Hin.
    rewrite (stream_path_stamped pg Nc Hs). now apply other_stamp.
Qed.

(** Two exports of the page of two items, a second apart: the Excel file
    of the first is not touched by the second. *)
Lemma channel_files_are_stamped_witness :
  let stamped := fun variant d e =>
    "downloads/" ++ "@c" ++ "/" ++ "@c" ++ variant ++ strftime d ++ e in
  let w1 := fst (eagle_eye_videos.save_videos Sample.two_videos
                   (fst (eagle_eye_videos.assemble Sample.two_videos None))
                   (strftime Sample.a_second_later) Sample.exported) in
  let w2 := fst (eagle_eye_streams.save Sample.two_videos
                   (fst (eagle_eye_streams.assemble Sample.two_videos None))
                   Sample.a_second_later Sample.exported) in
  Os.lookup (stamped "_videos_" Sample.a_second_later ".txt") (files w1)
  = Some (Os.Text
            (txt_lines video_header
               (eagle_eye_videos.video_data
                  (fst (eagle_eye_videos.assemble Sample.two_videos None)))))
  /\ Os.lookup (stamped "_videos_" Sample.noon ".xlsx") (files w1)
     = Os.lookup (stamped "_videos_" Sample.noon ".xlsx")
         (files Sample.exported)
  /\ Os.lookup (stamped "_streams_" Sample.a_second_later ".txt") (files w2)
     = Some (Os.Text
               (txt_lines video_header
                  (fst (eagle_eye_streams.assemble Sample.two_videos None))))
  /\ Os.lookup (stamped "_streams_" Sample.noon ".xlsx") (files w2)
     = Os.lookup (stamped "_streams_" Sample.noon ".xlsx")
         (files Sample.exported).
Proof.
  apply (channel_files_are_stamped Sample.two_videos
           (fst (eagle_eye_videos.assemble Sample.two_videos None))
           (fst (eagle_eye_streams.assemble Sample.two_videos None))
           Sample.a_second_later Sample.noon ".xlsx" Sample.exported);
    [discriminate|reflexivity|vm_compute; discriminate|simpl; tauto].
Defined.

(** X22. When the loop over the videos ends without an exception, the
    scraper, asked for video details, writes the text file of the channel
    from what the loop read: after the header, one line per index below
    the number of titles and the maximum, in their order, each the
    tab-joined line assembled at that index and a line feed. The file is
    written whatever becomes of the CSV, Excel and JSON files that follow
    it. *)
Theorem text_file_holds_the_assembled_lines
  (read_csv : string -> option Os.content -> result Pandas.DataFrame)
  (input_value : string) (pg : page) (max_videos : option Z)
  (st : eagle_eye_videos.locals) (now : datetime) (w : world) :
  Os.has_sep (cname pg) = false ->
  eagle_eye_videos.assemble pg max_videos = (st, None) ->
  exists infos,
    List.length infos = capped (List.length (titles pg)) max_videos
    /\ Forall2 (fun i info => eagle_eye_videos.video_info pg i = Ok info)
               (seq 0 (List.length infos)) infos
    /\ Os.lookup (eagle_eye_videos.video_path pg (strftime now) ".txt")
         (files (snd (eagle_eye_videos.scrape_channel read_csv input_value
                        (Ok pg) max_videos "1" now w)))
       = Some (Os.Text
                 (video_header
                  ++ String.concat "" (map (fun info => info ++ NL) infos))).
Proof.
  intros _ A. pose proof A as L. unfold eagle_eye_videos.assemble in L.
  apply loop_infos in L as (infos & L & F & D). exists infos.
  split; [|split; [exact F|]].
  { rewrite L. unfold capped. destruct max_videos as [m|]; [|reflexivity].
    now rewrite Nat.sub_0_r. }
  cbn [eagle_eye_videos.video_data eagle_eye_videos.start app] in D.
  rewrite <- txt_lines_split, <- D.
  unfold eagle_eye_videos.scrape_channel. rewrite A.
  unfold io_bind at 1, print at 1. cbn [fst snd files stdout].
  unfold eagle_eye_videos.save. cbn [String.eqb Ascii.eqb Bool.eqb].
  match goal with
  | |- context [eagle_eye_videos.save_videos pg st ?ts ?w1] =>
      pose proof (videos_text_written pg st ts w1) as T;
      destruct (eagle_eye_videos.save_videos pg st ts w1) as [w' [u|e]]
  end; exact T.
Qed.

(** The text file of the page of two items. *)
Lemma text_file_holds_the_assembled_lines_witness :
  exists infos,
    List.length infos
    = capped (List.length (titles Sample.two_videos)) (Some 1)
    /\ Forall2 (fun i info =>
                  eagle_eye_videos.video_info Sample.two_videos i = Ok info)
               (seq 0 (List.length infos)) infos
    /\ Os.lookup
         (eagle_eye_videos.video_path Sample.two_videos
            (strftime Sample.noon) ".txt")
         (files (snd (eagle_eye_videos.scrape_channel Sample.table_reader
                        "c" (Ok Sample.two_videos) (Some 1) "1" Sample.noon
                        Sample.nothing)))
       = Some (Os.Text
                 (video_header
                  ++ String.concat "" (map (fun info => info ++ NL) infos))).
Proof.
  apply (text_file_holds_the_assembled_lines Sample.table_reader "c"
           Sample.two_videos (Some 1)
           (fst (eagle_eye_videos.assemble Sample.two_videos (Some 1)))
           Sample.noon Sample.nothing); reflexivity.
Defined.
(** ** The streams and the shorts loop *)

Section SiblingLoops.

Lemma streams_loop_is_videos_loop (pg : page) (max_videos : option Z)
  (range : list nat) : forall st,
  eagle_eye_streams.loop pg max_videos range (eagle_eye_videos.video_data st)
  = (eagle_eye_videos.video_data
       (fst (eagle_eye_videos.loop pg max_videos range st)),
     snd (eagle_eye_videos.loop pg max_videos range st)).
Proof.
  induction range as [|i range IH]; intros st;
    cbn [eagle_eye_streams.loop eagle_eye_videos.loop]; [reflexivity|].
  destruct (reached max_videos i); [reflexivity|].
  change (eagle_eye_streams.video_info pg i)
    with (eagle_eye_videos.video_info pg i).
  destruct (eagle_eye_videos.video_info pg i) as [info|e]; [|reflexivity].
  apply (IH {| eagle_eye_videos.video_data :=
                 eagle_eye_videos.video_data st ++ [Py.split Py.tab info];
               eagle_eye_videos.channel_id := Some (channel_ids pg);
               eagle_eye_videos.subscriber := Some (subscribers pg);
               eagle_eye_videos.keyword := Some (keywords pg) |}).
Qed.

End SiblingLoops.

(** X23. The loop of the streams scraper is the loop of the videos
    scraper: on every page and under every maximum the two assemble the
    same records and end on the same exception, if any. *)
Theorem streams_assemble_as_videos (pg : page) (max_videos : option Z) :
  eagle_eye_streams.assemble pg max_videos
  = (eagle_eye_videos.video_data
       (fst (eagle_eye_videos.assemble pg max_videos)),
     snd (eagle_eye_videos.assemble pg max_videos)).
Proof.
  unfold eagle_eye_streams.assemble, eagle_eye_videos.assemble.
  apply (streams_loop_is_videos_loop pg max_videos _ eagle_eye_videos.start).
Qed.

(** X24. No text read for a short holding a tab, the record assembled for
    it has six fields: channel, identifier, title, views, the last piece
    of the address after a slash, and the link. *)
Theorem clean_short_has_six_fields (pg : page) (i : nat) (info : string) :
  eagle_eye_shorts.video_info pg i = Ok info ->
  tabless (cname pg) /\ tabless (channel_ids pg)
  /\ tabless (nth i (titles pg) "") /\ tabless (nth i (counts pg) "")
  /\ tabless (nth i (video_ids pg) "")
  /\ tabless (nth i (video_links pg) "") ->
  exists view,
    eagle_eye_utils.format_number
      (Py.split_first " " (nth i (counts pg) "")) = Ok view
    /\ record_at eagle_eye_shorts.video_info pg i
       = [cname pg; channel_ids pg; nth i (titles pg) ""; view;
          Py.split_last "/" (nth i (video_ids pg) "");
          "https://www.youtube.com" ++ nth i (video_links pg) ""].
Proof.
  intros Hi (C1 & C2 & C3 & C4 & C5 & C6).
  unfold record_at. rewrite Hi.
  unfold eagle_eye_shorts.video_info, Py.index in Hi.
  repeat match type of Hi with
         | context [nth_error ?l i] =>
             let E := fresh "E" in
             destruct (nth_error l i) eqn:E; [|discriminate Hi];
             rewrite (nth_error_nth _ _ _ E) in *; clear E;
             cbn [bind] in Hi
         | context [eagle_eye_utils.format_number ?s] =>
             let F := fresh "F" in
             destruct (eagle_eye_utils.format_number s) eqn:F;
             [|discriminate Hi];
             apply tabless_format_number in F;
             [|now apply tabless_split_first];
             cbn [bind] in Hi
         end.
  apply (f_equal (fun r => match r with Ok x => x | Raise _ => "" end)) in Hi.
  cbv beta iota in Hi. subst info. eexists. split; [reflexivity|].
  pose proof (tabless_split_last "/" _ C5) as Ti.
  match goal with
  | |- context [TAB ++ "https://www.youtube.com" ++ ?l] =>
      assert (Tl : tabless ("https://www.youtube.com" ++ l))
        by (apply tabless_append; [|exact C6];
            unfold tabless; repeat constructor; discriminate)
  end.
  rewrite !split_field by assumption.
  now rewrite split_last_field by assumption.
Qed.

(** The second of the two shorts of the sample page. *)
Lemma clean_short_has_six_fields_witness :
  exists view,
    eagle_eye_utils.format_number
      (Py.split_first " " (nth 1 (counts Sample.two_shorts) "")) = Ok view
    /\ record_at eagle_eye_shorts.video_info Sample.two_shorts 1
       = [cname Sample.two_shorts; channel_ids Sample.two_shorts;
          nth 1 (titles Sample.two_shorts) ""; view;
          Py.split_last "/" (nth 1 (video_ids Sample.two_shorts) "");
          "https://www.youtube.com"
          ++ nth 1 (video_links Sample.two_shorts) ""].
Proof.
  apply (clean_short_has_six_fields Sample.two_shorts 1
           ("@c" ++ TAB ++ "UC1" ++ TAB ++ "t2" ++ TAB ++ "7" ++ TAB ++ "x2"
            ++ TAB ++ "https://www.youtube.com/shorts/x2")).
  - vm_compute. reflexivity.
  - unfold tabless.
    repeat split; vm_compute; repeat constructor; discriminate.
Defined.

(** ** The loop of [main] over the channels *)

(** X25. [main] collects what the scrapers return, channel after channel
    in the order given: when the page of every channel was loaded and
    queried, the data after the loop is the data before it followed, for
    each channel in turn, by the records the loop of the selected scraper
    appended for its page, whether that loop ended or raised and whatever
    became of the files of the channel. *)
Theorem channels_are_scraped_in_order
  (read_csv : string -> option Os.content -> result Pandas.DataFrame)
  (selection : string) (max_videos : option Z) (choice_info : string)
  (channels_to_scrape : list eagle_eye_main.visit) (pages : list page)
  (data : list (list string)) (w : world) :
  In selection ["videos"; "streams"; "shorts"] ->
  map eagle_eye_main.extracted channels_to_scrape = map Ok pages ->
  fst (eagle_eye_main.scrape_all read_csv selection max_videos choice_info
         channels_to_scrape data w)
  = (data ++ flat_map (returned selection max_videos) pages)%list.
Proof.
  intros _. revert pages data w.
  induction channels_to_scrape as [|v l IH]; intros pages data w E;
    destruct pages as [|pg pages]; try discriminate E.
  - cbn. now rewrite app_nil_r.
  - cbn [map] in E. injection E as Ev El.
    cbn [eagle_eye_main.scrape_all flat_map]. rewrite Ev.
    assert (R : fst (if String.eqb selection "videos" then
                       eagle_eye_videos.scrape_channel read_csv
                         (Py.strip (eagle_eye_main.channel v)) (Ok pg)
                         max_videos choice_info (eagle_eye_main.clock v) w
                     else if String.eqb selection "streams" then
                       eagle_eye_streams.scrape_channel
                         (Py.strip (eagle_eye_main.channel v)) (Ok pg)
                         max_videos (eagle_eye_main.clock v) w
                     else
                       eagle_eye_shorts.scrape_channel read_csv
                         (Py.strip (eagle_eye_main.channel v)) (Ok pg)
                         max_videos w)
                = returned selection max_videos pg).
    { unfold returned.
      destruct (String.eqb selection "videos");
        [|destruct (String.eqb selection "streams")].
      - unfold eagle_eye_videos.scrape_channel.
        destruct (eagle_eye_videos.assemble pg max_videos) as [st [e|]];
          [reflexivity|].
        now destruct (io_bind _ _ w) as [w' [u|e]].
      - unfold eagle_eye_streams.scrape_channel.
        destruct (eagle_eye_streams.assemble pg max_videos) as [d [e|]];
          [reflexivity|].
        now destruct (io_bind _ _ w) as [w' [u|e]].
      - unfold eagle_eye_shorts.scrape_channel.
        destruct (eagle_eye_shorts.assemble pg max_videos) as [d [e|]];
          [reflexivity|].
        now destruct (io_bind _ _ w) as [w' [u|e]]. }
    destruct (if String.eqb selection "videos" then _ else _) as [d w'].
    cbn [fst] in R. subst d. rewrite (IH pages _ w' El).
    now rewrite app_assoc.
Qed.

(** Two channels: the loop of the first ends after two records, the loop
    of the second raises after one. *)
Lemma channels_are_scraped_in_order_witness :
  fst (eagle_eye_main.scrape_all Sample.table_reader "videos" None "1"
         [{| eagle_eye_main.channel := "c";
             eagle_eye_main.extracted := Ok Sample.two_videos;
             eagle_eye_main.clock := Sample.noon |};
          {| eagle_eye_main.channel := "d";
             eagle_eye_main.extracted := Ok Sample.short_terms;
             eagle_eye_main.clock := Sample.a_second_later |}]
         [] Sample.nothing)
  = ([] ++ flat_map (returned "videos" None)
             [Sample.two_videos; Sample.short_terms])%list.
Proof.
  apply (channels_are_scraped_in_order Sample.table_reader "videos" None "1"
           [{| eagle_eye_main.channel := "c";
               eagle_eye_main.extracted := Ok Sample.two_videos;
               eagle_eye_main.clock := Sample.noon |};
            {| eagle_eye_main.channel := "d";
               eagle_eye_main.extracted := Ok Sample.short_terms;
               eagle_eye_main.clock := Sample.a_second_later |}]
           [Sample.two_videos; Sample.short_terms] [] Sample.nothing);
    [simpl; tauto|reflexivity].
Defined.

(** ** Counts that are already grouped *)

Section Grouped.

Import PyFloat.

Lemma drop_underscores_other (prev : option ascii) (c : ascii)
  (l : list ascii) :
  c <> "_"%char ->
  drop_underscores prev (c :: l)
  = if match prev with
       | Some "_"%char => true
       | _ => false
       end && negb (is_digit c)
    then None
    else option_map (cons c) (drop_underscores (Some c) l).
Proof.
  intros N. destruct c as [[] [] [] [] [] [] [] []];
    first [reflexivity | now elim N].
Qed.

Lemma drop_underscores_keep (x : ascii) (l : list ascii) :
  x <> "_"%char ->
  forall prev l', drop_underscores prev l = Some l' -> In x l -> In x l'.
Proof.
  intros Nx. induction l as [|c l IH]; intros prev l' H I; [destruct I|].
  destruct (Ascii.eqb_spec c "_") as [->|N].
  - destruct I as [E|I]; [now elim Nx|]. cbn [drop_underscores] in H.
    destruct prev as [p|]; [|discriminate H].
    destruct (is_digit p); [|discriminate H]. now apply (IH _ _ H).
  - rewrite (drop_underscores_other prev c l N) in H.
    destruct (_ && negb (is_digit c)); [discriminate H|].
    destruct (drop_underscores (Some c) l) as [r|] eqn:R; [|discriminate H].
    injection H as <-. destruct I as [->|I]; [now left|].
    right. now apply (IH _ _ R).
Qed.

Lemma float_lstrip_keep (x : ascii) (l : list ascii) :
  isspace x = false -> In x l -> In x (lstrip l).
Proof.
  intros Hx. induction l as [|c l IH]; intros I; [destruct I|].
  cbn [lstrip]. destruct (isspace c) eqn:E; [|exact I].
  destruct I as [->|I]; [congruence|now apply IH].
Qed.

Lemma take_sign_keep (x : ascii) (l : list ascii) :
  x <> "-"%char -> x <> "+"%char -> In x l -> In x (snd (take_sign l)).
Proof.
  intros N1 N2 I. destruct l as [|c l]; [destruct I|].
  destruct (Ascii.eqb_spec c "-") as [->|M1].
  - destruct I as [E|I]; [now elim N1|exact I].
  - destruct (Ascii.eqb_spec c "+") as [->|M2].
    + destruct I as [E|I]; [now elim N2|exact I].
    + replace (take_sign (c :: l)) with (false, c :: l); [exact I|].
      destruct c as [[] [] [] [] [] [] [] []];
        first [reflexivity | now elim M1 | now elim M2].
Qed.

Lemma span_digits_keep (x : ascii) (l : list ascii) :
  is_digit x = false -> In x l -> In x (snd (span_digits l)).
Proof.
  intros Hx. induction l as [|c l IH]; intros I; [destruct I|].
  cbn [span_digits]. destruct (is_digit c) eqn:E; [|exact I].
  destruct I as [->|I]; [congruence|].
  specialize (IH I). now destruct (span_digits l).
Qed.

Lemma take_exponent_keep (l : list ascii) :
  In ","%char l -> In ","%char (snd (take_exponent l)).
Proof.
  intros I. destruct l as [|c l]; [destruct I|]. cbn [take_exponent].
  destruct (Ascii.eqb c "e" || Ascii.eqb c "E") eqn:E; [|exact I].
  assert (Il : In ","%char l).
  { destruct I as [->|I]; [discriminate E|exact I]. }
  pose proof (take_sign_keep "," l ltac:(discriminate) ltac:(discriminate) Il)
    as Is.
  destruct (take_sign l) as [neg l']. cbn [snd] in Is.
  pose proof (span_digits_keep "," l' eq_refl Is) as Id.
  destruct (span_digits l') as [[|d ds] r]; [exact I|exact Id].
Qed.

Lemma inf_or_nan_comma (neg : bool) (l : list ascii) :
  In ","%char l -> inf_or_nan neg l = None.
Proof.
  intros I. unfold inf_or_nan.
  assert (Il : In ","%char (Py.chars (Py.str (map lower l)))).
  { rewrite chars_str. apply in_map_iff. exists ","%char. now split. }
  destruct (String.eqb_spec (Py.str (map lower l)) "inf") as [E|_].
  { rewrite E in Il. cbn in Il. repeat destruct Il as [Il|Il];
      try discriminate Il. destruct Il. }
  destruct (String.eqb_spec (Py.str (map lower l)) "infinity") as [E|_].
  { rewrite E in Il. cbn in Il. repeat destruct Il as [Il|Il];
      try discriminate Il. destruct Il. }
  destruct (String.eqb_spec (Py.str (map lower l)) "nan") as [E|_].
  { rewrite E in Il. cbn in Il. repeat destruct Il as [Il|Il];
      try discriminate Il. destruct Il. }
  reflexivity.
Qed.

Lemma take_decimal_comma (l : list ascii) :
  In ","%char l ->
  match take_decimal l with
  | Some (_, _, r) => r <> []
  | None => True
  end.
Proof.
  intros I. unfold take_decimal.
  pose proof (span_digits_keep "," l eq_refl I) as I1.
  destruct (span_digits l) as [ip r1]. cbn [snd] in I1.
  assert (I2 : In ","%char
                 (snd match r1 with
                      | "."%char :: r => span_digits r
                      | _ => ([], r1)
                      end)).
  { destruct r1 as [|c r]; [destruct I1|].
    destruct (Ascii.eqb_spec c ".") as [->|N].
    - destruct I1 as [E|I1]; [discriminate E|].
      now apply span_digits_keep.
    - replace (match c :: r with
               | "."%char :: r0 => span_digits r0
               | _ => ([], c :: r)
               end) with (@nil ascii, c :: r); [exact I1|].
      destruct c as [[] [] [] [] [] [] [] []];
        first [reflexivity | now elim N]. }
  destruct (match r1 with
            | "."%char :: r => span_digits r
            | _ => ([], r1)
            end) as [fp r2].
  cbn [snd] in I2. destruct (ip ++ fp)%list; [exact Logic.I|].
  pose proof (take_exponent_keep r2 I2) as I3.
  destruct (take_exponent r2) as [ex r3]. cbn [snd] in I3.
  intros ->. destruct I3.
Qed.

(** [float] reads no string that holds a comma. *)
Lemma parse_comma (s : string) :
  In ","%char (Py.chars s) -> parse s = None.
Proof.
  intros I. unfold parse.
  destruct (drop_underscores None (Py.chars s)) as [l|] eqn:D; [|reflexivity].
  pose proof (drop_underscores_keep "," (Py.chars s) ltac:(discriminate)
                None l D I) as Il.
  assert (Ib : In ","%char (rev (lstrip (rev (lstrip l))))).
  { apply in_rev. rewrite rev_involutive.
    apply float_lstrip_keep; [reflexivity|].
    apply -> in_rev. now apply float_lstrip_keep. }
  pose proof (take_sign_keep "," _ ltac:(discriminate) ltac:(discriminate) Ib)
    as Is.
  destruct (take_sign (rev (lstrip (rev (lstrip l))))) as [neg r].
  cbn [snd] in Is. pose proof (take_decimal_comma r Is) as Hd.
  destruct (take_decimal r) as [[[m e] [|c rest]]|];
    [now elim Hd|reflexivity|now apply inf_or_nan_comma].
Qed.

End Grouped.

(** X26. A count that holds a comma, as the counts below a million that
    the page prints already grouped, is not a number for [float], with or
    without a suffix: [format_number] returns it as it is. *)
Theorem grouped_count_is_kept (number : string) :
  In ","%char (Py.chars number) ->
  eagle_eye_utils.format_number number = Ok number.
Proof.
  intros I. unfold eagle_eye_utils.format_number,
    eagle_eye_utils.format_number_try, Py.last_char.
  destruct (rev (Py.chars number)) as [|c l] eqn:R.
  - apply (f_equal (@rev ascii)) in R. rewrite rev_involutive in R.
    rewrite R in I. destruct I.
  - cbn [bind].
    assert (E : Py.chars number = (rev l ++ [c])%list).
    { apply (f_equal (@rev ascii)) in R. now rewrite rev_involutive in R. }
    assert (F : match eagle_eye_utils.dict_get
                        eagle_eye_utils.suffix_multiplier c with
                | Some _ => PyFloat.float (Py.drop_last number)
                | None => PyFloat.float number
                end = Raise ValueError).
    { destruct (eagle_eye_utils.dict_get eagle_eye_utils.suffix_multiplier c)
        as [v|] eqn:G; unfold PyFloat.float.
      - rewrite parse_comma; [reflexivity|].
        unfold Py.drop_last. rewrite chars_str, E, removelast_last.
        rewrite E in I. apply in_app_or in I as [I|[->|[]]]; [exact I|].
        discriminate G.
      - now rewrite parse_comma. }
    rewrite F. reflexivity.
Qed.

(** A count of four digits, as the page prints it. *)
Lemma grouped_count_is_kept_witness :
  eagle_eye_utils.format_number "1,234" = Ok "1,234".
Proof.
  apply (grouped_count_is_kept "1,234"). simpl. tauto.
Defined.

(** The export of the two sample records as CSV and JSON. *)
Lemma combined_export_of_selected_formats_fails_witness :
  eagle_eye_main_run.export "videos" "1" ["1"; "4"] Scenario.two_records
    Sample.noon (Scenario.fresh [])
  = (Scenario.fresh [],
     eagle_eye_main_run.Stop (eagle_eye_main_run.Crashed UnboundLocalError)).
Proof.
  apply (combined_export_of_selected_formats_fails "videos" ["1"; "4"]
           Scenario.two_records
           {| Pandas.columns := eagle_eye_main_run.video_columns;
              Pandas.rows := map (map Pandas.CStr) Scenario.two_records |});
    [discriminate|reflexivity|discriminate| |reflexivity].
  repeat constructor; simpl; tauto.
Defined.

(** The export of the record of a title with a tab. *)
Lemma wide_record_stops_the_export_witness :
  eagle_eye_main_run.export "videos" "1" ["5"]
    [record_at eagle_eye_videos.video_info Sample.tab_title 0] Sample.noon
    (Scenario.fresh [])
  = (Scenario.fresh [],
     eagle_eye_main_run.Stop (eagle_eye_main_run.Crashed ValueError)).
Proof.
  apply (wide_record_stops_the_export "videos" "1" ["5"]
           [record_at eagle_eye_videos.video_info Sample.tab_title 0]
           (record_at eagle_eye_videos.video_info Sample.tab_title 0));
    [now left|vm_compute; lia].
Defined.

(** A run whose input ends after the first answer. *)
Lemma end_of_input_leaves_the_files_witness :
  eagle_eye_main_run.disk
    (fst (eagle_eye_main_run.main Sample.table_reader Scenario.one_channel
            Scenario.site (Scenario.fresh ["1"])))
  = eagle_eye_main_run.disk (Scenario.fresh ["1"]).
Proof.
  apply (end_of_input_leaves_the_files Sample.table_reader
           Scenario.one_channel Scenario.site (Scenario.fresh ["1"])).
  vm_compute. reflexivity.
Defined.

(** The page with a hidden subscriber count. *)
Lemma blank_subscriber_count_fails_the_videos_scraper_witness :
  (exists e,
     videos_page.queries Scenario.hidden_count = Raise e
     /\ eagle_eye_videos.scrape_channel Sample.table_reader "c"
          (videos_page.queries Scenario.hidden_count) None "1" Sample.noon
          Sample.nothing
        = ([], {| files := files Sample.nothing;
                  stdout := stdout Sample.nothing
                            ++ [ErrorWhileScraping "c" e] |}))
  /\ (exists pg,
        streams_page.queries Scenario.hidden_count = Ok pg
        /\ subscribers pg = "")
  /\ (exists pg,
        shorts_page.queries Scenario.hidden_count = Ok pg
        /\ subscribers pg = "").
Proof.
  apply (blank_subscriber_count_fails_the_videos_scraper Sample.table_reader
           Scenario.hidden_count "c" None "1" Sample.noon Sample.nothing).
  reflexivity.
Defined.

(** ** Scrolling *)

Section Scrolling.

Import scrolling.

Lemma scroll_loop_turns (k : nat) : forall fuel scroll_count driver,
  scroll_count + Z.of_nat (S k) = MAX_SCROLLS ->
  (S k <= fuel)%nat ->
  scroll_loop fuel scroll_count driver
  = Some (driver
          ++ List.concat
               (repeat [ExecuteScript "scrollBy(0, 1000);";
                        Sleep SCROLL_PAUSE] (S k)))%list.
Proof.
  induction k as [|k IH]; intros fuel scroll_count driver E L;
    (destruct fuel as [|fuel]; [lia|]); cbn [scroll_loop].
  - destruct (Z.leb_spec MAX_SCROLLS (scroll_count + 1)) as [_|N]; [|lia].
    cbn [repeat List.concat]. rewrite <- app_assoc. reflexivity.
  - destruct (Z.leb_spec MAX_SCROLLS (scroll_count + 1)) as [N|_]; [lia|].
    rewrite IH by lia. change (repeat ?x (S (S k))) with (x :: repeat x (S k)).
    cbn [List.concat]. rewrite <- !app_assoc. reflexivity.
Qed.

Lemma scroll_loop_short (fuel : nat) : forall scroll_count driver,
  scroll_count + Z.of_nat fuel < MAX_SCROLLS ->
  scroll_loop fuel scroll_count driver = None.
Proof.
  induction fuel as [|fuel IH]; intros scroll_count driver L;
    cbn [scroll_loop]; [reflexivity|].
  destruct (Z.leb_spec MAX_SCROLLS (scroll_count + 1)) as [N|_]; [lia|].
  apply IH. lia.
Qed.

End Scrolling.

(** X27. Whatever the page, the scrapers scroll it exactly a hundred times,
    by a thousand pixels and with a pause of half a second after each
    scroll: the loop leaves at its hundredth turn, not before, and asks
    nothing else of the browser. *)
Theorem page_is_scrolled_a_hundred_times (fuel : nat) (driver : list action) :
  scrolling.scroll_down_to_load fuel driver
  = if (100 <=? fuel)%nat then
      Some (driver
            ++ List.concat
                 (repeat [ExecuteScript "scrollBy(0, 1000);";
                          Sleep scrolling.SCROLL_PAUSE] 100))%list
    else None.
Proof.
  unfold scrolling.scroll_down_to_load.
  destruct (Nat.leb_spec 100 fuel) as [L|L].
  - apply (scroll_loop_turns 99); [reflexivity|exact L].
  - apply scroll_loop_short. unfold scrolling.MAX_SCROLLS. lia.
Qed.

(** X28. The prompt for the content type returns on the first line that,
    stripped, is [1], [2] or [3], with [videos], [streams] or [shorts]:
    [main] gets no other selection. Every line before printed one
    warning. *)
Theorem data_type_is_one_of_three (stdin rest : list string)
  (ns : list notice) (selection : string) :
  eagle_eye_utils_prompts.get_data_type_to_scrape stdin
  = (ns, Answered selection rest) ->
  exists rejected line,
    stdin = (rejected ++ line :: rest)%list
    /\ ns = repeat InvalidSelection (List.length rejected)
    /\ In (Py.strip line, selection)
          [("1", "videos"); ("2", "streams"); ("3", "shorts")]
    /\ Forall (fun l => ~ In (Py.strip l) ["1"; "2"; "3"]) rejected.
Proof.
  revert ns. induction stdin as [|line stdin IH]; intros ns H;
    cbn [eagle_eye_utils_prompts.get_data_type_to_scrape] in H;
    [discriminate H|].
  destruct (String.eqb_spec (Py.strip line) "1") as [E1|N1];
    [injection H as <- <- <-; exists [], line; rewrite E1;
     repeat split; simpl; auto|].
  destruct (String.eqb_spec (Py.strip line) "2") as [E2|N2];
    [injection H as <- <- <-; exists [], line; rewrite E2;
     repeat split; simpl; auto|].
  destruct (String.eqb_spec (Py.strip line) "3") as [E3|N3];
    [injection H as <- <- <-; exists [], line; rewrite E3;
     repeat split; simpl; auto|].
  apply again_answered in H as (ns' & -> & H).
  destruct (IH ns' H) as (rejected & line' & E & En & Hs & F).
  exists (line :: rejected), line'. subst stdin ns'.
  repeat split; trivial. constructor; [|exact F].
  intros [I|[I|[I|[]]]]; congruence.
Qed.

(** The prompt for the content type, on a word and then [2]. *)
Lemma data_type_is_one_of_three_witness :
  exists rejected line,
    ["streams"; " 2 "; "x"] = (rejected ++ line :: ["x"])%list
    /\ [InvalidSelection] = repeat InvalidSelection (List.length rejected)
    /\ In (Py.strip line, "streams")
          [("1", "videos"); ("2", "streams"); ("3", "shorts")]
    /\ Forall (fun l => ~ In (Py.strip l) ["1"; "2"; "3"]) rejected.
Proof.
  apply (data_type_is_one_of_three ["streams"; " 2 "; "x"] ["x"]
           [InvalidSelection] "streams").
  vm_compute. reflexivity.
Defined.

(** ** The fields read from the about section *)

Section AboutSection.

Variable P : ascii -> Prop.

Lemma split_at_keep (sep : list ascii) (l : list ascii) :
  Forall P l -> forall skip cur,
  Forall P cur -> Forall (Forall P) (PyStr.split_at sep skip cur l).
Proof.
  induction 1 as [|c l Hc Hl IH]; intros skip cur Hcur;
    cbn [PyStr.split_at].
  - constructor; [now apply Forall_rev|constructor].
  - destruct skip as [|k]; [|now apply IH].
    destruct (PyStr.starts sep (c :: l)).
    + constructor; [now apply Forall_rev|]. apply IH. constructor.
    + apply IH. now constructor.
Qed.

Lemma str_split_keep (sep s : string) :
  Forall P (Py.chars s) ->
  Forall (fun x => Forall P (Py.chars x)) (PyStr.split sep s).
Proof.
  intros H. unfold PyStr.split. apply Forall_map.
  pose proof (split_at_keep (Py.chars sep) (Py.chars s) H 0 []
                (Forall_nil P)) as F.
  revert F. apply Forall_impl. intros w Hw. now rewrite chars_str.
Qed.

Lemma Forall_skipn (n : nat) (l : list ascii) :
  Forall P l -> Forall P (skipn n l).
Proof.
  revert l. induction n as [|n IH]; intros l H; [exact H|].
  destruct l as [|c l]; [constructor|]. cbn [skipn]. apply IH.
  now inversion H.
Qed.

Lemma find_first_keep (sep : list ascii) (l : list ascii) :
  Forall P l -> forall before a b,
  Forall P before ->
  PyStr.find_first sep before l = Some (a, b) ->
  Forall P a /\ Forall P b.
Proof.
  induction 1 as [|c l Hc Hl IH]; intros before a b Hb H;
    cbn [PyStr.find_first] in H; [discriminate H|].
  destruct (PyStr.starts sep (c :: l)).
  - injection H as <- <-. split; [now apply Forall_rev|].
    apply Forall_skipn. now constructor.
  - apply (IH (c :: before)); [now constructor|exact H].
Qed.

Lemma rsplit1_keep (sep s : string) :
  Forall P (Py.chars s) ->
  Forall (fun x => Forall P (Py.chars x)) (PyStr.rsplit1 sep s).
Proof.
  intros H. unfold PyStr.rsplit1.
  destruct (PyStr.find_first _ [] (rev (Py.chars s))) as [[a b]|] eqn:E.
  - apply find_first_keep in E as [Ha Hb];
      [|now apply Forall_rev|constructor].
    repeat constructor; rewrite chars_str; now apply Forall_rev.
  - now repeat constructor.
Qed.

Lemma span_word_keep (l : list ascii) :
  Forall P l ->
  Forall P (fst (PyStr.span_word l)) /\ Forall P (snd (PyStr.span_word l)).
Proof.
  induction 1 as [|c l Hc Hl [IH1 IH2]]; cbn [PyStr.span_word];
    [now split|].
  destruct (Py.isspace c); [split; [constructor|now constructor]|].
  destruct (PyStr.span_word l) as [w r]. cbn [fst snd] in *.
  split; [now constructor|exact IH2].
Qed.

Lemma split_blank1_keep (s : string) :
  Forall P (Py.chars s) ->
  Forall (fun x => Forall P (Py.chars x)) (PyStr.split_blank1 s).
Proof.
  intros H. unfold PyStr.split_blank1.
  pose proof (lstrip_keep P _ H) as H1.
  destruct (Py.lstrip_chars (Py.chars s)) as [|c l] eqn:E; [constructor|].
  destruct (span_word_keep (c :: l) H1) as [Hw Hr].
  destruct (PyStr.span_word (c :: l)) as [w r]. cbn [fst snd] in *.
  pose proof (lstrip_keep P _ Hr) as H2.
  destruct (Py.lstrip_chars r) as [|d r'].
  - constructor; [now rewrite chars_str|constructor].
  - constructor; [now rewrite chars_str|].
    constructor; [now rewrite chars_str|constructor].
Qed.

Lemma split_first_keep (c : ascii) (s : string) :
  Forall P (Py.chars s) -> Forall P (Py.chars (Py.split_first c s)).
Proof.
  unfold Py.split_first, Py.split. intros H.
  apply (split_chars_keep _ c) in H.
  destruct (Py.split_chars c (Py.chars s)) as [|w ws]; cbn [map hd].
  - constructor.
  - rewrite chars_str. now inversion H.
Qed.

Lemma index_keep (l : list string) (i : nat) (x : string) :
  Forall (fun x => Forall P (Py.chars x)) l ->
  Py.index l i = Ok x -> Forall P (Py.chars x).
Proof.
  unfold Py.index. intros F H.
  destruct (nth_error l i) as [y|] eqn:E; [|discriminate H].
  injection H as <-. apply nth_error_In in E.
  rewrite Forall_forall in F. now apply F.
Qed.

Lemma hd_keep (l : list string) :
  Forall (fun x => Forall P (Py.chars x)) l -> Forall P (Py.chars (hd "" l)).
Proof.
  intros F. destruct l as [|x l]; [constructor|]. now inversion F.
Qed.

Lemma chars_keep_append (a b : string) :
  Forall P (Py.chars a) -> Forall P (Py.chars b) ->
  Forall P (Py.chars (a ++ b)).
Proof.
  rewrite chars_append. intros. now apply Forall_app.
Qed.

End AboutSection.

Lemma replace_newline (s : string) :
  Forall (fun c => c <> Py.newline)
         (Py.chars (PyStr.replace Py.newline SPACE s)).
Proof.
  rewrite replace_chars. apply Forall_forall. intros c Hc.
  apply in_map_iff in Hc as (x & <- & _).
  destruct (Ascii.eqb_spec x Py.newline); [discriminate|assumption].
Qed.

(** X29. What the videos scraper keeps of the about section, the join
    date, the location and the total of views, holds no line break: each
    is cut out of a text in which the line breaks were replaced by
    blanks. *)
Theorem about_fields_hold_no_line_break (s : soup) (pg : page) :
  videos_page.queries s = Ok pg ->
  Forall (fun c => c <> Py.newline) (Py.chars (joined pg))
  /\ Forall (fun c => c <> Py.newline) (Py.chars (location pg))
  /\ Forall (fun c => c <> Py.newline) (Py.chars (global_views pg)).
Proof.
  set (Q := fun c : ascii => c <> Py.newline).
  unfold videos_page.queries. intros H.
  destruct (Py.index (PyStr.split "Joined " (about_section s)) 1)
    as [one|] eqn:E1; [|discriminate H]. cbn [bind] in H.
  pose proof (replace_newline (Py.strip one)) as H1. fold Q in H1.
  set (channel_details_one :=
         PyStr.replace Py.newline SPACE (Py.strip one)) in *.
  pose proof (rsplit1_keep Q ", " channel_details_one H1) as H2.
  destruct (PyStr.rsplit1 ", " channel_details_one)
    as [|date [|rest [|x l]]]; try discriminate H.
  cbn [unpack2 bind fst snd] in H.
  inversion H2 as [|? ? Hd H2']; subst. inversion H2' as [|? ? Hr _]; subst.
  destruct (Py.index (PyStr.split_blank1 rest) 1) as [loc|] eqn:E2;
    [|discriminate H]. cbn [bind] in H.
  pose proof (index_keep Q _ _ _ (split_blank1_keep Q rest Hr) E2) as Hl.
  destruct (eagle_eye_utils.format_number _); [|discriminate H].
  cbn [bind] in H. injection H as <-. cbn [joined location global_views].
  split; [|split].
  - apply chars_keep_append; [exact Hd|].
    constructor; [discriminate|]. now apply split_first_keep.
  - exact Hl.
  - apply strip_keep, hd_keep, str_split_keep, replace_newline.
Qed.

(** The about section of a sample page, on three lines. *)
Lemma about_fields_hold_no_line_break_witness :
  Forall (fun c => c <> Py.newline) (Py.chars "Jan 1 2020")
  /\ Forall (fun c => c <> Py.newline) (Py.chars "Spain 2 videos 5 views")
  /\ Forall (fun c => c <> Py.newline) (Py.chars "5").
Proof.
  apply (about_fields_hold_no_line_break
           {| about_section :=
                "Joined Jan 1, 2020" ++ NL ++ "Spain" ++ NL
                ++ "2 videos 5 views";
              channel_handle := "@c"; identifier := "UC1";
              subscriber_count := "1.2K subscribers"; og_description := "d";
              og_video_tags := []; title_links := []; title_spans := [];
              metadata_items := []; slim_media_links := [];
              time_status := [] |}
           {| cname := "@c"; channel_ids := "UC1"; subscribers := "1,200";
              description := "d"; keywords := []; joined := "Jan 1 2020";
              location := "Spain 2 videos 5 views"; global_views := "5";
              titles := []; uploads := []; counts := []; video_ids := [];
              video_links := []; terms := [] |}).
  vm_compute. reflexivity.
Defined.
